(** * Disaster impact services: a shallow embedding

    The backend services [impactCalculation.js] and [spatialAnalysis.js],
    the infrastructure controller and the error-handling middleware are
    embedded as Rocq functions.  JavaScript numbers are modelled by exact
    rationals extended with the three IEEE special values the code can
    produce (NaN and the two infinities); binary rounding error is not
    modelled.  The database is a record of tables queried by functions
    that follow the SQL text of each statement. *)

From Stdlib Require Import ZArith QArith Qround Qabs Qminmax Lqa Lia List Permutation
  SetoidList Sorted Ascii String.
From stdpp Require Import gmap strings pretty.
Import ListNotations.

(** ** JavaScript numbers *)

Module Js.

Inductive num : Type :=
| Fin (q : Q)
| PInf
| NInf
| NaN.

Definition of_Z (z : Z) : num := Fin (inject_Z z).

(** Infinity carrying the sign of a comparison with zero; a zero operand
    gives NaN (0 * Infinity, 0 / 0). *)
Definition signed_inf (c : comparison) : num :=
  match c with
  | Gt => PInf
  | Lt => NInf
  | Eq => NaN
  end.

Definition add (a b : num) : num :=
  match a, b with
  | NaN, _ | _, NaN => NaN
  | Fin x, Fin y => Fin (x + y)
  | PInf, NInf | NInf, PInf => NaN
  | PInf, _ | _, PInf => PInf
  | NInf, _ | _, NInf => NInf
  end.

Definition mul (a b : num) : num :=
  match a, b with
  | NaN, _ | _, NaN => NaN
  | Fin x, Fin y => Fin (x * y)
  | Fin x, PInf | PInf, Fin x => signed_inf (x ?= 0)%Q
  | Fin x, NInf | NInf, Fin x => signed_inf (0 ?= x)%Q
  | PInf, PInf | NInf, NInf => PInf
  | PInf, NInf | NInf, PInf => NInf
  end.

(** Division; the zero divisor is the positive zero. *)
Definition div (a b : num) : num :=
  match a, b with
  | NaN, _ | _, NaN => NaN
  | Fin x, Fin y =>
      if Qeq_bool y 0 then signed_inf (x ?= 0)%Q else Fin (x / y)
  | Fin _, PInf | Fin _, NInf => Fin 0
  | PInf, Fin y => if Qle_bool 0 y then PInf else NInf
  | NInf, Fin y => if Qle_bool 0 y then NInf else PInf
  | _, _ => NaN
  end.

(** [Math.round]: nearest integer, halves towards plus infinity. *)
Definition Math_round (a : num) : num :=
  match a with
  | Fin x => of_Z (Qfloor (x + (1 # 2)))
  | other => other
  end.

(** [Math.min] of two arguments. *)
Definition Math_min (a b : num) : num :=
  match a, b with
  | NaN, _ | _, NaN => NaN
  | NInf, _ | _, NInf => NInf
  | PInf, o | o, PInf => o
  | Fin x, Fin y => Fin (if Qle_bool x y then x else y)
  end.

(** Truthiness of a number: 0 and NaN are falsy. *)
Definition truthy (a : num) : bool :=
  match a with
  | Fin x => negb (Qeq_bool x 0)
  | NaN => false
  | _ => true
  end.

(** [v || d] where [v] is a property read ([None] is [undefined]). *)
Definition or_default (v : option num) (d : num) : num :=
  match v with
  | Some x => if truthy x then x else d
  | None => d
  end.

(** [a > b] and [a <= b] as JavaScript evaluates them (false on NaN). *)
Definition gt (a b : num) : Prop :=
  match a, b with
  | NaN, _ | _, NaN => False
  | Fin x, Fin y => (y < x)%Q
  | PInf, PInf | NInf, _ | _, PInf => False
  | PInf, _ | Fin _, NInf => True
  end.

Definition le (a b : num) : Prop :=
  match a, b with
  | NaN, _ | _, NaN => False
  | Fin x, Fin y => (x <= y)%Q
  | NInf, _ | _, PInf => True
  | PInf, _ | Fin _, NInf => False
  end.

(** Numeric equality of two results ([===] on non-NaN numbers). *)
Definition same (a b : num) : Prop :=
  match a, b with
  | Fin x, Fin y => (x == y)%Q
  | PInf, PInf | NInf, NInf => True
  | _, _ => False
  end.

(** The names of the properties every object literal inherits from
    [Object.prototype]. *)
Definition Object_prototype : list string :=
  ["constructor"; "__defineGetter__"; "__defineSetter__"; "hasOwnProperty";
   "__lookupGetter__"; "__lookupSetter__"; "isPrototypeOf";
   "propertyIsEnumerable"; "toString"; "valueOf"; "__proto__"; "toLocaleString"].

Definition inherited (key : string) : bool :=
  existsb (String.eqb key) Object_prototype.

(** What an arithmetic expression is handed: a number, or a function or
    object. *)
Inductive operand : Type :=
| ANumber (n : num)
| AnObject.

(** [table[key]] on an object literal whose own properties are the
    numbers of [table]: an own property, else the function (for
    [__proto__], the object) inherited under that name, else
    [undefined]. *)
Definition read (table : gmap string num) (key : string) : option operand :=
  match table !! key with
  | Some n => Some (ANumber n)
  | None => if inherited key then Some AnObject else None
  end.

(** [v || d] where [v] was read from such a table: a function or object
    is truthy. *)
Definition or_number (v : option operand) (d : num) : operand :=
  match v with
  | Some (ANumber x) => ANumber (if truthy x then x else d)
  | Some AnObject => AnObject
  | None => ANumber d
  end.

(** [ToNumber]: a function or a plain object converts to NaN. *)
Definition ToNumber (v : operand) : num :=
  match v with
  | ANumber n => n
  | AnObject => NaN
  end.

(** The key under which a value indexes an object: [null] reads the
    property named "null". *)
Definition property_key (k : option string) : string :=
  match k with
  | Some s => s
  | None => "null"
  end.

(** Values read from a result row: the driver delivers SQL NULL as
    [null], 64-bit integers (the type of SUM and COUNT) as decimal text
    and double precision values as numbers. *)
Inductive value : Type :=
| JNull
| JString (s : string)
| JNumber (n : num).

Definition bigint_text (z : Z) : value := JString (pretty z).

Definition bigint_value (v : option Z) : value :=
  match v with
  | Some z => bigint_text z
  | None => JNull
  end.

Definition is_number_zero (v : value) : Prop :=
  match v with
  | JNumber (Fin q) => (q == 0)%Q
  | _ => False
  end.

Definition digit_value (a : ascii) : option Z :=
  let n := Z.of_nat (nat_of_ascii a) in
  if ((48 <=? n) && (n <=? 57))%Z then Some (n - 48)%Z else None.

(** The longest prefix of decimal digits, [None] when it is empty. *)
Fixpoint leading_digits (s : string) (acc : option Z) : option Z :=
  match s with
  | EmptyString => acc
  | String a rest =>
      match digit_value a with
      | Some d => leading_digits rest (Some (10 * default 0 acc + d)%Z)
      | None => acc
      end
  end.

Fixpoint skip_spaces (s : string) : string :=
  match s with
  | String " "%char rest => skip_spaces rest
  | _ => s
  end.

(** White space as [parseInt] skips it (StrWhiteSpaceChar).  A string
    holds the UTF-8 bytes of the text, so a white space character is one
    of the bytes 9 to 13 and 32, or the sequence of U+00A0, U+1680,
    U+2000 to U+200A, U+2028, U+2029, U+202F, U+205F, U+3000 or
    U+FEFF. *)
Definition white_space_3 (a b c : N) : bool :=
  (((a =? 225) && (b =? 154) && (c =? 128))
   || ((a =? 226) && (b =? 128)
       && (((128 <=? c) && (c <=? 138)) || (c =? 168) || (c =? 169) || (c =? 175)))
   || ((a =? 226) && (b =? 129) && (c =? 159))
   || ((a =? 227) && (b =? 128) && (c =? 128))
   || ((a =? 239) && (b =? 187) && (c =? 191)))%N.

Fixpoint skip_white_space (s : string) : string :=
  match s with
  | EmptyString => s
  | String a rest =>
      let x := N_of_ascii a in
      if ((x =? 32) || ((9 <=? x) && (x <=? 13)))%N then skip_white_space rest
      else
        match rest with
        | EmptyString => s
        | String b rest2 =>
            let y := N_of_ascii b in
            if ((x =? 194) && (y =? 160))%N then skip_white_space rest2
            else
              match rest2 with
              | EmptyString => s
              | String c rest3 =>
                  if white_space_3 x y (N_of_ascii c) then skip_white_space rest3
                  else s
              end
        end
  end.

Definition hex_digit_value (a : ascii) : option Z :=
  let n := Z.of_nat (nat_of_ascii a) in
  if ((48 <=? n) && (n <=? 57))%Z then Some (n - 48)%Z
  else if ((97 <=? n) && (n <=? 102))%Z then Some (n - 87)%Z
  else if ((65 <=? n) && (n <=? 70))%Z then Some (n - 55)%Z
  else None.

(** The longest prefix of hexadecimal digits, [None] when it is empty. *)
Fixpoint leading_hex_digits (s : string) (acc : option Z) : option Z :=
  match s with
  | EmptyString => acc
  | String a rest =>
      match hex_digit_value a with
      | Some d => leading_hex_digits rest (Some (16 * default 0 acc + d)%Z)
      | None => acc
      end
  end.

(** The text after a prefix [0x] or [0X]. *)
Definition strip_hex_prefix (s : string) : option string :=
  match s with
  | String "0"%char (String "x"%char rest) => Some rest
  | String "0"%char (String "X"%char rest) => Some rest
  | _ => None
  end.

(** The digits after the sign: hexadecimal ones after a prefix [0x],
    decimal ones otherwise; NaN when there is no digit. *)
Definition parseInt_digits (sign : Z) (rest : string) : num :=
  match strip_hex_prefix rest with
  | Some hex =>
      match leading_hex_digits hex None with
      | Some z => of_Z (sign * z)
      | None => NaN
      end
  | None =>
      match leading_digits rest None with
      | Some z => of_Z (sign * z)
      | None => NaN
      end
  end.

(** [parseInt(text)] without a radix: white space, an optional sign,
    then the digits. *)
Definition parseInt_text (s : string) : num :=
  match skip_white_space s with
  | String "-"%char rest => parseInt_digits (-1)%Z rest
  | String "+"%char rest => parseInt_digits 1%Z rest
  | rest => parseInt_digits 1%Z rest
  end.

(** [parseInt(v)]: the argument is converted to text first; a finite
    number is cut to its integer part. *)
Definition parseInt (v : value) : num :=
  match v with
  | JNull => parseInt_text "null"
  | JString s => parseInt_text s
  | JNumber (Fin q) => of_Z (if Qle_bool 0 q then Qfloor q else Qceiling q)
  | JNumber _ => NaN
  end.

(** The double nearest to a whole number, halves to the even mantissa;
    every whole number below 2^53 in magnitude is a double. *)
Definition nearest_double (z : Z) : Z :=
  let a := Z.abs z in
  let bits := (Z.log2 a + 1)%Z in
  if (bits <=? 53)%Z then z
  else
    let shift := (bits - 53)%Z in
    let q := Z.shiftr a shift in
    let r := (a - Z.shiftl q shift)%Z in
    let half := Z.shiftl 1 (shift - 1) in
    let q' := if ((half <? r) || ((r =? half) && Z.odd q))%Z then (q + 1)%Z else q in
    (Z.sgn z * Z.shiftl q' shift)%Z.

(** The whole number [String(d)] prints for a double [d] of 2^53 or more
    and less than 10^21: the multiple of the greatest power of ten that
    reads back as [d], the one closest to [d] when two do and the even
    one of two equally close.  So 2^63 is printed as
    9223372036854776000. *)
Fixpoint shortest_digits_from (j : nat) (a : Z) : Z :=
  let scale := (10 ^ Z.of_nat j)%Z in
  let lo := (a / scale * scale)%Z in
  let hi := (lo + scale)%Z in
  let reads_back v := (nearest_double v =? a)%Z in
  let here :=
    if reads_back lo && reads_back hi then
      if (a - lo <? hi - a)%Z then Some lo
      else if (hi - a <? a - lo)%Z then Some hi
      else if Z.even (a / scale) then Some lo else Some hi
    else if reads_back lo then Some lo
    else if reads_back hi then Some hi
    else None in
  match here, j with
  | Some v, _ => v
  | None, O => a
  | None, S j' => shortest_digits_from j' a
  end.

Definition shortest_digits (d : Z) : Z :=
  (Z.sgn d * shortest_digits_from 20 (Z.abs d))%Z.

(** The digits in which the driver sends a number to an integer
    position ([String(n)]): a whole number below 10^21 in magnitude is
    printed as plain digits, its own below 2^53; [None] stands for every
    other text (a fraction, an exponent, NaN, Infinity), which no
    integer type reads. *)
Definition integer_digits (n : num) : option Z :=
  match n with
  | Fin q =>
      if Qeq_bool q (inject_Z (Qfloor q)) then
        let d := nearest_double (Qfloor q) in
        if (10 ^ 21 <=? Z.abs d)%Z then None
        else if (Z.abs d <? 2 ^ 53)%Z then Some d
        else Some (shortest_digits d)
      else None
  | _ => None
  end.

(** ** Thrown errors and rejected promises *)

(** The properties of an error object the code inspects. *)
Record Error : Type := mkError {
  err_name : string;
  err_code : option string;
  err_message : string;
  err_statusCode : option Z
}.

(** An error raised by the database, carrying its SQLSTATE. *)
Definition pg_error (sqlstate message : string) : Error :=
  mkError "error" (Some sqlstate) message None.

Definition new_Error (message : string) : Error :=
  mkError "Error" None message None.

Definition TypeError (message : string) : Error :=
  mkError "TypeError" None message None.

(** A computation that returns a value or throws. *)
Definition result (A : Type) : Type := Error + A.

Definition ret {A} (a : A) : result A := inr a.
Definition throw {A} (e : Error) : result A := inl e.

Definition bind {A B} (m : result A) (f : A -> result B) : result B :=
  match m with
  | inl e => inl e
  | inr a => f a
  end.

Definition try_catch {A} (body : result A) (handler : Error -> result A) : result A :=
  match body with
  | inl e => handler e
  | inr a => inr a
  end.

End Js.

Export Js.

Notation "'let*' x ':=' m 'in' f" := (Js.bind m (fun x => f))
  (at level 10, x name, m at level 100, f at level 200).

(** ** 001_initial_schema.sql: the enumerated column types *)

Module Schema.

(** [CREATE TYPE disaster_type AS ENUM (...)] *)
Inductive disaster_type : Type :=
| wildfire | earthquake | flood | hurricane
| tornado | severe_weather | drought | winter_storm.

(** [CREATE TYPE severity_level AS ENUM (...)] *)
Inductive severity_level : Type :=
| minor | moderate | severe | extreme.

(** [CREATE TYPE infrastructure_type AS ENUM (...)] *)
Inductive infrastructure_type : Type :=
| hospital | emergency_shelter | fire_station | police_station
| power_station | water_treatment | school | airport | bridge.

(** The labels under which the driver hands enum values to JavaScript. *)
Definition disaster_type_label (c : disaster_type) : string :=
  match c with
  | wildfire => "wildfire"
  | earthquake => "earthquake"
  | flood => "flood"
  | hurricane => "hurricane"
  | tornado => "tornado"
  | severe_weather => "severe_weather"
  | drought => "drought"
  | winter_storm => "winter_storm"
  end.

Definition severity_label (s : severity_level) : string :=
  match s with
  | minor => "minor"
  | moderate => "moderate"
  | severe => "severe"
  | extreme => "extreme"
  end.

Definition infrastructure_type_label (t : infrastructure_type) : string :=
  match t with
  | hospital => "hospital"
  | emergency_shelter => "emergency_shelter"
  | fire_station => "fire_station"
  | police_station => "police_station"
  | power_station => "power_station"
  | water_treatment => "water_treatment"
  | school => "school"
  | airport => "airport"
  | bridge => "bridge"
  end.

Definition infrastructure_types : list infrastructure_type :=
  [hospital; emergency_shelter; fire_station; police_station;
   power_station; water_treatment; school; airport; bridge].

(** Input conversion of a text parameter compared with an
    [infrastructure_type] column: an unknown label is rejected. *)
Definition parse_infrastructure_type (s : string) : option infrastructure_type :=
  List.find (fun t => String.eqb (infrastructure_type_label t) s) infrastructure_types.

End Schema.

Export Schema.


(** ** Geometry and the spatial extension *)

Module Spatial.

(** A WGS84 position, longitude first as in [ST_MakePoint]. *)
Record Point : Type := mkPoint { lng : Q; lat : Q }.

(** GeoJSON geometries of the [geometry] columns. *)
Inductive Geometry : Type :=
| GPoint (p : Point)
| GPolygon (rings : list (list Point))
| GMultiPolygon (polygons : list (list (list Point))).

(** The functions of the spatial database extension the statements
    call.  Their implementation is outside the repository. *)
Class PostGIS : Type := {
  (** [ST_Intersects(a, b)] *)
  ST_Intersects : Geometry -> Geometry -> bool;
  (** [ST_DWithin(p::geography, g::geography, meters)] *)
  ST_DWithin : Point -> Geometry -> Q -> bool;
  (** [ST_Distance(p::geography, q::geography)], in meters *)
  ST_Distance : Point -> Point -> Q;
  (** [ST_Buffer(g::geography, meters)] *)
  ST_Buffer : Geometry -> Q -> Geometry;
  (** [ST_Area(g)] of a geography, in square meters *)
  ST_Area : Geometry -> Q;
  (** [ST_ClusterKMeans(p, k) OVER ()]: the cluster number of every row
      of the window, or an error *)
  ST_ClusterKMeans : list Point -> Z -> result (list nat)
}.

(** The square of the planar distance [a <-> b] between two points;
    ordering by [<->] is ordering by this value. *)
Definition knn_distance_sq (a b : Point) : Q :=
  (lng a - lng b) * (lng a - lng b) + (lat a - lat b) * (lat a - lat b).

Definition same_place (a b : Point) : bool :=
  Qeq_bool (lng a) (lng b) && Qeq_bool (lat a) (lat b).

Definition co_located (a b : Point) : Prop := same_place a b = true.

(** [ST_Centroid(ST_Collect(points))]: the mean position; [None] for no
    points. *)
Definition sum_lng (ps : list Point) : Q := fold_right (fun p acc => (lng p + acc)%Q) 0%Q ps.
Definition sum_lat (ps : list Point) : Q := fold_right (fun p acc => (lat p + acc)%Q) 0%Q ps.

Definition mean_point (ps : list Point) : option Point :=
  match ps with
  | [] => None
  | _ :: _ =>
      let n := inject_Z (Z.of_nat (length ps)) in
      Some (mkPoint (sum_lng ps / n) (sum_lat ps / n))
  end.

End Spatial.

Export Spatial.

(** ** The database *)

Module Database.

(** A [timestamp]: the calendar year and the seconds elapsed in it. *)
Record Timestamp : Type := mkTimestamp { ts_year : Z; ts_seconds : Z }.

Definition leap_year (y : Z) : bool :=
  ((y mod 4 =? 0) && (negb (y mod 100 =? 0) || (y mod 400 =? 0)))%Z.

(** [t - INTERVAL 'n years']: the same month, day and time of day [n]
    years earlier, 29 February becoming 28 February in a year that is
    not a leap year.  Up to 28 February the seconds elapsed in the year
    are kept; from then on they shift by a day between a leap year and
    one that is not. *)
Definition minus_years (t : Timestamp) (n : Z) : Timestamp :=
  let day := 86400%Z in
  let year := (ts_year t - n)%Z in
  let elapsed := ts_seconds t in
  mkTimestamp year
    (if (elapsed <? 59 * day)%Z then elapsed
     else if leap_year (ts_year t) then
       if leap_year year then elapsed else (elapsed - day)%Z
     else if leap_year year then (elapsed + day)%Z else elapsed).

Definition later_than (a b : Timestamp) : bool :=
  ((ts_year b <? ts_year a)
   || ((ts_year a =? ts_year b) && (ts_seconds b <? ts_seconds a)))%Z.

(** Table [disasters] (the columns the services read). *)
Record Disaster : Type := mkDisaster {
  d_id : Z;
  d_type : disaster_type;
  d_severity : option severity_level;
  d_geometry : Geometry;
  d_centroid : Point;
  d_area_sq_km : option Q;
  d_start_time : Timestamp
}.

(** Table [infrastructure]. *)
Record Infrastructure : Type := mkInfrastructure {
  i_id : Z;
  i_name : string;
  i_type : infrastructure_type;
  i_location : Point;
  i_address : option string;
  i_capacity : option Z;
  i_operational_status : option bool
}.

(** Table [census_blocks]. *)
Record CensusBlock : Type := mkCensusBlock {
  cb_id : Z;
  cb_geometry : Geometry;
  cb_population : Z;
  cb_households : option Z;
  cb_elderly_population : option Z;
  cb_children_population : option Z;
  cb_disabled_population : option Z;
  cb_low_income_population : option Z
}.

(** Table [impact_assessments]. *)
Record ImpactAssessment : Type := mkImpactAssessment {
  ia_id : Z;
  ia_disaster_id : Z;
  ia_assessment_time : Timestamp;
  ia_affected_population : num;
  ia_affected_households : num;
  ia_vulnerable_population : num;
  ia_affected_hospitals : num;
  ia_affected_shelters : num;
  ia_affected_critical_infrastructure : num;
  ia_estimated_economic_loss : num;
  ia_affected_area_sq_km : num;
  ia_evacuation_zone_1km : Geometry;
  ia_evacuation_zone_5km : Geometry;
  ia_evacuation_zone_10km : Geometry
}.

(** The statements the services send. *)
Inductive Statement : Type :=
| SelectAffectedPopulation
| SelectAffectedInfrastructure
| SelectEvacuationZones
| SelectNearestInfrastructure
| SelectDisasterHotspots
| SelectDisasterDetails
| InsertImpactAssessment.

(** The database as the code sees it: the tables, the clock behind
    [NOW()], the next serial number of [impact_assessments], and for each
    statement whether executing it is rejected (lost connection, pool or
    statement timeout) and with which error. *)
Record Db : Type := mkDb {
  disasters : list Disaster;
  infrastructure : list Infrastructure;
  census_blocks : list CensusBlock;
  impact_assessments : list ImpactAssessment;
  next_assessment_id : Z;
  now : Timestamp;
  rejects : Statement -> option Error
}.

(** [db.query(text, params)]: the rejection, or the rows the statement
    evaluates to. *)
Definition query {A} (db : Db) (st : Statement) (rows : result (list A))
  : result (list A) :=
  match rejects db st with
  | Some e => throw e
  | None => rows
  end.

(** [rows[0]]; [None] is [undefined]. *)
Definition first_row {A} (rows : list A) : option A := head rows.

(** SQLSTATE 22P02, invalid_text_representation. *)
Definition invalid_text_representation : Error :=
  pg_error "22P02" "invalid input syntax".

(** SQLSTATE 22003, numeric_value_out_of_range. *)
Definition numeric_value_out_of_range : Error :=
  pg_error "22003" "value out of range".

(** SQLSTATE 22023, invalid_parameter_value: a geometry of another type
    than the column's. *)
Definition invalid_parameter_value : Error :=
  pg_error "22023" "Geometry type does not match column type".

(** SQLSTATE 2201W, invalid_row_count_in_limit_clause. *)
Definition invalid_row_count_in_limit : Error :=
  pg_error "2201W" "LIMIT must not be negative".

(** SQLSTATE 23503, foreign_key_violation. *)
Definition foreign_key_violation : Error :=
  pg_error "23503" "insert or update violates foreign key constraint".

(** [SUM(column)]: NULL inputs are skipped and the sum of no input is
    NULL. *)
Definition sql_sum (column : list (option Z)) : option Z :=
  match omap id column with
  | [] => None
  | z :: zs => Some (fold_left Z.add zs z)
  end.

(** [COUNT(column)] *)
Definition sql_count (column : list (option Z)) : Z :=
  Z.of_nat (length (omap id column)).

(** [ORDER BY key ASC] as a stable insertion sort of the rows in the
    order the scan yields them; the order of rows with equal keys is not
    fixed by SQL. *)
Fixpoint insert_by {A} (key : A -> Q) (x : A) (rows : list A) : list A :=
  match rows with
  | [] => [x]
  | y :: rest =>
      if Qle_bool (key x) (key y) then x :: rows
      else y :: insert_by key x rest
  end.

Definition order_by {A} (key : A -> Q) (rows : list A) : list A :=
  fold_right (insert_by key) [] rows.

(** [a] may precede [b] in ascending order of [key]. *)
Definition key_le {A} (key : A -> Q) (a b : A) : Prop := (key a <= key b)%Q.

(** A number bound to an [integer] position. *)
Definition int4_of_number (n : num) : result Z :=
  match integer_digits n with
  | Some z =>
      if ((-2147483648 <=? z) && (z <=? 2147483647))%Z then ret z
      else throw numeric_value_out_of_range
  | None => throw invalid_text_representation
  end.

(** A number bound to a [bigint] position such as LIMIT. *)
Definition int8_of_number (n : num) : result Z :=
  match integer_digits n with
  | Some z =>
      if ((-9223372036854775808 <=? z) && (z <=? 9223372036854775807))%Z then ret z
      else throw numeric_value_out_of_range
  | None => throw invalid_text_representation
  end.

(** A number assigned to a [DECIMAL(p, s)] column: it is rounded to [s]
    decimals, halves away from zero; NaN is stored as it is; a value of
    10^(p-s) or more in magnitude, or an infinite one, is out of
    range. *)
Definition decimal_column (p s : Z) (n : num) : result num :=
  match n with
  | Fin q =>
      let scaled := (q * inject_Z (10 ^ s))%Q in
      let units :=
        if Qle_bool 0 scaled then Qfloor (scaled + (1 # 2))
        else Qceiling (scaled - (1 # 2)) in
      if (Z.abs units <? 10 ^ p)%Z
      then ret (Fin (Qred (units # Z.to_pos (10 ^ s))))
      else throw numeric_value_out_of_range
  | NaN => ret NaN
  | _ => throw numeric_value_out_of_range
  end.

(** A geometry assigned to a [GEOMETRY(Polygon, 4326)] column. *)
Definition polygon_column (g : Geometry) : result Geometry :=
  match g with
  | GPolygon _ => ret g
  | _ => throw invalid_parameter_value
  end.

(** The cluster count as the clustering takes it: only whole numbers
    convert; the count is taken within the range of its type. *)
Definition bigint_parameter (n : num) : result Z :=
  match n with
  | Fin q =>
      if Qeq_bool q (inject_Z (Qfloor q)) then ret (Qfloor q)
      else throw invalid_text_representation
  | _ => throw invalid_text_representation
  end.

End Database.

Export Database.

(** ** spatialAnalysis.js *)

Module SpatialAnalysis.

(** Row of the population statement. *)
Record PopulationRow : Type := mkPopulationRow {
  total_population : value;
  total_households : value;
  elderly_population : value;
  children_population : value;
  disabled_population : value;
  affected_census_blocks : value
}.

(** Row of the affected-infrastructure statement. *)
Record InfrastructureRow : Type := mkInfrastructureRow {
  ir_id : Z;
  ir_name : string;
  ir_type : string;
  ir_capacity : option Z;
  ir_operational_status : option bool;
  ir_location : Point;
  ir_distance_km : Q
}.

(** Row of the evacuation-zone statement. *)
Record ZonesRow : Type := mkZonesRow {
  zone_1km : Geometry;
  zone_5km : Geometry;
  zone_10km : Geometry;
  area_1km_sq_km : num;
  area_5km_sq_km : num;
  area_10km_sq_km : num
}.

(** Row of the nearest-infrastructure statement. *)
Record NearestRow : Type := mkNearestRow {
  nr_id : Z;
  nr_name : string;
  nr_type : string;
  nr_location : Point;
  nr_address : option string;
  nr_capacity : option Z;
  nr_operational_status : option bool;
  nr_distance_km : Q
}.

(** Row of the hotspot statement. *)
Record HotspotRow : Type := mkHotspotRow {
  cluster_id : nat;
  disaster_count : value;
  cluster_center : option Point
}.

Record PopulationSummary : Type := mkPopulationSummary {
  ps_total : num;
  ps_households : num;
  ps_elderly : num;
  ps_children : num;
  ps_disabled : num;
  ps_affected_census_blocks : num
}.

Record InfrastructureSummary : Type := mkInfrastructureSummary {
  is_total : num;
  is_by_type : gmap string num;
  is_details : list InfrastructureRow
}.

Record ImpactSummary : Type := mkImpactSummary {
  population : PopulationSummary;
  infrastructure_summary : InfrastructureSummary;
  evacuation_zones : option ZonesRow;
  generated_at : Timestamp
}.

Section Service.

Context `{PostGIS}.

(** The census blocks joined to the disaster with the given id whose
    geometry intersects the disaster's. *)
Definition affected_blocks (db : Db) (disasterId : Z) : list CensusBlock :=
  d ← List.filter (fun d => Z.eqb (d_id d) disasterId) (disasters db);
  List.filter (fun cb => ST_Intersects (cb_geometry cb) (d_geometry d)) (census_blocks db).

Definition population_rows (db : Db) (disasterId : Z) : list PopulationRow :=
  let blocks := affected_blocks db disasterId in
  [ {| total_population := bigint_value (sql_sum (map (fun cb => Some (cb_population cb)) blocks));
       total_households := bigint_value (sql_sum (map cb_households blocks));
       elderly_population := bigint_value (sql_sum (map cb_elderly_population blocks));
       children_population := bigint_value (sql_sum (map cb_children_population blocks));
       disabled_population := bigint_value (sql_sum (map cb_disabled_population blocks));
       affected_census_blocks :=
         bigint_text (sql_count (map (fun cb => Some (cb_id cb)) blocks)) |} ].

(** Calculate affected population within a disaster zone. *)
Definition calculateAffectedPopulation (db : Db) (disasterId : Z)
  : result (option PopulationRow) :=
  try_catch
    (let* rows := query db SelectAffectedPopulation (ret (population_rows db disasterId)) in
     ret (first_row rows))
    (fun error => throw error).

Definition infrastructure_rows (db : Db) (disasterId : Z) (bufferKm : Q)
  : list InfrastructureRow :=
  order_by ir_distance_km
    (d ← List.filter (fun d => Z.eqb (d_id d) disasterId) (disasters db);
     i ← List.filter (fun i => ST_DWithin (i_location i) (d_geometry d) (bufferKm * 1000))
          (infrastructure db);
     [ {| ir_id := i_id i;
          ir_name := i_name i;
          ir_type := infrastructure_type_label (i_type i);
          ir_capacity := i_capacity i;
          ir_operational_status := i_operational_status i;
          ir_location := i_location i;
          ir_distance_km := ST_Distance (i_location i) (d_centroid d) / 1000 |} ]).

(** Find infrastructure within disaster impact zone ([bufferKm = 0] by
    default).  In [$2 * 1000] the parameter is an [integer] and so is the
    product. *)
Definition findAffectedInfrastructure (db : Db) (disasterId : Z) (bufferKm : option Q)
  : result (list InfrastructureRow) :=
  let bufferKm := match bufferKm with Some km => km | None => 0%Q end in
  try_catch
    (query db SelectAffectedInfrastructure
       (let* km := int4_of_number (Fin bufferKm) in
        if ((-2147483648 <=? km * 1000) && (km * 1000 <=? 2147483647))%Z
        then ret (infrastructure_rows db disasterId (inject_Z km))
        else throw numeric_value_out_of_range))
    (fun error => throw error).

Definition zone_rows (db : Db) (disasterId : Z) : list ZonesRow :=
  d ← List.filter (fun d => Z.eqb (d_id d) disasterId) (disasters db);
  [ {| zone_1km := ST_Buffer (d_geometry d) 1000;
       zone_5km := ST_Buffer (d_geometry d) 5000;
       zone_10km := ST_Buffer (d_geometry d) 10000;
       area_1km_sq_km := Fin (ST_Area (ST_Buffer (d_geometry d) 1000) / 1000000);
       area_5km_sq_km := Fin (ST_Area (ST_Buffer (d_geometry d) 5000) / 1000000);
       area_10km_sq_km := Fin (ST_Area (ST_Buffer (d_geometry d) 10000) / 1000000) |} ].

(** Create evacuation buffer zones around disaster. *)
Definition createEvacuationZones (db : Db) (disasterId : Z)
  : result (option ZonesRow) :=
  try_catch
    (let* rows := query db SelectEvacuationZones (ret (zone_rows db disasterId)) in
     ret (first_row rows))
    (fun error => throw error).

(** The rows [WHERE type = $3 AND operational_status = true]; a NULL
    type parameter matches no row. *)
Definition nearest_candidates (db : Db) (type : option infrastructure_type)
  : list Infrastructure :=
  match type with
  | None => []
  | Some t =>
      List.filter (fun i =>
                String.eqb (infrastructure_type_label (i_type i))
                           (infrastructure_type_label t)
                && match i_operational_status i with
                   | Some true => true
                   | _ => false
                   end)
             (infrastructure db)
  end.

Definition nearest_row (point : Point) (i : Infrastructure) : NearestRow :=
  {| nr_id := i_id i;
     nr_name := i_name i;
     nr_type := infrastructure_type_label (i_type i);
     nr_location := i_location i;
     nr_address := i_address i;
     nr_capacity := i_capacity i;
     nr_operational_status := i_operational_status i;
     nr_distance_km := ST_Distance (i_location i) point / 1000 |}.

(** The nearest-infrastructure statement: the type parameter is
    converted to the enum of the column and the limit to a [bigint] when
    the parameters are bound; the limit is checked when the statement
    runs. *)
Definition nearest_rows (db : Db) (point : Point)
    (infrastructureType : option string) (limit : num)
  : result (list NearestRow) :=
  let* type :=
    match infrastructureType with
    | None => ret None
    | Some label =>
        match parse_infrastructure_type label with
        | Some t => ret (Some t)
        | None => throw invalid_text_representation
        end
    end in
  let* n := int8_of_number limit in
  if (n <? 0)%Z then throw invalid_row_count_in_limit
  else
    ret (map (nearest_row point)
           (take (Z.to_nat n)
              (order_by (fun i => knn_distance_sq (i_location i) point)
                 (nearest_candidates db type)))).

(** Find nearest infrastructure to a point ([limit = 5] by default). *)
Definition findNearestInfrastructure (db : Db) (point : Point)
    (infrastructureType : option string) (limit : option num)
  : result (list NearestRow) :=
  let limit := match limit with Some n => n | None => Fin 5 end in
  try_catch
    (query db SelectNearestInfrastructure (nearest_rows db point infrastructureType limit))
    (fun error => throw error).

(** The centroids [WHERE type = $1 AND start_time > NOW() - INTERVAL
    '5 years']. *)
Definition hotspot_centroids (db : Db) (type : disaster_type) : list Point :=
  map d_centroid
    (List.filter (fun d =>
               String.eqb (disaster_type_label (d_type d)) (disaster_type_label type)
               && later_than (d_start_time d) (minus_years (now db) 5))
            (disasters db)).

(** [GROUP BY cluster_id]: one row per cluster number that occurs, with
    the number of its members and the centroid of their collection,
    [ORDER BY disaster_count DESC]. *)
Definition cluster_members (clustered : list (Point * nat)) (c : nat) : list Point :=
  map fst (List.filter (fun pc => Nat.eqb (snd pc) c) clustered).

Definition group_clusters (clustered : list (Point * nat)) : list HotspotRow :=
  map (fun c =>
         {| cluster_id := c;
            disaster_count := bigint_text (Z.of_nat (length (cluster_members clustered c)));
            cluster_center := mean_point (cluster_members clustered c) |})
      (order_by (fun c => - inject_Z (Z.of_nat (length (cluster_members clustered c))))
         (remove_dups (map snd clustered))).

Definition parse_disaster_type (s : string) : option disaster_type :=
  List.find (fun t => String.eqb (disaster_type_label t) s)
    [wildfire; earthquake; flood; hurricane; tornado; severe_weather; drought;
     winter_storm].

Definition hotspot_rows (db : Db) (disasterType : string) (clusters : num)
  : result (list HotspotRow) :=
  let* type :=
    match parse_disaster_type disasterType with
    | Some t => ret t
    | None => throw invalid_text_representation
    end in
  let* k := bigint_parameter clusters in
  let centroids := hotspot_centroids db type in
  match centroids with
  | [] => ret []
  | _ :: _ =>
      let* ids := ST_ClusterKMeans centroids k in
      ret (group_clusters (zip centroids ids))
  end.

(** Calculate disaster clustering hotspots ([clusters = 5] by default). *)
Definition calculateDisasterHotspots (db : Db) (disasterType : string)
    (clusters : option num) : result (list HotspotRow) :=
  let clusters := match clusters with Some n => n | None => Fin 5 end in
  try_catch
    (query db SelectDisasterHotspots (hotspot_rows db disasterType clusters))
    (fun error => throw error).

(** [parseInt(x) || 0] *)
Definition parseInt_or_0 (v : value) : num :=
  or_default (Some (parseInt v)) (Fin 0).

(** Group infrastructure by type. *)
Definition infrastructureByType (rows : list InfrastructureRow) : gmap string num :=
  fold_left
    (fun acc item =>
       <[ ir_type item := add (or_default (acc !! ir_type item) (Fin 0)) (Fin 1) ]> acc)
    rows ∅.

(** Get disaster impact summary with all spatial calculations. *)
Definition getDisasterImpactSummary (db : Db) (disasterId : Z) : result ImpactSummary :=
  try_catch
    (let* population := calculateAffectedPopulation db disasterId in
     let* infrastructure := findAffectedInfrastructure db disasterId (Some 10%Q) in
     let* zones := createEvacuationZones db disasterId in
     match population with
     | None => throw (TypeError "Cannot read properties of undefined")
     | Some population =>
         ret {| population :=
                  {| ps_total := parseInt_or_0 (total_population population);
                     ps_households := parseInt_or_0 (total_households population);
                     ps_elderly := parseInt_or_0 (elderly_population population);
                     ps_children := parseInt_or_0 (children_population population);
                     ps_disabled := parseInt_or_0 (disabled_population population);
                     ps_affected_census_blocks :=
                       parseInt_or_0 (affected_census_blocks population) |};
                infrastructure_summary :=
                  {| is_total := of_Z (Z.of_nat (length infrastructure));
                     is_by_type := infrastructureByType infrastructure;
                     is_details := take 10 infrastructure |};
                evacuation_zones := zones;
                generated_at := now db |}
     end)
    (fun error => throw error).

End Service.

End SpatialAnalysis.
(** ** impactCalculation.js: the scoring formulas *)

Module ImpactCalculation.

(** Base loss per person (simplified model). *)
Definition basePerPersonLoss : gmap string num :=
  {[ "minor" := Fin 5000;
     "moderate" := Fin 15000;
     "severe" := Fin 40000;
     "extreme" := Fin 100000 ]}.

(** Type multipliers. *)
Definition typeMultipliers : gmap string num :=
  {[ "wildfire" := Fin 1.5;
     "earthquake" := Fin 2;
     "flood" := Fin 1.2;
     "hurricane" := Fin 1.8;
     "tornado" := Fin 1.6;
     "severe_weather" := Fin 0.8;
     "drought" := Fin 1;
     "winter_storm" := Fin 0.9 ]}.

(** [basePerPersonLoss[severity] || 10000]: the table is an object
    literal, so a severity that names a property of [Object.prototype]
    reads the inherited function, which is truthy. *)
Definition perPersonLoss (severity : option string) : operand :=
  or_number (read basePerPersonLoss (property_key severity)) (Fin 10000).

(** [typeMultipliers[type] || 1.0] *)
Definition typeMultiplier (type : option string) : operand :=
  or_number (read typeMultipliers (property_key type)) (Fin 1).

(** The arithmetic of [estimateEconomicLoss] once the disaster row
    [{ type, severity, area_sq_km }] has been read. *)
Definition estimateLoss (type severity : option string)
    (affectedPopulation : num) (area_sq_km : option num) : num :=
  let estimatedLoss :=
    mul (mul affectedPopulation (ToNumber (perPersonLoss severity)))
        (ToNumber (typeMultiplier type)) in
  let areaLoss := mul (or_default area_sq_km (Fin 0)) (Fin 500000) in
  Math_round (add estimatedLoss areaLoss).

(** Census block demographics handed to [calculateVulnerabilityScore];
    [None] is a property that is not present. *)
Record Demographics : Type := mkDemographics {
  elderly_population : option num;
  children_population : option num;
  disabled_population : option num;
  low_income_population : option num;
  population : option num
}.

(** Destructuring default: used only when the property is undefined. *)
Definition with_default (v : option num) (d : num) : num :=
  match v with
  | Some x => x
  | None => d
  end.

Definition percentage (count population : num) : num :=
  mul (div count population) (Fin 100).

(** The weighted vulnerability score before rounding, in exact
    arithmetic; the doubles of the code carry it with a relative error
    of a few units of 2^-53. *)
Definition weightedScore (elderlyPct childrenPct disabledPct lowIncomePct : num) : num :=
  add (add (add (mul elderlyPct (Fin 0.3)) (mul childrenPct (Fin 0.2)))
           (mul disabledPct (Fin 0.3)))
      (mul lowIncomePct (Fin 0.2)).

(** [Math.min(100, Math.round(score))] *)
Definition scoreOfPercentages (elderlyPct childrenPct disabledPct lowIncomePct : num) : num :=
  Math_min (Fin 100)
    (Math_round (weightedScore elderlyPct childrenPct disabledPct lowIncomePct)).

Definition calculateVulnerabilityScore (demographics : Demographics) : num :=
  let elderly := with_default (elderly_population demographics) (Fin 0) in
  let children := with_default (children_population demographics) (Fin 0) in
  let disabled := with_default (disabled_population demographics) (Fin 0) in
  let low_income := with_default (low_income_population demographics) (Fin 0) in
  let pop := with_default (population demographics) (Fin 1) in
  scoreOfPercentages (percentage elderly pop) (percentage children pop)
    (percentage disabled pop) (percentage low_income pop).

(** The row read by [estimateEconomicLoss]. *)
Record DisasterDetails : Type := mkDisasterDetails {
  type : option string;
  severity : option string;
  area_sq_km : option num
}.

Definition disaster_details (db : Db) (disasterId : Z) : list DisasterDetails :=
  map (fun d =>
         {| type := Some (disaster_type_label (d_type d));
            severity := severity_label <$> d_severity d;
            area_sq_km := Fin <$> d_area_sq_km d |})
      (List.filter (fun d => Z.eqb (d_id d) disasterId) (disasters db)).

(** Estimate economic loss based on affected population and property
    values; any error is logged and 0 is returned. *)
Definition estimateEconomicLoss (db : Db) (disasterId : Z) (affectedPopulation : num)
  : result num :=
  try_catch
    (let* disaster := query db SelectDisasterDetails (ret (disaster_details db disasterId)) in
     match disaster with
     | [] => throw (new_Error "Disaster not found")
     | row :: _ =>
         ret (estimateLoss (type row) (severity row) affectedPopulation (area_sq_km row))
     end)
    (fun error => ret (Fin 0)).

(** The assessment prepared for, and returned with, the stored row. *)
Record Assessment : Type := mkAssessment {
  disaster_id : Z;
  affected_population : num;
  affected_households : num;
  vulnerable_population : num;
  affected_hospitals : num;
  affected_shelters : num;
  affected_critical_infrastructure : num;
  estimated_economic_loss : num;
  affected_area_sq_km : num
}.

Record FullImpact : Type := mkFullImpact {
  assessment : Assessment;
  assessment_id : Z;
  assessment_time : Timestamp;
  infrastructure_details : list SpatialAnalysis.InfrastructureRow;
  vulnerable_breakdown : num * num * num
}.

(** A number assigned to an [INTEGER] column: it has to be a whole
    number in the range of the type, and the column holds that number. *)
Definition integer_column (n : num) : result num :=
  let* _ := int4_of_number n in ret n.

(** The values of the row as its columns take them: the six [INTEGER]
    figures, [estimated_economic_loss DECIMAL(15,2)],
    [affected_area_sq_km DECIMAL(10,2)] and the three
    [GEOMETRY(Polygon, 4326)] zones. *)
Definition assessment_row (db : Db) (a : Assessment)
    (zones : SpatialAnalysis.ZonesRow) : result ImpactAssessment :=
  let* population := integer_column (affected_population a) in
  let* households := integer_column (affected_households a) in
  let* vulnerable := integer_column (vulnerable_population a) in
  let* hospitals := integer_column (affected_hospitals a) in
  let* shelters := integer_column (affected_shelters a) in
  let* critical := integer_column (affected_critical_infrastructure a) in
  let* loss := decimal_column 15 2 (estimated_economic_loss a) in
  let* area := decimal_column 10 2 (affected_area_sq_km a) in
  let* zone_1km := polygon_column (SpatialAnalysis.zone_1km zones) in
  let* zone_5km := polygon_column (SpatialAnalysis.zone_5km zones) in
  let* zone_10km := polygon_column (SpatialAnalysis.zone_10km zones) in
  ret {| ia_id := next_assessment_id db;
         ia_disaster_id := disaster_id a;
         ia_assessment_time := now db;
         ia_affected_population := population;
         ia_affected_households := households;
         ia_vulnerable_population := vulnerable;
         ia_affected_hospitals := hospitals;
         ia_affected_shelters := shelters;
         ia_affected_critical_infrastructure := critical;
         ia_estimated_economic_loss := loss;
         ia_affected_area_sq_km := area;
         ia_evacuation_zone_1km := zone_1km;
         ia_evacuation_zone_5km := zone_5km;
         ia_evacuation_zone_10km := zone_10km |}.

(** [INSERT INTO impact_assessments ... RETURNING id, assessment_time]:
    the values are converted to the types of their columns, the row
    refers to a disaster (foreign key), takes the next serial number and
    the current time; the result is the returned row and the database
    after the statement. *)
Definition insert_assessment (db : Db) (a : Assessment)
    (zones : SpatialAnalysis.ZonesRow) : result (Z * Timestamp) * Db :=
  match rejects db InsertImpactAssessment with
  | Some e => (throw e, db)
  | None =>
      match assessment_row db a zones with
      | inl e => (throw e, db)
      | inr row =>
          if existsb (fun d => Z.eqb (d_id d) (disaster_id a)) (disasters db) then
            (ret (next_assessment_id db, now db),
             {| disasters := disasters db;
                infrastructure := infrastructure db;
                census_blocks := census_blocks db;
                impact_assessments := impact_assessments db ++ [row];
                next_assessment_id := next_assessment_id db + 1;
                now := now db;
                rejects := rejects db |})
          else (throw foreign_key_violation, db)
      end
  end.

Section Service.

Context `{PostGIS}.

(** Calculate full impact and store in database.  The result is the
    value returned or the error thrown, together with the database the
    call leaves behind. *)
Definition calculateFullImpact (db : Db) (disasterId : Z) : result FullImpact * Db :=
  match SpatialAnalysis.getDisasterImpactSummary db disasterId with
  | inl error => (throw error, db)
  | inr impactSummary =>
      let population := SpatialAnalysis.population impactSummary in
      let infra := SpatialAnalysis.infrastructure_summary impactSummary in
      match estimateEconomicLoss db disasterId (SpatialAnalysis.ps_total population) with
      | inl error => (throw error, db)
      | inr economicLoss =>
          match SpatialAnalysis.evacuation_zones impactSummary with
          | None => (throw (TypeError "Cannot read properties of undefined"), db)
          | Some zones =>
              let a :=
                {| disaster_id := disasterId;
                   affected_population := SpatialAnalysis.ps_total population;
                   affected_households := SpatialAnalysis.ps_households population;
                   vulnerable_population :=
                     add (add (SpatialAnalysis.ps_elderly population)
                              (SpatialAnalysis.ps_children population))
                         (SpatialAnalysis.ps_disabled population);
                   affected_hospitals :=
                     or_default (SpatialAnalysis.is_by_type infra !! "hospital") (Fin 0);
                   affected_shelters :=
                     or_default (SpatialAnalysis.is_by_type infra !! "emergency_shelter")
                       (Fin 0);
                   affected_critical_infrastructure := SpatialAnalysis.is_total infra;
                   estimated_economic_loss := economicLoss;
                   affected_area_sq_km := SpatialAnalysis.area_10km_sq_km zones |} in
              match insert_assessment db a zones with
              | (inl error, db') => (throw error, db')
              | (inr (id, time), db') =>
                  (ret {| assessment := a;
                          assessment_id := id;
                          assessment_time := time;
                          infrastructure_details := SpatialAnalysis.is_details infra;
                          vulnerable_breakdown :=
                            (SpatialAnalysis.ps_elderly population,
                             SpatialAnalysis.ps_children population,
                             SpatialAnalysis.ps_disabled population) |},
                   db')
              end
          end
      end
  end.

End Service.

End ImpactCalculation.


(** ** The HTTP layer: error handler and controllers *)

Module Http.

(** What a handler sends: the status code and the JSON body. *)
Record Response (A : Type) : Type := mkResponse {
  status : Z;
  success : bool;
  message : option string;
  data : option A
}.

Arguments mkResponse {A}.
Arguments status {A}.
Arguments success {A}.
Arguments message {A}.
Arguments data {A}.

(** A handler either responds or passes an error to [next]. *)
Inductive Handled (A : Type) : Type :=
| Responded (r : Response A)
| Next (error : Error).

Arguments Responded {A}.
Arguments Next {A}.

Definition failure {A} (code : Z) (msg : string) : Response A :=
  mkResponse code false (Some msg) None.

(** Global error handler middleware. *)
Definition errorHandler {A} (err : Error) : Response A :=
  let by_name :=
    if String.eqb (err_name err) "ValidationError" then failure 400 "Validation error"
    else if String.eqb (err_name err) "JsonWebTokenError" then failure 401 "Invalid token"
    else if String.eqb (err_name err) "TokenExpiredError" then failure 401 "Token expired"
    else
      let statusCode :=
        match err_statusCode err with
        | Some c => if (c =? 0)%Z then 500%Z else c
        | None => 500%Z
        end in
      let msg :=
        if String.eqb (err_message err) EmptyString then "Internal server error"
        else err_message err in
      failure statusCode msg in
  match err_code err with
  | Some code =>
      if String.eqb code EmptyString then by_name
      else if String.eqb code "23505" then failure 409 "Resource already exists"
      else if String.eqb code "23503" then
        failure 400 "Invalid reference to related resource"
      else if String.eqb code "22P02" then failure 400 "Invalid data format"
      else by_name
  | None => by_name
  end.

(** The route with the error handler installed behind it. *)
Definition respond {A} (h : Handled A) : Response A :=
  match h with
  | Responded r => r
  | Next error => errorHandler error
  end.

(** The request of [GET /api/infrastructure/nearest/:lat/:lng]: the
    position from the path and the query string. *)
Record NearestRequest : Type := mkNearestRequest {
  req_point : Point;
  req_type : option string;
  req_limit : option string
}.

Section Controllers.

Context `{PostGIS}.

(** [InfrastructureController.findNearest] *)
Definition findNearest (db : Db) (req : NearestRequest)
  : Handled (list SpatialAnalysis.NearestRow) :=
  let limit :=
    match req_limit req with
    | Some text => parseInt (JString text)
    | None => parseInt (JNumber (Fin 5))
    end in
  let missing :=
    match req_type req with
    | None => true
    | Some text => String.eqb text EmptyString
    end in
  if missing then Responded (failure 400 "Infrastructure type is required")
  else
    match SpatialAnalysis.findNearestInfrastructure db (req_point req) (req_type req)
            (Some limit) with
    | inr nearest => Responded (mkResponse 200 true None (Some nearest))
    | inl error => Next error
    end.

(** [ImpactController.getAffectedPopulation]: the row of the population
    statement is sent as it is. *)
Definition getAffectedPopulation (db : Db) (disasterId : Z)
  : Handled (option SpatialAnalysis.PopulationRow) :=
  match SpatialAnalysis.calculateAffectedPopulation db disasterId with
  | inr population => Responded (mkResponse 200 true None (Some population))
  | inl error => Next error
  end.

End Controllers.

End Http.

(** ** The evacuation-zone contract *)

Module ZoneSpec.

(** The radii of [createEvacuationZones]. *)
Inductive Radius : Type := R1km | R5km | R10km.

Definition meters (r : Radius) : Q :=
  match r with
  | R1km => 1000
  | R5km => 5000
  | R10km => 10000
  end.

Definition zone (z : SpatialAnalysis.ZonesRow) (r : Radius) : Geometry :=
  match r with
  | R1km => SpatialAnalysis.zone_1km z
  | R5km => SpatialAnalysis.zone_5km z
  | R10km => SpatialAnalysis.zone_10km z
  end.

(** Chord error of a buffer polygon, as a fraction of the radius. *)
Definition chordTolerance : Q := 1 # 100.

(** Modelled from the spec: the geodesic buffer primitive ([ST_Buffer]
    of the database extension, [bufferGeodesic] in the specification) is
    not part of the repository.  The specification describes its result
    as a polygon approximating the true offset curve with a chord error
    below 1% of the radius: the polygon stays within distance [r] of the
    geometry and reaches every point within [(1 - 1%) r] of it.
    [covers g p] is membership of a position in the point set of a
    geometry and [distanceMeters p g] the geodesic distance of the
    kernel. *)
Class GeodesicBuffer `{PostGIS} : Type := {
  covers : Geometry -> Point -> Prop;
  distanceMeters : Point -> Geometry -> Q;
  buffer_within_radius :
    forall (g : Geometry) (r : Q) (p : Point),
      (0 <= r)%Q -> covers (ST_Buffer g r) p -> (distanceMeters p g <= r)%Q;
  buffer_reaches :
    forall (g : Geometry) (r : Q) (p : Point),
      (0 <= r)%Q -> (distanceMeters p g <= (1 - chordTolerance) * r)%Q ->
      covers (ST_Buffer g r) p
}.

(** [a] is fully contained in [b]. *)
Definition contained `{GeodesicBuffer} (a b : Geometry) : Prop :=
  forall p : Point, covers a p -> covers b p.

End ZoneSpec.

(** ** The clustering contract *)

Module ClusteringSpec.

Definition iterationCap : nat := 100.

(** The positions of a list without repetition, in order of first
    appearance. *)
Fixpoint distinct_places (pts : list Point) : list Point :=
  match pts with
  | [] => []
  | p :: rest =>
      p :: List.filter (fun q => negb (same_place p q)) (distinct_places rest)
  end.

(** Index of the first position of [places] co-located with [p]. *)
Fixpoint place_index (p : Point) (places : list Point) : nat :=
  match places with
  | [] => O
  | d :: rest => if same_place d p then O else S (place_index p rest)
  end.

(** No two positions of the list coincide. *)
Definition pairwise_apart (places : list Point) : Prop :=
  StronglySorted (fun a b => same_place a b = false) places.

(** Index of the least element, the lowest index on ties. *)
Fixpoint argmin (ds : list Q) : nat :=
  match ds with
  | [] => O
  | d :: rest =>
      match rest with
      | [] => O
      | _ :: _ =>
          let j := argmin rest in
          if Qle_bool d (nth j rest 0%Q) then O else S j
      end
  end.

Definition nearest_center (centers : list Point) (p : Point) : nat :=
  argmin (map (knn_distance_sq p) centers).

Definition assign (centers pts : list Point) : list nat :=
  map (nearest_center centers) pts.

(** The members of cluster [j] under an assignment. *)
Definition members (pts : list Point) (ids : list nat) (j : nat) : list Point :=
  map fst (List.filter (fun pc => Nat.eqb (snd pc) j) (zip pts ids)).

(** Every center moves to the mean of its members; a center without
    members stays. *)
Definition recenter (pts : list Point) (ids : list nat) (centers : list Point)
  : list Point :=
  imap (fun j c => default c (mean_point (members pts ids j))) centers.

(** Assignment and recomputation alternate until no point changes its
    cluster or the iteration cap is reached. *)
Fixpoint iterate (fuel : nat) (pts centers : list Point) (ids : list nat)
  : list nat :=
  match fuel with
  | O => ids
  | S n =>
      let centers' := recenter pts ids centers in
      let ids' := assign centers' pts in
      if decide (ids' = ids) then ids'
      else iterate n pts centers' ids'
  end.

Definition invalid_argument : Error :=
  mkError "InvalidArgument" None "k is out of range" None.

(** Modelled from the spec: the k-means primitive ([ST_ClusterKMeans] of
    the database extension, [cluster] in the specification) is not part
    of the repository.  Following the specification, the positions are
    projected to a local equal-area frame by [project]; the seeding is
    deterministic (the first [k] distinct positions in input order, all of
    them when there are fewer); points go to their nearest center and
    centers to the mean of their points until the assignment is stable or
    100 iterations have run; a cluster count that is not positive is an
    [InvalidArgument]. *)
Definition kmeans (project : Point -> Point) (pts : list Point) (k : Z)
  : result (list nat) :=
  if (k <=? 0)%Z then throw invalid_argument
  else
    let projected := map project pts in
    let seeds := take (Z.to_nat k) (distinct_places projected) in
    ret (iterate iterationCap projected seeds (assign seeds projected)).

End ClusteringSpec.
(** ** The scoring contract as the specification words it *)

Module ScoringSpec.

Definition basePerCapitaLoss (s : severity_level) : Q :=
  match s with
  | minor => 5000
  | moderate => 15000
  | severe => 40000
  | extreme => 100000
  end.

Definition categoryMultiplier (c : disaster_type) : Q :=
  match c with
  | wildfire => 1.5
  | earthquake => 2
  | flood => 1.2
  | hurricane => 1.8
  | tornado => 1.6
  | severe_weather => 0.8
  | drought => 1
  | winter_storm => 0.9
  end.

Definition fixedInfrastructureLossRate : Q := 500000.

(** affectedPopulation x basePerCapitaLoss[severity] x
    categoryMultiplier[category] + areaSqKm x fixedInfrastructureLossRate *)
Definition lossFormula (c : disaster_type) (s : severity_level)
    (affectedPopulation areaSqKm : Q) : Q :=
  affectedPopulation * basePerCapitaLoss s * categoryMultiplier c
  + areaSqKm * fixedInfrastructureLossRate.

(** [z] is a whole number nearest to [x]. *)
Definition nearest_whole (x : Q) (z : Z) : Prop :=
  (Qabs (x - inject_Z z) <= 1 # 2)%Q.

(** The four percentages of a demographics record. *)
Definition percentagesOf (d : ImpactCalculation.Demographics)
  : num * num * num * num :=
  let pop := ImpactCalculation.with_default (ImpactCalculation.population d) (Fin 1) in
  let pct v := ImpactCalculation.percentage (ImpactCalculation.with_default v (Fin 0)) pop in
  (pct (ImpactCalculation.elderly_population d),
   pct (ImpactCalculation.children_population d),
   pct (ImpactCalculation.disabled_population d),
   pct (ImpactCalculation.low_income_population d)).

(** "A weighted sum of four subpopulation percentages (elderly 0.3,
    children 0.2, disabled 0.3, low-income 0.2) clamped to 100". *)
Definition vulnerabilityScore_spec (d : ImpactCalculation.Demographics) : num :=
  let '(e, c, dis, l) := percentagesOf d in
  Math_min (Fin 100) (ImpactCalculation.weightedScore e c dis l).

(** A number in the interval [0,100]. *)
Definition in_0_100 (n : num) : Prop :=
  match n with
  | Fin q => (0 <= q <= 100)%Q
  | _ => False
  end.

(** The demographics record with 9 children among a population of 25. *)
Definition nine_children_of_25 : ImpactCalculation.Demographics :=
  ImpactCalculation.mkDemographics None (Some (Fin 9)) None None (Some (Fin 25)).

(** Demographics with a zero population and one person in each group. *)
Definition empty_block_all_groups : ImpactCalculation.Demographics :=
  ImpactCalculation.mkDemographics (Some (Fin 1)) (Some (Fin 1)) (Some (Fin 1))
    (Some (Fin 1)) (Some (Fin 0)).

End ScoringSpec.

(** ** The proximity contract as the specification words it *)

Module ProximitySpec.

(** "Ascending by distance, ties broken by identifier". *)
Definition distance_then_id (a b : SpatialAnalysis.NearestRow) : Prop :=
  (SpatialAnalysis.nr_distance_km a < SpatialAnalysis.nr_distance_km b)%Q
  \/ ((SpatialAnalysis.nr_distance_km a == SpatialAnalysis.nr_distance_km b)%Q
      /\ (SpatialAnalysis.nr_id a <= SpatialAnalysis.nr_id b)%Z).

Definition nearest_spec (rows : list SpatialAnalysis.NearestRow) : Prop :=
  Forall (fun r => SpatialAnalysis.nr_operational_status r = Some true) rows
  /\ StronglySorted distance_then_id rows.

(** The planar distance key of a returned row. *)
Definition knn_key (point : Point) (r : SpatialAnalysis.NearestRow) : Q :=
  knn_distance_sq (SpatialAnalysis.nr_location r) point.

End ProximitySpec.

(** ** A planar reference extension and sample data *)

Module Planar.

Definition origin : Point := mkPoint 0 0.

(** The first vertex of a geometry. *)
Definition anchor (g : Geometry) : Point :=
  match g with
  | GPoint p => p
  | GPolygon ((p :: _) :: _) => p
  | GMultiPolygon (((p :: _) :: _) :: _) => p
  | _ => origin
  end.

(** Distance in the maximum norm. *)
Definition linf (a b : Point) : Q :=
  Qmax (Qabs (lng a - lng b)) (Qabs (lat a - lat b)).

Definition square (c : Point) (r : Q) : Geometry :=
  GPolygon [[ mkPoint (lng c - r) (lat c - r); mkPoint (lng c + r) (lat c - r);
              mkPoint (lng c + r) (lat c + r); mkPoint (lng c - r) (lat c + r);
              mkPoint (lng c - r) (lat c - r) ]].

(** Twice the signed area of a ring (shoelace formula). *)
Fixpoint shoelace (ring : list Point) : Q :=
  match ring with
  | a :: (b :: _) as rest => lng a * lat b - lng b * lat a + shoelace rest
  | _ => 0
  end.

Definition ring_area (g : Geometry) : Q :=
  match g with
  | GPolygon (ring :: _) => Qabs (shoelace ring) / 2
  | _ => 0
  end.

(** A geometry acts through its first vertex; buffers are axis-parallel
    squares; clustering is the k-means of the clustering contract without
    reprojection. *)
#[export] Instance planar : PostGIS := {|
  ST_Intersects a b := Qle_bool (linf (anchor a) (anchor b)) 0;
  ST_DWithin p g r := Qle_bool (linf p (anchor g)) r;
  ST_Distance := linf;
  ST_Buffer g r := square (anchor g) r;
  ST_Area := ring_area;
  ST_ClusterKMeans := ClusteringSpec.kmeans (fun p => p)
|}.

(** A position lies in a ring when both coordinates lie between those
    of two vertices. *)
Definition in_range (ring : list Point) (p : Point) : Prop :=
  (exists a b, In a ring /\ In b ring /\ (lng a <= lng p <= lng b)%Q)
  /\ (exists a b, In a ring /\ In b ring /\ (lat a <= lat p <= lat b)%Q).

Definition planar_covers (g : Geometry) (p : Point) : Prop :=
  match g with
  | GPoint q => same_place q p = true
  | GPolygon (ring :: _) => in_range ring p
  | _ => False
  end.

(** The planar extension meets the buffer contract: a square of half
    side [r] stays within distance [r] of its center in the maximum norm
    and holds every position within that distance. *)
#[export] Instance planar_buffer : ZoneSpec.GeodesicBuffer.
Proof.
  refine {| ZoneSpec.covers := planar_covers;
            ZoneSpec.distanceMeters := fun p g => linf p (anchor g) |}.
  - intros g r p Hr [(a & b & Ha & Hb & Hlng) (c & d & Hc & Hd & Hlat)].
    unfold linf. apply Q.max_lub; apply Qabs_Qle_condition.
    + cbn in Ha, Hb.
      repeat (destruct Ha as [<-|Ha]; [|]); try destruct Ha;
      repeat (destruct Hb as [<-|Hb]; [|]); try destruct Hb;
      cbn in Hlng; lra.
    + cbn in Hc, Hd.
      repeat (destruct Hc as [<-|Hc]; [|]); try destruct Hc;
      repeat (destruct Hd as [<-|Hd]; [|]); try destruct Hd;
      cbn in Hlat; lra.
  - intros g r p Hr Hd. unfold ZoneSpec.chordTolerance in Hd.
    assert (Hle : (linf p (anchor g) <= r)%Q) by lra.
    unfold linf in Hle.
    pose proof (Q.le_max_l (Qabs (lng p - lng (anchor g)))
                  (Qabs (lat p - lat (anchor g)))) as Hx.
    pose proof (Q.le_max_r (Qabs (lng p - lng (anchor g)))
                  (Qabs (lat p - lat (anchor g)))) as Hy.
    assert (Hax : (Qabs (lng p - lng (anchor g)) <= r)%Q) by lra.
    assert (Hay : (Qabs (lat p - lat (anchor g)) <= r)%Q) by lra.
    apply Qabs_Qle_condition in Hax, Hay.
    set (c := anchor g) in *.
    split.
    + exists (mkPoint (lng c - r) (lat c - r)), (mkPoint (lng c + r) (lat c - r)).
      cbn. split; [now left|]. split; [right; now left|]. lra.
    + exists (mkPoint (lng c - r) (lat c - r)), (mkPoint (lng c + r) (lat c + r)).
      cbn. split; [now left|]. split; [right; right; now left|]. lra.
Defined.

Definition never_rejects : Statement -> option Error := fun _ => None.

Definition connection_lost : Error :=
  mkError "Error" (Some "ECONNRESET") "Connection terminated unexpectedly" None.

Definition noon : Timestamp := mkTimestamp 2024 43200.

(** A severe earthquake at the origin, covering 2 square kilometers. *)
Definition quake : Disaster :=
  mkDisaster 1 earthquake (Some severe) (GPoint origin) origin (Some 2%Q) (mkTimestamp 2023 0).

(** A census block at the origin with 1000 inhabitants. *)
Definition downtown : CensusBlock :=
  mkCensusBlock 10 (GPolygon [[origin; mkPoint 1 0; mkPoint 1 1; origin]])
    1000 (Some 400%Z) (Some 150%Z) (Some 200%Z) (Some 50%Z) (Some 300%Z).

(** A census block far from the origin. *)
Definition uptown : CensusBlock :=
  mkCensusBlock 11 (GPolygon [[mkPoint 90 90; mkPoint 91 90; mkPoint 91 91; mkPoint 90 90]])
    700 (Some 300%Z) (Some 100%Z) (Some 120%Z) (Some 30%Z) (Some 90%Z).

Definition hospital_at (id : Z) (p : Point) (open : option bool) : Infrastructure :=
  mkInfrastructure id "General Hospital" hospital p None (Some 250%Z) open.

(** One disaster, one census block on it, one hospital nearby; the
    statement reading the disaster details is rejected. *)
Definition details_rejected (st : Statement) : option Error :=
  match st with
  | SelectDisasterDetails => Some connection_lost
  | _ => None
  end.

Definition city (rejects : Statement -> option Error) : Db :=
  mkDb [quake] [hospital_at 5 (mkPoint 3 4) (Some true)] [downtown; uptown] [] 1 noon rejects.

(** The same disaster with no census block on it. *)
Definition desert : Db :=
  mkDb [quake] [] [uptown] [] 1 noon never_rejects.

(** Two open hospitals at the same position, the one with the greater
    id first in scan order, and one farther away. *)
Definition twin_hospitals : Db :=
  mkDb [] [hospital_at 2 (mkPoint 1 1) (Some true);
           hospital_at 1 (mkPoint 1 1) (Some true);
           hospital_at 3 (mkPoint 5 5) (Some true);
           hospital_at 4 (mkPoint 0 0) (Some false)]
       [] [] 1 noon never_rejects.

(** Four recent wildfires at three distinct positions. *)
Definition fire_at (id : Z) (p : Point) : Disaster :=
  mkDisaster id wildfire None (GPoint p) p None (mkTimestamp 2023 0).

Definition three_fires : Db :=
  mkDb [fire_at 1 (mkPoint 0 0); fire_at 2 (mkPoint 10 0); fire_at 3 (mkPoint 0 10)]
       [] [] [] 1 noon never_rejects.

End Planar.

(** ** Statements sent by the controllers and by the services not
    covered above *)

Module Backend.

Inductive OtherStatement : Type :=
| SelectDisasterId
| SelectDisasterById
| SelectDisastersByType
| SelectDisastersInBounds
| SelectInfrastructureList
| SelectInfrastructureById
| SelectInfrastructureByType.

(** The database together with what the further statements need: which
    of them are rejected, the collation by which text is ordered, and how
    the database reads a text parameter as an integer ([None]: invalid
    input syntax; the notations accepted depend on its version). *)
Record Server : Type := mkServer {
  store : Db;
  also_rejects : OtherStatement -> option Error;
  collation_le : string -> string -> bool;
  integer_input : string -> option Z
}.

Definition with_store (s : Server) (db : Db) : Server :=
  mkServer db (also_rejects s) (collation_le s) (integer_input s).

Definition other_query {A} (s : Server) (st : OtherStatement) (rows : result (list A))
  : result (list A) :=
  match also_rejects s st with
  | Some e => throw e
  | None => rows
  end.

(** SQLSTATE 2201X, invalid_row_count_in_result_offset_clause. *)
Definition invalid_row_count_in_offset : Error :=
  pg_error "2201X" "OFFSET must not be negative".

(** SQLSTATE 08P01, protocol_violation: the parameters supplied do not
    match the placeholders of the statement. *)
Definition protocol_violation : Error :=
  pg_error "08P01" "bind message supplies the wrong number of parameters".

Fixpoint only_spaces (s : string) : bool :=
  match s with
  | EmptyString => true
  | String " "%char rest => only_spaces rest
  | _ => false
  end.

Fixpoint drop_digits (s : string) : string :=
  match s with
  | EmptyString => EmptyString
  | String a rest =>
      match digit_value a with
      | Some _ => drop_digits rest
      | None => s
      end
  end.

(** The decimal notation of integer input: blanks, an optional sign,
    digits, blanks, and nothing else. *)
Definition integer_text (s : string) : option Z :=
  let body sign rest :=
    match leading_digits rest None with
    | Some z => if only_spaces (drop_digits rest) then Some (sign * z)%Z else None
    | None => None
    end in
  match skip_spaces s with
  | String "-"%char rest => body (-1)%Z rest
  | String "+"%char rest => body 1%Z rest
  | rest => body 1%Z rest
  end.

(** A text parameter compared with an [integer] column. *)
Definition int4_parameter (s : Server) (text : string) : result Z :=
  match integer_input s text with
  | Some z =>
      if ((-2147483648 <=? z) && (z <=? 2147483647))%Z then ret z
      else throw numeric_value_out_of_range
  | None => throw invalid_text_representation
  end.

(** [ORDER BY] with a comparison that is not numeric: a stable insertion
    sort by [le]. *)
Fixpoint insert_with {A} (le : A -> A -> bool) (x : A) (rows : list A) : list A :=
  match rows with
  | [] => [x]
  | y :: rest => if le x y then x :: rows else y :: insert_with le x rest
  end.

Definition sort_with {A} (le : A -> A -> bool) (rows : list A) : list A :=
  fold_right (insert_with le) [] rows.

(** [a >= b] on timestamps. *)
Definition not_earlier (a b : Timestamp) : bool := negb (later_than b a).

End Backend.

Export Backend.

(** ** spatialAnalysis.js: disasters within a bounding box *)

Module SpatialAnalysisBounds.

(** The bounds object of finite coordinates. *)
Record Bounds : Type := mkBounds { north : Q; south : Q; east : Q; west : Q }.

(** [ST_MakeEnvelope(xmin, ymin, xmax, ymax, 4326)] *)
Definition ST_MakeEnvelope (xmin ymin xmax ymax : Q) : Geometry :=
  GPolygon [[ mkPoint xmin ymin; mkPoint xmin ymax; mkPoint xmax ymax;
              mkPoint xmax ymin; mkPoint xmin ymin ]].

(** Conversion of the [$5::disaster_type[]] parameter. *)
Fixpoint disaster_type_array (labels : list string) : result (list disaster_type) :=
  match labels with
  | [] => ret []
  | label :: rest =>
      match SpatialAnalysis.parse_disaster_type label with
      | Some t => let* ts := disaster_type_array rest in ret (t :: ts)
      | None => throw invalid_text_representation
      end
  end.

Definition has_type (ts : list disaster_type) (d : Disaster) : bool :=
  existsb (fun t => String.eqb (disaster_type_label (d_type d)) (disaster_type_label t)) ts.

Section Service.

Context `{PostGIS}.

Definition in_bounds (bounds : Bounds) (d : Disaster) : bool :=
  ST_Intersects (d_geometry d)
    (ST_MakeEnvelope (west bounds) (south bounds) (east bounds) (north bounds)).

(** The statement with its optional [type = ANY(...)] condition,
    [ORDER BY start_time DESC LIMIT 1000]. *)
Definition bounds_rows (db : Db) (bounds : Bounds) (types : option (list string))
  : result (list Disaster) :=
  let* wanted :=
    match types with
    | Some (label :: rest) =>
        let* ts := disaster_type_array (label :: rest) in ret (Some ts)
    | _ => ret None
    end in
  let matching :=
    List.filter
      (fun d => in_bounds bounds d
                && match wanted with
                   | Some ts => has_type ts d
                   | None => true
                   end)
      (disasters db) in
  ret (take 1000
         (sort_with (fun a b => not_earlier (d_start_time a) (d_start_time b)) matching)).

(** Find disasters within a bounding box ([types = null] by default). *)
Definition findDisastersInBounds (s : Server) (bounds : Bounds)
    (types : option (list string)) : result (list Disaster) :=
  try_catch
    (other_query s SelectDisastersInBounds (bounds_rows (store s) bounds types))
    (fun error => throw error).

End Service.

End SpatialAnalysisBounds.

(** ** The controllers *)

Module Controllers.

(** A bind parameter as the driver sends it. *)
Inductive Param : Type :=
| PText (s : string)
| PBool (b : bool)
| PNumber (n : num).

(** The optional conditions [getInfrastructure] appends to its
    statement, each with the number of its placeholder. *)
Inductive Condition : Type :=
| TypeEquals (placeholder : nat)
| OperationalEquals (placeholder : nat).

(** The statement [getInfrastructure] builds: the appended conditions,
    the placeholders of LIMIT and OFFSET, and the parameter array. *)
Record ListStatement : Type := mkListStatement {
  conditions : list Condition;
  limit_placeholder : nat;
  offset_placeholder : nat;
  params : list Param
}.

(** The query string of [GET /api/infrastructure]. *)
Record ListRequest : Type := mkListRequest {
  q_type : option string;
  q_operational : option string;
  q_limit : option string;
  q_offset : option string
}.

Definition nonempty_text (v : option string) : bool :=
  match v with
  | Some s => negb (String.eqb s EmptyString)
  | None => false
  end.

(** The statement and parameters for a request; [paramCount] starts at
    1 and grows with every parameter pushed. *)
Definition build_list_statement (req : ListRequest) : ListStatement :=
  let limit :=
    match q_limit req with Some s => PText s | None => PNumber (Fin 100) end in
  let offset :=
    match q_offset req with Some s => PText s | None => PNumber (Fin 0) end in
  let '(conds1, params1, paramCount1) :=
    match q_type req with
    | Some type =>
        if nonempty_text (Some type)
        then ([TypeEquals 1], [PText type], 2%nat)
        else ([], [], 1%nat)
    | None => ([], [], 1%nat)
    end in
  let '(conds2, params2, paramCount2) :=
    match q_operational req with
    | Some operational =>
        (conds1 ++ [OperationalEquals paramCount1],
         params1 ++ [PBool (String.eqb operational "true")],
         S paramCount1)
    | None => (conds1, params1, paramCount1)
    end in
  {| conditions := conds2;
     limit_placeholder := paramCount2;
     offset_placeholder := S paramCount2;
     params := params2 ++ [limit; offset] |}.

Definition placeholders (st : ListStatement) : list nat :=
  map (fun c => match c with TypeEquals k | OperationalEquals k => k end)
      (conditions st)
  ++ [limit_placeholder st; offset_placeholder st].

(** Parameter [$k]. *)
Definition param (st : ListStatement) (k : nat) : option Param :=
  match k with
  | O => None
  | S i => params st !! i
  end.

(** A parameter in a [bigint] position. *)
Definition bigint_of_param (s : Server) (p : Param) : result Z :=
  match p with
  | PText text =>
      match integer_input s text with
      | Some z =>
          if ((-9223372036854775808 <=? z) && (z <=? 9223372036854775807))%Z then ret z
          else throw numeric_value_out_of_range
      | None => throw invalid_text_representation
      end
  | PNumber n => int8_of_number n
  | PBool _ => throw invalid_text_representation
  end.

(** The condition a parameter imposes on a row. *)
Definition condition_filter (st : ListStatement) (c : Condition)
  : result (Infrastructure -> bool) :=
  match c with
  | TypeEquals k =>
      match param st k with
      | Some (PText label) =>
          match parse_infrastructure_type label with
          | Some t =>
              ret (fun i => String.eqb (infrastructure_type_label (i_type i))
                                       (infrastructure_type_label t))
          | None => throw invalid_text_representation
          end
      | Some _ => throw invalid_text_representation
      | None => throw protocol_violation
      end
  | OperationalEquals k =>
      match param st k with
      | Some (PBool b) =>
          ret (fun i => match i_operational_status i with
                        | Some status => Bool.eqb status b
                        | None => false
                        end)
      | Some _ => throw invalid_text_representation
      | None => throw protocol_violation
      end
  end.

Fixpoint condition_filters (st : ListStatement) (cs : list Condition)
  : result (Infrastructure -> bool) :=
  match cs with
  | [] => ret (fun _ => true)
  | c :: rest =>
      let* f := condition_filter st c in
      let* g := condition_filters st rest in
      ret (fun i => f i && g i)
  end.

(** Evaluation of a built statement: the parameters must be exactly
    those the placeholders name; the conditions select rows, which are
    ordered by name and cut to the requested window. *)
Definition run_list_statement (s : Server) (st : ListStatement)
  : result (list Infrastructure) :=
  if negb (Nat.eqb (length (params st)) (list_max (placeholders st)))
  then throw protocol_violation
  else
    let* keep := condition_filters st (conditions st) in
    let* limit :=
      match param st (limit_placeholder st) with
      | Some p => bigint_of_param s p
      | None => throw protocol_violation
      end in
    let* offset :=
      match param st (offset_placeholder st) with
      | Some p => bigint_of_param s p
      | None => throw protocol_violation
      end in
    if (limit <? 0)%Z then throw invalid_row_count_in_limit
    else if (offset <? 0)%Z then throw invalid_row_count_in_offset
    else
      ret (take (Z.to_nat limit)
             (drop (Z.to_nat offset)
                (sort_with (fun a b => collation_le s (i_name a) (i_name b))
                   (List.filter keep (infrastructure (store s)))))).

Definition ok {A} (data : A) : Http.Response A :=
  Http.mkResponse 200 true None (Some data).

(** What a controller does with the outcome of its [try] block. *)
Definition send_or_next {A} (r : result (Http.Response A)) : Http.Handled A :=
  match r with
  | inr response => Http.Responded response
  | inl error => Http.Next error
  end.

(** A text id used in a statement: the statement is rejected as a whole,
    or the text is converted, or the conversion fails. *)
Definition with_id {A} (s : Server) (rejected : option Error) (id : string)
    (k : Z -> result A) : result A :=
  match rejected with
  | Some e => throw e
  | None => let* n := int4_parameter s id in k n
  end.

(** [InfrastructureController.getInfrastructure] *)
Definition getInfrastructure (s : Server) (req : ListRequest)
  : Http.Handled (list Infrastructure) :=
  send_or_next
    (let* rows :=
       other_query s SelectInfrastructureList
         (run_list_statement s (build_list_statement req)) in
     ret (ok rows)).

(** [InfrastructureController.getInfrastructureById] *)
Definition getInfrastructureById (s : Server) (id : string)
  : Http.Handled Infrastructure :=
  send_or_next
    (let* rows :=
       with_id s (also_rejects s SelectInfrastructureById) id
         (fun n => ret (List.filter (fun i => Z.eqb (i_id i) n)
                          (infrastructure (store s)))) in
     match rows with
     | [] => ret (Http.failure 404 "Infrastructure not found")
     | row :: _ => ret (ok row)
     end).

(** [InfrastructureController.getByType] *)
Definition getByType (s : Server) (type : string)
  : Http.Handled (list Infrastructure) :=
  send_or_next
    (let* rows :=
       other_query s SelectInfrastructureByType
         (match parse_infrastructure_type type with
          | Some t =>
              ret (sort_with (fun a b => collation_le s (i_name a) (i_name b))
                     (List.filter
                        (fun i => String.eqb (infrastructure_type_label (i_type i))
                                             (infrastructure_type_label t))
                        (infrastructure (store s))))
          | None => throw invalid_text_representation
          end) in
     ret (ok rows)).

(** ['SELECT id FROM disasters WHERE id = $1'] *)
Definition disaster_check (s : Server) (id : string) : result (list Z) :=
  with_id s (also_rejects s SelectDisasterId) id
    (fun n => ret (map d_id (List.filter (fun d => Z.eqb (d_id d) n)
                               (disasters (store s))))).

(** The row of [getDisasterById]: the disaster and the number of its
    stored assessments, a 64-bit count delivered as text. *)
Record DisasterWithCount : Type := mkDisasterWithCount {
  counted_disaster : Disaster;
  impact_assessment_count : value
}.

(** [LEFT JOIN impact_assessments ia ON ia.disaster_id = d.id ...
    GROUP BY d.id], [id] being the primary key: one row for the disaster
    with [COUNT(ia.id)]. *)
Definition assessments_of (db : Db) (d : Disaster) : list ImpactAssessment :=
  List.filter (fun ia => Z.eqb (ia_disaster_id ia) (d_id d)) (impact_assessments db).

(** [DisasterController.getDisasterById] *)
Definition getDisasterById (s : Server) (id : string)
  : Http.Handled DisasterWithCount :=
  send_or_next
    (let* rows :=
       with_id s (also_rejects s SelectDisasterById) id
         (fun n =>
            ret (map (fun d =>
                        {| counted_disaster := d;
                           impact_assessment_count :=
                             bigint_text (Z.of_nat (length (assessments_of (store s) d))) |})
                   (List.filter (fun d => Z.eqb (d_id d) n) (disasters (store s))))) in
     match rows with
     | [] => ret (Http.failure 404 "Disaster not found")
     | row :: _ => ret (ok row)
     end).

(** [DisasterController.getDisastersByType] ([limit = 50] by default):
    [WHERE type = $1 ORDER BY start_time DESC LIMIT $2]. *)
Definition getDisastersByType (s : Server) (type : string) (limit : option string)
  : Http.Handled (list Disaster) :=
  let limit :=
    match limit with Some text => PText text | None => PNumber (Fin 50) end in
  send_or_next
    (let* rows :=
       other_query s SelectDisastersByType
         (let* t :=
            match SpatialAnalysis.parse_disaster_type type with
            | Some t => ret t
            | None => throw invalid_text_representation
            end in
          let* n := bigint_of_param s limit in
          if (n <? 0)%Z then throw invalid_row_count_in_limit
          else
            ret (take (Z.to_nat n)
                   (sort_with (fun a b => not_earlier (d_start_time a) (d_start_time b))
                      (List.filter
                         (fun d => String.eqb (disaster_type_label (d_type d))
                                              (disaster_type_label t))
                         (disasters (store s)))))) in
     ret (ok rows)).

Section Handlers.

Context `{PostGIS}.

(** [ImpactController.getEvacuationZones] *)
Definition getEvacuationZones (s : Server) (disasterId : string)
  : Http.Handled (option SpatialAnalysis.ZonesRow) :=
  send_or_next
    (let* zones :=
       match rejects (store s) SelectEvacuationZones with
       | Some e => throw e
       | None =>
           let* n := int4_parameter s disasterId in
           SpatialAnalysis.createEvacuationZones (store s) n
       end in
     ret (ok zones)).

(** [ImpactController.getDisasterHotspots] ([clusters = 5] by default) *)
Definition getDisasterHotspots (s : Server) (disasterType : string)
    (clusters : option string) : Http.Handled (list SpatialAnalysis.HotspotRow) :=
  let clusters :=
    match clusters with
    | Some text => parseInt (JString text)
    | None => parseInt (JNumber (Fin 5))
    end in
  send_or_next
    (let* hotspots :=
       SpatialAnalysis.calculateDisasterHotspots (store s) disasterType (Some clusters) in
     ret (ok hotspots)).

(** The body [calculateImpact] sends: the assessment the service
    returns, whose [disaster_id] property is the route parameter, a
    text, as the service copied it into the object. *)
Record ImpactBody : Type := mkImpactBody {
  sent_disaster_id : string;
  sent_impact : ImpactCalculation.FullImpact
}.

(** [ImpactController.calculateImpact]: the response and the server
    the call leaves behind.  Every statement converts the text id
    again. *)
Definition calculateImpact (s : Server) (disasterId : string)
  : Http.Handled ImpactBody * Server :=
  match disaster_check s disasterId with
  | inl error => (Http.Next error, s)
  | inr [] => (Http.Responded (Http.failure 404 "Disaster not found"), s)
  | inr (_ :: _) =>
      match int4_parameter s disasterId with
      | inl error => (Http.Next error, s)
      | inr n =>
          match ImpactCalculation.calculateFullImpact (store s) n with
          | (inl error, db) => (Http.Next error, with_store s db)
          | (inr impact, db) =>
              (Http.Responded (ok (mkImpactBody disasterId impact)), with_store s db)
          end
      end
  end.

(** [DisasterController.getDisasterImpact] *)
Definition getDisasterImpact (s : Server) (id : string)
  : Http.Handled SpatialAnalysis.ImpactSummary :=
  send_or_next
    (let* disasterCheck := disaster_check s id in
     match disasterCheck with
     | [] => ret (Http.failure 404 "Disaster not found")
     | _ :: _ =>
         let* n := int4_parameter s id in
         let* impactSummary := SpatialAnalysis.getDisasterImpactSummary (store s) n in
         ret (ok impactSummary)
     end).

End Handlers.

End Controllers.

(** ** config/database.js: the transaction helper *)

Module Pool.

(** The statements the helper issues on the client, and the release of
    the client, in the order they happen. *)
Inductive Event : Type := Begin | Commit | Rollback | Release.

Definition Event_eq_dec (a b : Event) : {a = b} + {a <> b}.
Proof. decide equality. Defined.

(** A client checked out of the pool: which of the three statements it
    rejects. *)
Record Client : Type := mkClient {
  begin_rejected : option Error;
  commit_rejected : option Error;
  rollback_rejected : option Error
}.

(** [transaction(callback)]: the value returned or error thrown, and
    the events on the client. *)
Definition transaction {A} (connect : result Client) (callback : Client -> result A)
  : result A * list Event :=
  match connect with
  | inl error => (throw error, [])
  | inr client =>
      let '(body, log) :=
        match begin_rejected client with
        | Some error => (throw error, [Begin])
        | None =>
            match callback client with
            | inl error => (throw error, [Begin])
            | inr value =>
                match commit_rejected client with
                | Some error => (throw error, [Begin; Commit])
                | None => (ret value, [Begin; Commit])
                end
            end
        end in
      let '(outcome, log) :=
        match body with
        | inr value => (ret value, log)
        | inl error =>
            match rollback_rejected client with
            | Some error' => (throw error', log ++ [Rollback])
            | None => (throw error, log ++ [Rollback])
            end
        end in
      (outcome, log ++ [Release])
  end.

End Pool.
(** ** Reading aids and sample data for the further properties *)

(** The rows of an infrastructure result of the given type. *)
Definition rows_of_type (t : string) (rows : list SpatialAnalysis.InfrastructureRow)
  : list SpatialAnalysis.InfrastructureRow :=
  List.filter (fun r => String.eqb (SpatialAnalysis.ir_type r) t) rows.

(** What the [by_type] reducer holds under a key seen [n] times. *)
Definition tally (n : nat) : option num :=
  match n with
  | O => None
  | S _ => Some (of_Z (Z.of_nat n))
  end.

(** The row the affected-infrastructure statement selects for a site
    joined to a disaster. *)
Definition describes `{PostGIS} (r : SpatialAnalysis.InfrastructureRow)
    (d : Disaster) (i : Infrastructure) : Prop :=
  SpatialAnalysis.ir_id r = i_id i
  /\ SpatialAnalysis.ir_name r = i_name i
  /\ SpatialAnalysis.ir_type r = infrastructure_type_label (i_type i)
  /\ SpatialAnalysis.ir_capacity r = i_capacity i
  /\ SpatialAnalysis.ir_operational_status r = i_operational_status i
  /\ SpatialAnalysis.ir_location r = i_location i
  /\ SpatialAnalysis.ir_distance_km r = (ST_Distance (i_location i) (d_centroid d) / 1000)%Q.

(** Descending order of start time, ties in any order. *)
Definition newest_first (a b : Disaster) : Prop :=
  not_earlier (d_start_time a) (d_start_time b) = true.

(** A server on the given tables that rejects none of the further
    statements, orders text by character codes and reads integers in
    decimal notation. *)
Definition serving (db : Db) : Server :=
  mkServer db (fun _ => None) String.leb integer_text.

(** Whether a disaster passes the optional type filter of a request. *)
Definition type_wanted (types : option (list string)) (d : Disaster) : Prop :=
  match types with
  | Some (label :: rest) => In (disaster_type_label (d_type d)) (label :: rest)
  | _ => True
  end.

(** A bounding box with its south-west corner on the origin. *)
Definition from_origin : SpatialAnalysisBounds.Bounds :=
  SpatialAnalysisBounds.mkBounds 1 0 1 0.

(** What the optional filters of a list request demand of a row: a
    non-empty [type] names the row's type, and [operational], when
    present, is compared with the text "true". *)
Definition type_requested (req : Controllers.ListRequest) (i : Infrastructure) : Prop :=
  match Controllers.q_type req with
  | Some type =>
      if String.eqb type EmptyString then True
      else infrastructure_type_label (i_type i) = type
  | None => True
  end.

Definition operational_requested (req : Controllers.ListRequest) (i : Infrastructure)
  : Prop :=
  match Controllers.q_operational req with
  | Some operational => i_operational_status i = Some (String.eqb operational "true")
  | None => True
  end.

(** The LIMIT and OFFSET parameters of a list request. *)
Definition limit_param (req : Controllers.ListRequest) : Controllers.Param :=
  match Controllers.q_limit req with
  | Some s => Controllers.PText s
  | None => Controllers.PNumber (Fin 100)
  end.

Definition offset_param (req : Controllers.ListRequest) : Controllers.Param :=
  match Controllers.q_offset req with
  | Some s => Controllers.PText s
  | None => Controllers.PNumber (Fin 0)
  end.

(** Ascending order of name under the server's collation. *)
Definition by_name (s : Server) (a b : Infrastructure) : Prop :=
  collation_le s (i_name a) (i_name b) = true.

(** The collation is a total preorder. *)
Definition collates (s : Server) : Prop :=
  (forall a b, collation_le s a b = true \/ collation_le s b a = true)
  /\ (forall a b c, collation_le s a b = true -> collation_le s b c = true ->
                    collation_le s a c = true).

(** Whether a site is of the given type. *)
Definition is_of_type (t : infrastructure_type) (i : Infrastructure) : bool :=
  String.eqb (infrastructure_type_label (i_type i)) (infrastructure_type_label t).

(** The number of disasters a hotspot row stands for, as the statement
    counts them. *)
Definition members_of (clustered : list (Point * nat)) (row : SpatialAnalysis.HotspotRow)
  : nat :=
  length (SpatialAnalysis.cluster_members clustered (SpatialAnalysis.cluster_id row)).

(** The number [findNearest] and [getDisasterHotspots] hand to the
    service as limit and as cluster count: [parseInt] of the query
    parameter, or of the default 5. *)
Definition parsed_or_5 (limit : option string) : num :=
  match limit with
  | Some text => parseInt (JString text)
  | None => parseInt (JNumber (Fin 5))
  end.

(** The errors of the conversion of a value to the type of its column
    or parameter. *)
Definition column_error (e : Error) : Prop :=
  e = numeric_value_out_of_range \/ e = invalid_text_representation
  \/ e = invalid_parameter_value.

(** A text that does not begin with [x]: decimal digits put before it
    do not form the prefix of a hexadecimal number. *)
Definition no_x (s : string) : Prop :=
  match s with
  | String c _ => c <> "x"%char /\ c <> "X"%char
  | EmptyString => True
  end.

(** The earthquake of [city] with two census blocks of 1,500,000,000
    inhabitants on it: each population fits its [INTEGER] column, their
    sum does not. *)
Definition crowded_block (id : Z) : CensusBlock :=
  mkCensusBlock id
    (GPolygon [[Planar.origin; mkPoint 1 0; mkPoint 1 1; Planar.origin]])
    1500000000 (Some 400%Z) (Some 150%Z) (Some 200%Z) (Some 50%Z) (Some 300%Z).

Definition crowded : Db :=
  mkDb [Planar.quake] [] [crowded_block 20; crowded_block 21] [] 1 Planar.noon
    Planar.never_rejects.

(** * Theorems *)

Import ImpactCalculation ScoringSpec.

(** Closed examples are evaluated in the planar reference extension. *)
#[local] Existing Instance Planar.planar.
#[local] Existing Instance Planar.planar_buffer.

(** ** Arithmetic helpers *)

Lemma round_nearest (x y : Q) :
  (x == y)%Q -> nearest_whole x (Qfloor (y + (1 # 2))).
Proof.
  intros E. unfold nearest_whole.
  pose proof (Qfloor_le (y + (1 # 2))) as Hlo.
  pose proof (Qlt_floor (y + (1 # 2))) as Hhi.
  rewrite inject_Z_plus in Hhi. change (inject_Z 1) with 1%Q in Hhi.
  apply Qabs_Qle_condition. split; lra.
Qed.

(** Whole numbers below 2^53 in magnitude are doubles, and are sent to
    the database digit for digit. *)
Lemma nearest_double_small (z : Z) :
  (Z.abs z < 2 ^ 53)%Z -> nearest_double z = z.
Proof.
  intros Hz. unfold nearest_double.
  assert (Hbits : (Z.log2 (Z.abs z) + 1 <=? 53)%Z = true).
  { apply Z.leb_le.
    destruct (Z.eq_dec (Z.abs z) 0%Z) as [->|Hne]; [cbn; lia|].
    assert (Z.log2 (Z.abs z) < 53)%Z by (apply Z.log2_lt_pow2; lia).
    lia. }
  now rewrite Hbits.
Qed.

(** A whole number of 2^53 or more in magnitude is sent as a number of
    2^53 or more. *)
Lemma nearest_double_large (z : Z) :
  (2 ^ 53 <= Z.abs z)%Z -> (2 ^ 53 <= Z.abs (nearest_double z))%Z.
Proof.
  intros Hz. unfold nearest_double.
  set (a := Z.abs z) in *.
  assert (Ha : (0 < a)%Z) by lia.
  destruct (Z.log2_spec a Ha) as [Hlo Hhi].
  set (bits := (Z.log2 a + 1)%Z).
  destruct (Z.leb_spec bits 53) as [Hsmall|Hbig]; [exact Hz|].
  set (shift := (bits - 53)%Z).
  assert (Hshift : (1 <= shift)%Z) by (subst shift; lia).
  rewrite Z.shiftr_div_pow2 by lia.
  set (q := (a / 2 ^ shift)%Z).
  assert (Hpow : (0 < 2 ^ shift)%Z) by (apply Z.pow_pos_nonneg; lia).
  assert (Hsplit : (2 ^ Z.log2 a = 2 ^ 52 * 2 ^ shift)%Z).
  { rewrite <- Z.pow_add_r by lia. f_equal. subst shift bits. lia. }
  assert (Hq : (2 ^ 52 <= q)%Z).
  { subst q. apply Z.div_le_lower_bound; [exact Hpow|]. lia. }
  match goal with
  | |- context [if ?c then (q + 1)%Z else q] =>
      set (q' := if c then (q + 1)%Z else q)
  end.
  assert (Hq' : (2 ^ 52 <= q')%Z).
  { subst q'. match goal with |- (_ <= if ?c then _ else _)%Z => destruct c end; lia. }
  rewrite Z.shiftl_mul_pow2 by lia.
  rewrite Z.abs_mul.
  assert (Hsgn : Z.abs (Z.sgn z) = 1%Z) by (subst a; lia).
  rewrite Hsgn, Z.mul_1_l, Z.abs_eq by nia.
  assert (2 <= 2 ^ shift)%Z.
  { change 2%Z with (2 ^ 1)%Z at 1. apply Z.pow_le_mono_r; lia. }
  nia.
Qed.

(** The digits printed for a double of 2^53 or more stand for a number
    of 2^53 or more. *)
Lemma shortest_digits_from_large (j : nat) (a : Z) :
  (2 ^ 53 <= a)%Z -> (2 ^ 53 <= shortest_digits_from j a)%Z.
Proof.
  intros Ha.
  assert (Hback : forall v, (0 <= v)%Z -> (nearest_double v =? a)%Z = true ->
                            (2 ^ 53 <= v)%Z).
  { intros v Hv Hr. apply Z.eqb_eq in Hr.
    destruct (Z.lt_ge_cases v (2 ^ 53)) as [Hsmall|Hbig]; [|exact Hbig].
    rewrite nearest_double_small in Hr by lia. lia. }
  induction j as [|j IH]; cbn [shortest_digits_from].
  - assert (Hscale : (0 < 10 ^ Z.of_nat 0)%Z) by (apply Z.pow_pos_nonneg; lia).
    set (scale := (10 ^ Z.of_nat 0)%Z) in *.
    assert (Hlo : (0 <= a / scale * scale)%Z)
      by (apply Z.mul_nonneg_nonneg; [apply Z.div_pos|]; lia).
    repeat match goal with
           | |- context [(nearest_double ?v =? a)%Z] =>
               let E := fresh "E" in
               destruct (nearest_double v =? a)%Z eqn:E;
               [apply Hback in E; [|lia]|]; cbn [andb]
           | |- context [if ?c then _ else _] => destruct c
           end; lia.
  - assert (Hscale : (0 < 10 ^ Z.of_nat (S j))%Z) by (apply Z.pow_pos_nonneg; lia).
    set (scale := (10 ^ Z.of_nat (S j))%Z) in *.
    assert (Hlo : (0 <= a / scale * scale)%Z)
      by (apply Z.mul_nonneg_nonneg; [apply Z.div_pos|]; lia).
    repeat match goal with
           | |- context [(nearest_double ?v =? a)%Z] =>
               let E := fresh "E" in
               destruct (nearest_double v =? a)%Z eqn:E;
               [apply Hback in E; [|lia]|]; cbn [andb]
           | |- context [if ?c then _ else _] => destruct c
           end; first [lia|exact IH].
Qed.

Lemma shortest_digits_large (d : Z) :
  (2 ^ 53 <= Z.abs d)%Z -> (2 ^ 53 <= Z.abs (shortest_digits d))%Z.
Proof.
  intros Hd. unfold shortest_digits.
  pose proof (shortest_digits_from_large 20 (Z.abs d) Hd) as Hp.
  rewrite Z.abs_mul.
  assert (Hsgn : Z.abs (Z.sgn d) = 1%Z) by lia.
  rewrite Hsgn, Z.mul_1_l, Z.abs_eq by lia. exact Hp.
Qed.

Lemma integer_digits_whole (n : Z) :
  integer_digits (of_Z n)
  = let d := nearest_double n in
    if (10 ^ 21 <=? Z.abs d)%Z then None
    else if (Z.abs d <? 2 ^ 53)%Z then Some d
    else Some (shortest_digits d).
Proof.
  unfold integer_digits, of_Z. rewrite Qfloor_Z.
  assert (E : Qeq_bool (inject_Z n) (inject_Z n) = true)
    by (apply Qeq_bool_iff; reflexivity).
  now rewrite E.
Qed.

Lemma integer_digits_small (n : Z) :
  (Z.abs n < 2 ^ 53)%Z -> integer_digits (of_Z n) = Some n.
Proof.
  intros Hn. rewrite integer_digits_whole. cbv zeta.
  rewrite nearest_double_small by exact Hn.
  destruct (Z.leb_spec (10 ^ 21) (Z.abs n)); [lia|].
  destruct (Z.ltb_spec (Z.abs n) (2 ^ 53)); [reflexivity|lia].
Qed.

(** Digits of less than 2^53 in magnitude are those of the number
    itself. *)
Lemma integer_digits_inv (q : Q) (z : Z) :
  integer_digits (Fin q) = Some z -> (Z.abs z < 2 ^ 53)%Z -> (q == inject_Z z)%Q.
Proof.
  unfold integer_digits.
  destruct (Qeq_bool q (inject_Z (Qfloor q))) eqn:Hwhole; [|discriminate].
  apply Qeq_bool_iff in Hwhole.
  destruct (10 ^ 21 <=? _)%Z; [discriminate|].
  destruct (Z.ltb_spec (Z.abs (nearest_double (Qfloor q))) (2 ^ 53)) as [Hd|Hd];
    intros [= <-] Hz.
  - destruct (Z.lt_ge_cases (Z.abs (Qfloor q)) (2 ^ 53)) as [Hsmall|Hbig].
    + now rewrite nearest_double_small by exact Hsmall.
    + apply nearest_double_large in Hbig. lia.
  - apply shortest_digits_large in Hd. lia.
Qed.

Lemma int8_of_number_whole (n : Z) :
  (Z.abs n < 2 ^ 53)%Z -> int8_of_number (of_Z n) = ret n.
Proof.
  intros Hn. unfold int8_of_number. rewrite integer_digits_small by exact Hn.
  destruct (Z.leb_spec (-9223372036854775808) n); [|lia].
  destruct (Z.leb_spec n 9223372036854775807); [|lia].
  reflexivity.
Qed.

(** A number read as an [integer] is that whole number. *)
Lemma int4_of_number_inv (q : Q) (z : Z) :
  int4_of_number (Fin q) = inr z ->
  (q == inject_Z z)%Q /\ (-2147483648 <= z <= 2147483647)%Z.
Proof.
  unfold int4_of_number.
  destruct (integer_digits (Fin q)) as [d|] eqn:Hd; [|discriminate].
  destruct (Z.leb_spec (-2147483648) d); [|discriminate].
  destruct (Z.leb_spec d 2147483647); [|discriminate].
  cbn [andb ret]. intros [= <-].
  split; [|lia]. apply (integer_digits_inv q d Hd). lia.
Qed.

(** A number that is not whole is no [integer]. *)
Lemma int4_of_number_fraction (q : Q) :
  ~ (q == inject_Z (Qfloor q))%Q ->
  int4_of_number (Fin q) = throw invalid_text_representation.
Proof.
  intros Hq. unfold int4_of_number, integer_digits.
  destruct (Qeq_bool q (inject_Z (Qfloor q))) eqn:Hwhole; [|reflexivity].
  apply Qeq_bool_iff in Hwhole. contradiction.
Qed.

Lemma int4_of_number_whole (n : Z) :
  (-2147483648 <= n <= 2147483647)%Z -> int4_of_number (of_Z n) = ret n.
Proof.
  intros Hn. unfold int4_of_number. rewrite integer_digits_small by lia.
  destruct (Z.leb_spec (-2147483648) n); [|lia].
  destruct (Z.leb_spec n 2147483647); [|lia].
  reflexivity.
Qed.

(** Rounding moves a number by at most one half. *)
Lemma round_within_half (x : Q) :
  (Qabs (x - inject_Z (Qfloor (x + (1 # 2)))) <= 1 # 2)%Q.
Proof.
  pose proof (Qfloor_le (x + (1 # 2))) as Hlo.
  pose proof (Qlt_floor (x + (1 # 2))) as Hhi.
  rewrite inject_Z_plus in Hhi. change (inject_Z 1) with 1%Q in Hhi.
  apply Qabs_Qle_condition. split; lra.
Qed.

Lemma slack_nonneg (t : Q) : (0 <= t)%Q -> ((1 # 2) <= (1 # 2) + t / 10 ^ 9)%Q.
Proof.
  intros Ht.
  assert (0 <= t / 10 ^ 9)%Q by (apply Qle_shift_div_l; [reflexivity|lra]).
  lra.
Qed.

Lemma perPersonLoss_recognized (s : severity_level) :
  perPersonLoss (Some (severity_label s)) = ANumber (Fin (basePerCapitaLoss s)).
Proof. destruct s; vm_compute; reflexivity. Qed.

Lemma typeMultiplier_recognized (c : disaster_type) :
  typeMultiplier (Some (disaster_type_label c)) = ANumber (Fin (categoryMultiplier c)).
Proof. destruct c; vm_compute; reflexivity. Qed.

Lemma basePerPersonLoss_other (k : string) :
  (forall s, k <> severity_label s) -> basePerPersonLoss !! k = None.
Proof.
  intros Hk. unfold basePerPersonLoss.
  pose proof (Hk minor). pose proof (Hk moderate).
  pose proof (Hk severe). pose proof (Hk extreme). simpl in *.
  rewrite !lookup_insert_ne by congruence.
  now rewrite lookup_singleton_ne by congruence.
Qed.

Lemma typeMultipliers_other (k : string) :
  (forall c, k <> disaster_type_label c) -> typeMultipliers !! k = None.
Proof.
  intros Hk. unfold typeMultipliers.
  pose proof (Hk wildfire). pose proof (Hk earthquake).
  pose proof (Hk flood). pose proof (Hk hurricane).
  pose proof (Hk tornado). pose proof (Hk severe_weather).
  pose proof (Hk drought). pose proof (Hk winter_storm). simpl in *.
  rewrite !lookup_insert_ne by congruence.
  now rewrite lookup_singleton_ne by congruence.
Qed.

Lemma property_key_other {A : Type} (label : A -> string) (v : option string) :
  (forall a, label a <> "null") ->
  (forall a, v <> Some (label a)) -> forall a, property_key v <> label a.
Proof.
  intros Hu Hv a E. destruct v as [k|]; simpl in E.
  - apply (Hv a). now subst.
  - now apply (Hu a).
Qed.

Lemma severity_key_other (sev : option string) :
  (forall s, sev <> Some (severity_label s)) ->
  forall s, property_key sev <> severity_label s.
Proof. apply property_key_other. intros []; discriminate. Qed.

Lemma type_key_other (type : option string) :
  (forall c, type <> Some (disaster_type_label c)) ->
  forall c, property_key type <> disaster_type_label c.
Proof. apply property_key_other. intros []; discriminate. Qed.

(** A severity outside the table: the default, unless the name is
    inherited. *)
Lemma perPersonLoss_unrecognized (sev : option string) :
  (forall s, sev <> Some (severity_label s)) ->
  perPersonLoss sev
  = if inherited (property_key sev) then AnObject else ANumber (Fin 10000).
Proof.
  intros H. unfold perPersonLoss, read.
  rewrite (basePerPersonLoss_other _ (severity_key_other sev H)).
  now destruct (inherited (property_key sev)).
Qed.

Lemma typeMultiplier_unrecognized (type : option string) :
  (forall c, type <> Some (disaster_type_label c)) ->
  typeMultiplier type
  = if inherited (property_key type) then AnObject else ANumber (Fin 1).
Proof.
  intros H. unfold typeMultiplier, read.
  rewrite (typeMultipliers_other _ (type_key_other type H)).
  now destruct (inherited (property_key type)).
Qed.

Lemma severity_cases (sev : option string) :
  (exists s, sev = Some (severity_label s))
  \/ (forall s, sev <> Some (severity_label s)).
Proof.
  destruct sev as [k|]; [|right; discriminate].
  destruct (decide (k = "minor")) as [->|]; [left; now exists minor|].
  destruct (decide (k = "moderate")) as [->|]; [left; now exists moderate|].
  destruct (decide (k = "severe")) as [->|]; [left; now exists severe|].
  destruct (decide (k = "extreme")) as [->|]; [left; now exists extreme|].
  right. intros [] [= ->]; congruence.
Qed.

Lemma type_cases (type : option string) :
  (exists c, type = Some (disaster_type_label c))
  \/ (forall c, type <> Some (disaster_type_label c)).
Proof.
  destruct type as [k|]; [|right; discriminate].
  destruct (decide (k = "wildfire")) as [->|]; [left; now exists wildfire|].
  destruct (decide (k = "earthquake")) as [->|]; [left; now exists earthquake|].
  destruct (decide (k = "flood")) as [->|]; [left; now exists flood|].
  destruct (decide (k = "hurricane")) as [->|]; [left; now exists hurricane|].
  destruct (decide (k = "tornado")) as [->|]; [left; now exists tornado|].
  destruct (decide (k = "severe_weather")) as [->|];
    [left; now exists severe_weather|].
  destruct (decide (k = "drought")) as [->|]; [left; now exists drought|].
  destruct (decide (k = "winter_storm")) as [->|]; [left; now exists winter_storm|].
  right. intros [] [= ->]; congruence.
Qed.

Lemma estimateLoss_finite (type severity : option string) (pop : Q)
    (area : option Q) (b m : Q) :
  perPersonLoss severity = ANumber (Fin b) ->
  typeMultiplier type = ANumber (Fin m) ->
  exists x, (x == pop * b * m + default 0%Q area * 500000)%Q /\
    estimateLoss type severity (Fin pop) (Fin <$> area)
    = of_Z (Qfloor (x + (1 # 2))).
Proof.
  intros Hb Hm. unfold estimateLoss. rewrite Hb, Hm. cbn [ToNumber].
  destruct area as [a|];
    cbn [fmap option_fmap option_map or_default truthy default mul add Math_round].
  - destruct (Qeq_bool a 0) eqn:Ea; cbn [negb mul add Math_round].
    + apply Qeq_bool_iff in Ea.
      exists (pop * b * m + 0 * 500000)%Q. split; [rewrite Ea|]; reflexivity.
    + exists (pop * b * m + a * 500000)%Q. split; reflexivity.
  - exists (pop * b * m + 0 * 500000)%Q. split; reflexivity.
Qed.

(** Every name that is not inherited reads a positive number. *)
Lemma perPersonLoss_positive (sev : option string) :
  inherited (property_key sev) = false ->
  exists b, perPersonLoss sev = ANumber (Fin b) /\ (0 < b)%Q.
Proof.
  intros Hown. destruct (severity_cases sev) as [[s ->]|Hother].
  - rewrite perPersonLoss_recognized. eexists. split; [reflexivity|].
    now destruct s.
  - rewrite (perPersonLoss_unrecognized sev Hother), Hown.
    eexists. split; reflexivity.
Qed.

Lemma typeMultiplier_positive (type : option string) :
  inherited (property_key type) = false ->
  exists m, typeMultiplier type = ANumber (Fin m) /\ (0 < m)%Q.
Proof.
  intros Hown. destruct (type_cases type) as [[c ->]|Hother].
  - rewrite typeMultiplier_recognized. eexists. split; [reflexivity|].
    now destruct c.
  - rewrite (typeMultiplier_unrecognized type Hother), Hown.
    eexists. split; reflexivity.
Qed.

(** With an inherited name on either side the estimate is not a
    number. *)
Lemma estimateLoss_inherited (type sev : option string) (pop : num)
    (area : option num) :
  perPersonLoss sev = AnObject \/ typeMultiplier type = AnObject ->
  estimateLoss type sev pop area = NaN.
Proof.
  unfold estimateLoss. intros [->| ->]; cbn [ToNumber].
  - destruct pop; reflexivity.
  - destruct (mul pop _); reflexivity.
Qed.

(** ** Economic loss *)

(** C2: for every recognized category and severity the loss estimate is
    the whole number nearest to affectedPopulation x
    basePerCapitaLoss[severity] x categoryMultiplier[category] + areaSqKm x
    fixedInfrastructureLossRate, and a severe earthquake affecting 1000
    people over no area is estimated at 80,000,000. *)
Theorem C2_estimateLoss_formula :
  (forall (c : disaster_type) (s : severity_level) (affectedPopulation areaSqKm : Q),
     exists z : Z,
       estimateLoss (Some (disaster_type_label c)) (Some (severity_label s))
         (Fin affectedPopulation) (Some (Fin areaSqKm)) = of_Z z
       /\ nearest_whole (lossFormula c s affectedPopulation areaSqKm) z)
  /\ estimateLoss (Some "earthquake") (Some "severe") (Fin 1000) (Some (Fin 0))
     = of_Z 80000000.
Proof.
  split; [|vm_compute; reflexivity].
  intros c s pop area.
  destruct (estimateLoss_finite (Some (disaster_type_label c))
              (Some (severity_label s)) pop (Some area) _ _
              (perPersonLoss_recognized s) (typeMultiplier_recognized c))
    as (x & Hx & Hr).
  simpl in Hr, Hx. eexists. split; [exact Hr|].
  apply round_nearest. unfold lossFormula, fixedInfrastructureLossRate.
  rewrite Hx. reflexivity.
Qed.

(** The estimate for the row of a stored disaster: its category is one
    of the eight of the column's type and its severity one of the four,
    or NULL. *)
Lemma estimateLoss_of_columns (c : disaster_type) (s : option severity_level)
    (pop : Q) (area : option Q) :
  exists z : Z,
    estimateLoss (Some (disaster_type_label c)) (severity_label <$> s)
      (Fin pop) (Fin <$> area) = of_Z z.
Proof.
  destruct (perPersonLoss_positive (severity_label <$> s)) as (b & Hb & _).
  { destruct s as [[]|]; reflexivity. }
  destruct (estimateLoss_finite (Some (disaster_type_label c)) (severity_label <$> s)
              pop area b _ Hb (typeMultiplier_recognized c)) as (x & _ & Hr).
  eauto.
Qed.




(** ** Vulnerability score *)

Lemma weightedScore_finite (e c d l : Q) :
  weightedScore (Fin e) (Fin c) (Fin d) (Fin l)
  = Fin (e * 0.3 + c * 0.2 + d * 0.3 + l * 0.2).
Proof. reflexivity. Qed.

Lemma min_100_whole (z : Z) :
  Math_min (Fin 100) (of_Z z) = of_Z (Z.min 100 z).
Proof.
  unfold Math_min, of_Z. f_equal.
  destruct (Qle_bool 100 (inject_Z z)) eqn:E.
  - apply Qle_bool_iff in E. change 100%Q with (inject_Z 100) in E.
    rewrite <- Zle_Qle in E. rewrite Z.min_l by exact E. reflexivity.
  - rewrite Z.min_r; [reflexivity|].
    destruct (Z.le_gt_cases z 100) as [Hle|Hgt]; [exact Hle|].
    assert (Hq : Qle_bool 100 (inject_Z z) = true).
    { apply Qle_bool_iff. change 100%Q with (inject_Z 100).
      rewrite <- Zle_Qle. lia. }
    congruence.
Qed.

Lemma scoreOfPercentages_finite (e c d l : Q) :
  scoreOfPercentages (Fin e) (Fin c) (Fin d) (Fin l)
  = of_Z (Z.min 100 (Qfloor (e * 0.3 + c * 0.2 + d * 0.3 + l * 0.2 + (1 # 2)))).
Proof.
  unfold scoreOfPercentages. rewrite weightedScore_finite.
  cbn [Math_round]. apply min_100_whole.
Qed.

Lemma min_100_not_above (x : num) : ~ gt (Math_min (Fin 100) x) (Fin 100).
Proof.
  destruct x as [q| | |]; simpl; try tauto.
  - destruct (Qle_bool 100 q) eqn:E; [lra|].
    intros H. assert (Qle_bool 100 q = true) by (apply Qle_bool_iff; lra).
    congruence.
  - lra.
Qed.

Lemma score_le_of_sum_le (e c d l e' c' d' l' : Q) :
  (e * 0.3 + c * 0.2 + d * 0.3 + l * 0.2
   <= e' * 0.3 + c' * 0.2 + d' * 0.3 + l' * 0.2)%Q ->
  le (scoreOfPercentages (Fin e) (Fin c) (Fin d) (Fin l))
     (scoreOfPercentages (Fin e') (Fin c') (Fin d') (Fin l')).
Proof.
  intros H. rewrite !scoreOfPercentages_finite. unfold le, of_Z.
  rewrite <- Zle_Qle. apply Z.min_le_compat_l, Qfloor_resp_le. lra.
Qed.

(** C7, as stated, fails: with 36 percent children the code returns 7,
    the weighted sum clamped to 100 is 7.2. *)
Lemma C7_vulnerabilityScore_not_plain_weighted_sum :
  ~ (forall d : Demographics,
       same (calculateVulnerabilityScore d) (vulnerabilityScore_spec d)).
Proof.
  intros H. specialize (H nine_children_of_25).
  vm_compute in H. discriminate H.
Qed.

(** C7, amended: the score is the weighted sum of the four percentages
    (weights 0.3, 0.2, 0.3, 0.2) rounded to a whole number and then
    clamped to 100; for percentages of at most 10^300 in magnitude the
    whole number lies within one half of the weighted sum, up to the
    rounding error of the arithmetic, taken here as at most 10^-9 times
    one plus the magnitudes of the percentages.  The score never exceeds
    100, and it is non-decreasing in each percentage with the other
    three held fixed. *)
Theorem C7_vulnerabilityScore_rounded_clamped_monotone :
  (forall e c d l : Q,
     (Qabs e + Qabs c + Qabs d + Qabs l <= 10 ^ 300)%Q ->
     exists z : Z,
       scoreOfPercentages (Fin e) (Fin c) (Fin d) (Fin l) = of_Z (Z.min 100 z)
       /\ (Qabs (e * 0.3 + c * 0.2 + d * 0.3 + l * 0.2 - inject_Z z)
           <= (1 # 2) + (1 + Qabs e + Qabs c + Qabs d + Qabs l) / 10 ^ 9)%Q)
  /\ (forall demographics : Demographics,
        ~ gt (calculateVulnerabilityScore demographics) (Fin 100))
  /\ (forall e c d l x : Q,
        (e <= x)%Q ->
        le (scoreOfPercentages (Fin e) (Fin c) (Fin d) (Fin l))
           (scoreOfPercentages (Fin x) (Fin c) (Fin d) (Fin l)))
  /\ (forall e c d l x : Q,
        (c <= x)%Q ->
        le (scoreOfPercentages (Fin e) (Fin c) (Fin d) (Fin l))
           (scoreOfPercentages (Fin e) (Fin x) (Fin d) (Fin l)))
  /\ (forall e c d l x : Q,
        (d <= x)%Q ->
        le (scoreOfPercentages (Fin e) (Fin c) (Fin d) (Fin l))
           (scoreOfPercentages (Fin e) (Fin c) (Fin x) (Fin l)))
  /\ (forall e c d l x : Q,
        (l <= x)%Q ->
        le (scoreOfPercentages (Fin e) (Fin c) (Fin d) (Fin l))
           (scoreOfPercentages (Fin e) (Fin c) (Fin d) (Fin x))).
Proof.
  split.
  { intros e c d l _. eexists. split; [apply scoreOfPercentages_finite|].
    eapply Qle_trans; [apply round_within_half|].
    pose proof (Qabs_nonneg e). pose proof (Qabs_nonneg c).
    pose proof (Qabs_nonneg d). pose proof (Qabs_nonneg l).
    apply slack_nonneg. lra. }
  split; [intros d; apply min_100_not_above|].
  repeat split; intros e c d l x Hx; apply score_le_of_sum_le; lra.
Qed.

(** The score at the percentages 10, 36, 5, 20, and its monotonicity
    when the elderly share grows to 40 and when the low-income share
    grows to 90. *)
Lemma C7_vulnerabilityScore_rounded_clamped_monotone_witness :
  (exists z : Z,
     scoreOfPercentages (Fin 10) (Fin 36) (Fin 5) (Fin 20) = of_Z (Z.min 100 z))
  /\ le (scoreOfPercentages (Fin 10) (Fin 36) (Fin 5) (Fin 20))
        (scoreOfPercentages (Fin 40) (Fin 36) (Fin 5) (Fin 20))
  /\ le (scoreOfPercentages (Fin 10) (Fin 36) (Fin 5) (Fin 20))
        (scoreOfPercentages (Fin 10) (Fin 36) (Fin 5) (Fin 90)).
Proof.
  destruct C7_vulnerabilityScore_rounded_clamped_monotone
    as (Hround & _ & He & _ & _ & Hl).
  split; [|split].
  - destruct (Hround 10%Q 36%Q 5%Q 20%Q) as (z & Hz & _).
    + vm_compute. discriminate.
    + exists z. exact Hz.
  - apply He. vm_compute. discriminate.
  - apply Hl. vm_compute. discriminate.
Defined.

(** C10, as stated, fails: a population of 0 with all four counts
    positive gives the number 100. *)
Lemma C10_zero_population_can_score_100 :
  ~ (forall (d : Demographics) (p : Q),
       population d = Some (Fin p) -> (p == 0)%Q ->
       ~ in_0_100 (calculateVulnerabilityScore d)).
Proof.
  intros H.
  apply (H empty_block_all_groups 0%Q); [reflexivity|reflexivity|].
  vm_compute. split; discriminate.
Qed.

Lemma percentage_zero_population (x p : Q) :
  (p == 0)%Q ->
  percentage (Fin x) (Fin p) =
    match (x ?= 0)%Q with Gt => PInf | Lt => NInf | Eq => NaN end.
Proof.
  intros Hp. unfold percentage, div.
  apply Qeq_bool_iff in Hp. rewrite Hp.
  destruct (x ?= 0)%Q; reflexivity.
Qed.

(** C10, amended: a missing population defaults to 1; a population that
    is present and 0 divides by zero, so with non-negative counts the
    result is NaN as soon as one of the four counts is 0 or missing (in
    particular when all are 0), and it is the number 100 when all four
    counts are positive. *)
Theorem C10_zero_population_score :
  (forall e c d l : option num,
     calculateVulnerabilityScore (mkDemographics e c d l None)
     = calculateVulnerabilityScore (mkDemographics e c d l (Some (Fin 1))))
  /\ (forall (e c d l : option Q) (p : Q),
        (p == 0)%Q ->
        (0 <= default 0 e)%Q -> (0 <= default 0 c)%Q ->
        (0 <= default 0 d)%Q -> (0 <= default 0 l)%Q ->
        let score :=
          calculateVulnerabilityScore
            (mkDemographics (Fin <$> e) (Fin <$> c) (Fin <$> d) (Fin <$> l)
               (Some (Fin p))) in
        ((default 0 e == 0 \/ default 0 c == 0 \/
          default 0 d == 0 \/ default 0 l == 0)%Q -> score = NaN)
        /\ ((0 < default 0 e)%Q -> (0 < default 0 c)%Q ->
            (0 < default 0 d)%Q -> (0 < default 0 l)%Q -> score = Fin 100)).
Proof.
  split; [reflexivity|].
  intros e c d l p Hp He Hc Hd Hl score.
  assert (Hscore : score =
    scoreOfPercentages (percentage (Fin (default 0%Q e)) (Fin p))
      (percentage (Fin (default 0%Q c)) (Fin p))
      (percentage (Fin (default 0%Q d)) (Fin p))
      (percentage (Fin (default 0%Q l)) (Fin p))).
  { subst score. destruct e, c, d, l; reflexivity. }
  rewrite Hscore, !percentage_zero_population by exact Hp.
  clear Hscore score.
  generalize dependent (default 0%Q e). generalize dependent (default 0%Q c).
  generalize dependent (default 0%Q d). generalize dependent (default 0%Q l).
  intros xl Hl xd Hd xc Hc xe He.
  destruct (Qcompare_spec xe 0); destruct (Qcompare_spec xc 0);
    destruct (Qcompare_spec xd 0); destruct (Qcompare_spec xl 0);
    try lra.
  all: split;
    [ intros Hz; first [reflexivity | destruct Hz as [Hz|[Hz|[Hz|Hz]]]; lra]
    | intros; first [reflexivity | lra] ].
Qed.

(** A zero population with all counts zero, and with one count
    missing. *)
Lemma C10_zero_population_score_witness :
  calculateVulnerabilityScore
    (mkDemographics (Some (Fin 0)) (Some (Fin 0)) (Some (Fin 0)) (Some (Fin 0))
       (Some (Fin 0))) = NaN
  /\ calculateVulnerabilityScore
       (mkDemographics (Some (Fin 3)) (Some (Fin 2)) None (Some (Fin 1))
          (Some (Fin 0))) = NaN.
Proof.
  destruct C10_zero_population_score as [_ H].
  split.
  - apply (H (Some 0%Q) (Some 0%Q) (Some 0%Q) (Some 0%Q) 0%Q);
      try (vm_compute; discriminate); [reflexivity|left; reflexivity].
  - apply (H (Some 3%Q) (Some 2%Q) None (Some 1%Q) 0%Q);
      try (vm_compute; discriminate); [reflexivity|].
    right; right; left; reflexivity.
Defined.

(** ** Population aggregation *)

Section PopulationFacts.

Context `{PostGIS}.

(** With no intersecting census block the population statement still
    yields its single row: every sum is NULL and the count is the text
    "0". *)
Lemma calculateAffectedPopulation_no_blocks (db : Db) (disasterId : Z) :
  rejects db SelectAffectedPopulation = None ->
  SpatialAnalysis.affected_blocks db disasterId = [] ->
  SpatialAnalysis.calculateAffectedPopulation db disasterId
  = ret (Some (SpatialAnalysis.mkPopulationRow JNull JNull JNull JNull JNull
                 (JString "0"))).
Proof.
  intros Hq Hb.
  unfold SpatialAnalysis.calculateAffectedPopulation, query,
    SpatialAnalysis.population_rows.
  rewrite Hq, Hb. reflexivity.
Qed.

(** The impact summary converts that row with [parseInt(..) || 0], so
    its population part holds the number 0 six times. *)
Lemma getDisasterImpactSummary_no_blocks (db : Db) (disasterId : Z)
    (summary : SpatialAnalysis.ImpactSummary) :
  rejects db SelectAffectedPopulation = None ->
  SpatialAnalysis.affected_blocks db disasterId = [] ->
  SpatialAnalysis.getDisasterImpactSummary db disasterId = inr summary ->
  SpatialAnalysis.population summary
  = SpatialAnalysis.mkPopulationSummary (Fin 0) (Fin 0) (Fin 0) (Fin 0) (Fin 0) (Fin 0).
Proof.
  intros Hq Hb. unfold SpatialAnalysis.getDisasterImpactSummary.
  rewrite (calculateAffectedPopulation_no_blocks db disasterId Hq Hb).
  cbn [try_catch bind ret].
  destruct (SpatialAnalysis.findAffectedInfrastructure db disasterId (Some 10%Q)); cbn;
    [discriminate|].
  destruct (SpatialAnalysis.createEvacuationZones db disasterId); cbn;
    [discriminate|].
  intros E. injection E as <-. reflexivity.
Qed.

End PopulationFacts.

(** C5: for the disaster of [desert], which no census block intersects,
    the aggregation succeeds, but the row it returns (and the controller
    sends) holds [null] for the five sums and the text "0" for the block
    count, none of which is the number zero. *)
Theorem C5_empty_aggregate_is_null_not_zero :
  SpatialAnalysis.affected_blocks Planar.desert 1 = []
  /\ SpatialAnalysis.calculateAffectedPopulation Planar.desert 1
     = ret (Some (SpatialAnalysis.mkPopulationRow JNull JNull JNull JNull JNull
                    (JString "0")))
  /\ Http.data (Http.respond (Http.getAffectedPopulation Planar.desert 1))
     = Some (Some (SpatialAnalysis.mkPopulationRow JNull JNull JNull JNull JNull
                     (JString "0")))
  /\ ~ is_number_zero JNull
  /\ ~ is_number_zero (JString "0").
Proof.
  split; [reflexivity|].
  split; [vm_compute; reflexivity|].
  split; [vm_compute; reflexivity|].
  split; intros [].
Qed.

(** ** Full impact assessment *)

Section AssessmentFacts.

Context `{PostGIS}.

Lemma getDisasterImpactSummary_rejected (db : Db) (disasterId : Z) (e : Error) :
  rejects db SelectAffectedPopulation = Some e
  \/ rejects db SelectAffectedInfrastructure = Some e
  \/ rejects db SelectEvacuationZones = Some e ->
  exists e', SpatialAnalysis.getDisasterImpactSummary db disasterId = inl e'.
Proof.
  unfold SpatialAnalysis.getDisasterImpactSummary,
    SpatialAnalysis.calculateAffectedPopulation,
    SpatialAnalysis.findAffectedInfrastructure,
    SpatialAnalysis.createEvacuationZones, query.
  intros [Hq|[Hq|Hq]]; rewrite Hq;
    destruct (rejects db SelectAffectedPopulation);
    destruct (rejects db SelectAffectedInfrastructure);
    cbn; eauto.
Qed.

(** A failure of the population aggregation, of the infrastructure
    search or of the zone generation aborts the assessment and leaves the
    database as it was. *)
Lemma calculateFullImpact_aborts_without_summary (db : Db) (disasterId : Z) (e : Error) :
  SpatialAnalysis.getDisasterImpactSummary db disasterId = inl e ->
  ImpactCalculation.calculateFullImpact db disasterId = (inl e, db).
Proof.
  intros E. unfold ImpactCalculation.calculateFullImpact. rewrite E. reflexivity.
Qed.

(** The loss estimation never throws. *)
Lemma estimateEconomicLoss_never_throws (db : Db) (disasterId : Z) (pop : num) :
  exists loss, ImpactCalculation.estimateEconomicLoss db disasterId pop = inr loss.
Proof.
  unfold ImpactCalculation.estimateEconomicLoss, query.
  destruct (rejects db SelectDisasterDetails); cbn; [eauto|].
  destruct (ImpactCalculation.disaster_details db disasterId); cbn; eauto.
Qed.

(** When reading the disaster details is rejected the estimate is 0. *)
Lemma estimateEconomicLoss_rejected (db : Db) (disasterId : Z) (pop : num) (e : Error) :
  rejects db SelectDisasterDetails = Some e ->
  ImpactCalculation.estimateEconomicLoss db disasterId pop = inr (Fin 0).
Proof.
  intros Hq. unfold ImpactCalculation.estimateEconomicLoss, query.
  rewrite Hq. reflexivity.
Qed.

(** When the disaster row is read, the estimate is the arithmetic of
    [estimateLoss] on its type, severity and area. *)
Lemma estimateEconomicLoss_found (db : Db) (disasterId : Z) (pop : num)
    (row : ImpactCalculation.DisasterDetails)
    (others : list ImpactCalculation.DisasterDetails) :
  rejects db SelectDisasterDetails = None ->
  ImpactCalculation.disaster_details db disasterId = row :: others ->
  ImpactCalculation.estimateEconomicLoss db disasterId pop
  = inr (estimateLoss (ImpactCalculation.type row) (ImpactCalculation.severity row)
           pop (ImpactCalculation.area_sq_km row)).
Proof.
  intros Hq Hrow. unfold ImpactCalculation.estimateEconomicLoss, query.
  rewrite Hq, Hrow. reflexivity.
Qed.

(** Whenever the assessment throws, nothing has been stored. *)
Lemma calculateFullImpact_failure_stores_nothing (db db' : Db) (disasterId : Z)
    (e : Error) :
  ImpactCalculation.calculateFullImpact db disasterId = (inl e, db') -> db' = db.
Proof.
  unfold ImpactCalculation.calculateFullImpact, ImpactCalculation.insert_assessment.
  destruct (SpatialAnalysis.getDisasterImpactSummary db disasterId) as [e1|summary];
    [now intros [= _ <-]|].
  destruct (ImpactCalculation.estimateEconomicLoss db disasterId _) as [e2|loss];
    [now intros [= _ <-]|].
  destruct (SpatialAnalysis.evacuation_zones summary) as [zones|];
    [|now intros [= _ <-]].
  destruct (rejects db InsertImpactAssessment); [now intros [= _ <-]|].
  destruct (ImpactCalculation.assessment_row db _ zones); [now intros [= _ <-]|].
  destruct (existsb _ (disasters db)); [discriminate|now intros [= _ <-]].
Qed.

End AssessmentFacts.

(** C1: in [city] with the disaster-details statement rejected, the
    loss estimation fails, yet the assessment of disaster 1 is returned
    and stored, filled with the real population figures and an economic
    loss of 0; with no rejection the loss is 81,000,000. *)
Theorem C1_failed_loss_estimate_is_stored_as_zero :
  let run := ImpactCalculation.calculateFullImpact (Planar.city Planar.details_rejected) 1 in
  (exists full,
     fst run = inr full
     /\ ImpactCalculation.estimated_economic_loss (ImpactCalculation.assessment full) = Fin 0
     /\ ImpactCalculation.affected_population (ImpactCalculation.assessment full) = Fin 1000)
  /\ (exists row,
        impact_assessments (snd run) = [row]
        /\ ia_estimated_economic_loss row = Fin 0
        /\ ia_affected_population row = Fin 1000)
  /\ (exists full,
        fst (ImpactCalculation.calculateFullImpact (Planar.city Planar.never_rejects) 1)
        = inr full
        /\ ImpactCalculation.estimated_economic_loss (ImpactCalculation.assessment full)
           = Fin 81000000).
Proof.
  cbv zeta. split; [|split].
  - eexists. split; [vm_compute; reflexivity|]. split; reflexivity.
  - eexists. split; [vm_compute; reflexivity|]. split; reflexivity.
  - eexists. split; [vm_compute; reflexivity|]. reflexivity.
Qed.

(** ** Nearest infrastructure: the category argument *)

Lemma errorHandler_is_failure {A} (e : Error) :
  Http.success (@Http.errorHandler A e) = false
  /\ Http.data (@Http.errorHandler A e) = None.
Proof.
  unfold Http.errorHandler, Http.failure.
  repeat match goal with
         | |- context [match ?x with _ => _ end] => destruct x
         end; split; reflexivity.
Qed.

Lemma findNearest_unknown_type `{PostGIS} (db : Db) (point : Point)
    (label : string) (limit : option num) :
  parse_infrastructure_type label = None ->
  rejects db SelectNearestInfrastructure = None ->
  SpatialAnalysis.findNearestInfrastructure db point (Some label) limit
  = throw invalid_text_representation.
Proof.
  intros Hp Hq.
  unfold SpatialAnalysis.findNearestInfrastructure, query,
    SpatialAnalysis.nearest_rows.
  rewrite Hq, Hp. reflexivity.
Qed.

(** C4: a request without a category (absent or empty) is answered with
    status 400 and no result list; a category that is not an
    infrastructure type never yields a result list, and is answered with
    status 400 whenever the database executes the statement. *)
Theorem C4_nearest_requires_known_category :
  forall (G : PostGIS) (db : Db) (point : Point) (limit : option string),
    (forall type : option string,
       type = None \/ type = Some EmptyString ->
       Http.respond (Http.findNearest db (Http.mkNearestRequest point type limit))
       = Http.failure 400 "Infrastructure type is required")
    /\ (forall label : string,
          parse_infrastructure_type label = None ->
          let response :=
            Http.respond
              (Http.findNearest db (Http.mkNearestRequest point (Some label) limit)) in
          Http.success response = false
          /\ Http.data response = None
          /\ (rejects db SelectNearestInfrastructure = None ->
              Http.status response = 400%Z)).
Proof.
  intros G db point limit. split.
  - intros type [-> | ->]; reflexivity.
  - intros label Hp response. subst response.
    unfold Http.findNearest. cbn [Http.req_type Http.req_limit Http.req_point].
    destruct (String.eqb label EmptyString) eqn:El; [repeat split|].
    destruct (rejects db SelectNearestInfrastructure) as [e|] eqn:Hq.
    + unfold SpatialAnalysis.findNearestInfrastructure, query. rewrite Hq.
      cbn. destruct (@errorHandler_is_failure (list SpatialAnalysis.NearestRow) e).
      repeat split; [assumption|assumption|discriminate].
    + rewrite (findNearest_unknown_type db point label _ Hp Hq).
      repeat split.
Qed.

(** The two rejections on [twin_hospitals]: no category, and the
    category "bakery". *)
Lemma C4_nearest_requires_known_category_witness :
  Http.respond
    (Http.findNearest Planar.twin_hospitals
       (Http.mkNearestRequest Planar.origin None (Some "3")))
  = Http.failure 400 "Infrastructure type is required"
  /\ Http.status
       (Http.respond
          (Http.findNearest Planar.twin_hospitals
             (Http.mkNearestRequest Planar.origin (Some "bakery") (Some "3"))))
     = 400%Z.
Proof.
  destruct (C4_nearest_requires_known_category Planar.planar Planar.twin_hospitals
              Planar.origin (Some "3")) as [Habsent Hunknown].
  split.
  - apply Habsent. left. reflexivity.
  - apply (Hunknown "bakery"); reflexivity.
Defined.

(** Called directly, the service treats an absent category as SQL NULL
    and returns an empty list. *)
Lemma findNearestInfrastructure_absent_type `{PostGIS} (db : Db) (point : Point) (n : Z) :
  rejects db SelectNearestInfrastructure = None ->
  (0 <= n < 2 ^ 53)%Z ->
  SpatialAnalysis.findNearestInfrastructure db point None (Some (of_Z n)) = ret [].
Proof.
  intros Hq Hn.
  unfold SpatialAnalysis.findNearestInfrastructure, query,
    SpatialAnalysis.nearest_rows.
  rewrite Hq, int8_of_number_whole by lia.
  cbn [try_catch bind ret SpatialAnalysis.nearest_candidates].
  destruct (Z.ltb_spec n 0); [lia|].
  cbn. rewrite take_nil. reflexivity.
Qed.

(** ** Nearest infrastructure: eligibility and order *)

Section OrderBy.

Context {A : Type} (key : A -> Q).

Lemma insert_by_perm (x : A) (rows : list A) :
  Permutation (insert_by key x rows) (x :: rows).
Proof.
  induction rows as [|y rest IH]; simpl; [reflexivity|].
  destruct (Qle_bool (key x) (key y)); [reflexivity|].
  rewrite IH. apply perm_swap.
Qed.

Lemma order_by_perm (rows : list A) : Permutation (order_by key rows) rows.
Proof.
  induction rows as [|x rest IH]; simpl; [reflexivity|].
  rewrite insert_by_perm. now apply perm_skip.
Qed.

Lemma insert_by_sorted (x : A) (rows : list A) :
  StronglySorted (key_le key) rows -> StronglySorted (key_le key) (insert_by key x rows).
Proof.
  induction 1 as [|y rest Hs IH Hall]; simpl.
  - constructor; constructor.
  - destruct (Qle_bool (key x) (key y)) eqn:E.
    + apply Qle_bool_iff in E. constructor; [now constructor|].
      constructor; [exact E|].
      eapply List.Forall_impl; [|exact Hall].
      intros z Hz. unfold key_le in *. lra.
    + assert (Hyx : (key y <= key x)%Q).
      { destruct (Qlt_le_dec (key y) (key x)) as [Hlt|Hle]; [lra|].
        apply Qle_bool_iff in Hle. congruence. }
      constructor; [exact IH|].
      rewrite (insert_by_perm x rest). constructor; assumption.
Qed.

Lemma order_by_sorted (rows : list A) : StronglySorted (key_le key) (order_by key rows).
Proof.
  induction rows as [|x rest IH]; simpl; [constructor|].
  now apply insert_by_sorted.
Qed.

Lemma order_by_length (rows : list A) : length (order_by key rows) = length rows.
Proof. apply Permutation_length, order_by_perm. Qed.

End OrderBy.

Lemma StronglySorted_take {A} (R : A -> A -> Prop) (n : nat) (l : list A) :
  StronglySorted R l -> StronglySorted R (take n l).
Proof.
  intros Hs. revert n. induction Hs as [|x l Hs IH Hall]; intros [|n]; simpl;
    try constructor; [apply IH|].
  apply Forall_take. exact Hall.
Qed.

Lemma StronglySorted_map {A B} (f : A -> B) (R : B -> B -> Prop) (l : list A) :
  StronglySorted (fun a b => R (f a) (f b)) l -> StronglySorted R (map f l).
Proof.
  induction 1 as [|x l Hs IH Hall]; simpl; constructor; [exact IH|].
  apply Forall_map. exact Hall.
Qed.

Lemma parse_infrastructure_type_label (label : string) (t : infrastructure_type) :
  parse_infrastructure_type label = Some t -> infrastructure_type_label t = label.
Proof.
  unfold parse_infrastructure_type. intros E.
  apply List.find_some in E as [_ E]. now apply String.eqb_eq in E.
Qed.

Section NearestFacts.

Context `{PostGIS}.

Lemma nearest_candidates_eligible (db : Db) (t : infrastructure_type) :
  Forall (fun i => i_operational_status i = Some true
                   /\ infrastructure_type_label (i_type i) = infrastructure_type_label t)
         (SpatialAnalysis.nearest_candidates db (Some t)).
Proof.
  unfold SpatialAnalysis.nearest_candidates.
  apply List.Forall_forall. intros i Hi.
  apply List.filter_In in Hi as [_ Hi].
  apply andb_prop in Hi as [Ht Ho]. apply String.eqb_eq in Ht.
  destruct (i_operational_status i) as [[|]|]; try discriminate. auto.
Qed.

(** The rows of the statement, when it runs: the limit has been read as
    a [bigint] that is not negative. *)
Lemma nearest_rows_inv (db : Db) (point : Point) (type : option string)
    (limit : num) (rows : list SpatialAnalysis.NearestRow) :
  SpatialAnalysis.nearest_rows db point type limit = inr rows ->
  exists (t : option infrastructure_type) (n : Z),
    (0 <= n)%Z /\ int8_of_number limit = inr n
    /\ t = match type with
           | Some label => parse_infrastructure_type label
           | None => None
           end
    /\ (forall label, type = Some label -> is_Some t)
    /\ rows = map (SpatialAnalysis.nearest_row point)
                (take (Z.to_nat n)
                   (order_by (fun i => knn_distance_sq (i_location i) point)
                      (SpatialAnalysis.nearest_candidates db t))).
Proof.
  unfold SpatialAnalysis.nearest_rows. intros E.
  assert (Hlimit : forall (t : option infrastructure_type),
    (let* n := int8_of_number limit in
     if (n <? 0)%Z then throw invalid_row_count_in_limit
     else ret (map (SpatialAnalysis.nearest_row point)
                 (take (Z.to_nat n)
                    (order_by (fun i => knn_distance_sq (i_location i) point)
                       (SpatialAnalysis.nearest_candidates db t))))) = inr rows ->
    exists n : Z, (0 <= n)%Z /\ int8_of_number limit = inr n
      /\ rows = map (SpatialAnalysis.nearest_row point)
                  (take (Z.to_nat n)
                     (order_by (fun i => knn_distance_sq (i_location i) point)
                        (SpatialAnalysis.nearest_candidates db t)))).
  { intros t Ht. destruct (int8_of_number limit) as [e|n]; [discriminate Ht|].
    cbn [bind ret] in Ht.
    destruct (n <? 0)%Z eqn:Hlt; [discriminate Ht|].
    apply Z.ltb_ge in Hlt. injection Ht as <-. exists n. repeat split; assumption. }
  destruct type as [label|].
  - destruct (parse_infrastructure_type label) as [t|] eqn:Hp; [|discriminate E].
    cbn [bind ret] in E. destruct (Hlimit _ E) as (n & Hn & Hs & ->).
    exists (Some t), n. repeat split; try assumption; eauto.
  - cbn [bind ret] in E. destruct (Hlimit _ E) as (n & Hn & Hs & ->).
    exists None, n. repeat split; try assumption; discriminate.
Qed.

(** The rows come in the order of the [ORDER BY] key, the planar
    distance of the coordinates; the distance reported with each row is
    the geodesic one. *)
Lemma nearest_rows_sorted (db : Db) (point : Point) (type : option string)
    (limit : num) (rows : list SpatialAnalysis.NearestRow) :
  SpatialAnalysis.nearest_rows db point type limit = inr rows ->
  StronglySorted (key_le (ProximitySpec.knn_key point)) rows.
Proof.
  intros E. apply nearest_rows_inv in E as (t & n & _ & _ & _ & _ & ->).
  apply StronglySorted_map, StronglySorted_take.
  apply (order_by_sorted (fun i => knn_distance_sq (i_location i) point)).
Qed.

End NearestFacts.

Lemma parse_infrastructure_type_of_label (t : infrastructure_type) :
  parse_infrastructure_type (infrastructure_type_label t) = Some t.
Proof. destruct t; reflexivity. Qed.

Lemma bigint_parameter_whole (n : Z) : bigint_parameter (of_Z n) = ret n.
Proof.
  unfold bigint_parameter, of_Z. rewrite Qfloor_Z.
  assert (E : Qeq_bool (inject_Z n) (inject_Z n) = true)
    by (apply Qeq_bool_iff; reflexivity).
  now rewrite E.
Qed.

(** C3, as stated, fails: in [twin_hospitals] the two nearest hospitals
    lie at the same position, and the one with the greater identifier is
    returned first. *)
Lemma C3_nearest_ties_not_ordered_by_id :
  ~ (forall (G : PostGIS) (db : Db) (point : Point) (type : option string)
            (limit : option num) (rows : list SpatialAnalysis.NearestRow),
       SpatialAnalysis.findNearestInfrastructure db point type limit = inr rows ->
       ProximitySpec.nearest_spec rows).
Proof.
  intros Hclaim.
  destruct (Hclaim Planar.planar Planar.twin_hospitals Planar.origin
              (Some "hospital") None _ eq_refl) as [_ Hsorted].
  vm_compute in Hsorted.
  inversion Hsorted as [|a l _ Hall]; subst.
  inversion Hall as [|b l' Hab _]; subst.
  destruct Hab as [Hlt | [_ Hid]].
  - vm_compute in Hlt. discriminate Hlt.
  - vm_compute in Hid. apply Hid. reflexivity.
Qed.

(** C3, amended: the rows returned are operational sites of the
    requested category, at most [k] of them for a limit [k] (5 when no
    limit is given); for a known category and a limit [0 <= k < 2^53]
    the call returns the [k] first of the eligible sites, or all of them
    when there are fewer, whenever the database executes the statement.
    No order among sites at equal distance is promised. *)
Theorem C3_nearest_operational_at_most_k :
  forall (G : PostGIS) (db : Db) (point : Point),
    (forall (type : option string) (limit : option num)
            (rows : list SpatialAnalysis.NearestRow),
       SpatialAnalysis.findNearestInfrastructure db point type limit = inr rows ->
       Forall (fun r => SpatialAnalysis.nr_operational_status r = Some true
                        /\ type = Some (SpatialAnalysis.nr_type r)) rows
       /\ (limit = None -> (length rows <= 5)%nat)
       /\ (forall k : Z, (0 <= k < 2 ^ 53)%Z -> limit = Some (of_Z k) ->
              (length rows <= Z.to_nat k)%nat))
    /\ (forall (t : infrastructure_type) (k : Z),
          rejects db SelectNearestInfrastructure = None ->
          (0 <= k < 2 ^ 53)%Z ->
          exists rows,
            SpatialAnalysis.findNearestInfrastructure db point
              (Some (infrastructure_type_label t)) (Some (of_Z k)) = inr rows
            /\ length rows
               = Nat.min (Z.to_nat k)
                   (length (SpatialAnalysis.nearest_candidates db (Some t)))).
Proof.
  intros G db point. split.
  - intros type limit rows E.
    unfold SpatialAnalysis.findNearestInfrastructure, query in E.
    destruct (rejects db SelectNearestInfrastructure); [discriminate E|].
    cbn [try_catch] in E.
    assert (E' : SpatialAnalysis.nearest_rows db point type
                   (match limit with Some n => n | None => Fin 5 end) = inr rows).
    { destruct (SpatialAnalysis.nearest_rows db point type _); [discriminate E|exact E]. }
    clear E. apply nearest_rows_inv in E' as (t & n & _ & Hread & Ht & Hsome & ->).
    split; [|split].
    + apply Forall_map, Forall_take.
      rewrite (order_by_perm _ (SpatialAnalysis.nearest_candidates db t)).
      destruct type as [label|]; subst t.
      * destruct (parse_infrastructure_type label) as [t|] eqn:Hp; [|constructor].
        apply parse_infrastructure_type_label in Hp.
        eapply List.Forall_impl; [|apply nearest_candidates_eligible].
        cbn. intros i [Ho Hl]. split; [exact Ho|]. now rewrite Hl, Hp.
      * constructor.
    + intros ->. change (Fin 5) with (of_Z 5) in Hread.
      rewrite int8_of_number_whole in Hread by (cbn; lia).
      injection Hread as <-. rewrite length_map, length_take. lia.
    + intros k Hk ->.
      rewrite int8_of_number_whole in Hread by lia.
      injection Hread as <-. rewrite length_map, length_take. lia.
  - intros t k Hq Hk. eexists. split.
    + unfold SpatialAnalysis.findNearestInfrastructure, query,
        SpatialAnalysis.nearest_rows.
      rewrite Hq, parse_infrastructure_type_of_label, int8_of_number_whole by lia.
      cbn [bind ret try_catch].
      destruct (Z.ltb_spec k 0); [lia|]. reflexivity.
    + rewrite length_map, length_take, order_by_length. reflexivity.
Qed.

(** The two nearest hospitals of [twin_hospitals] seen from the
    origin. *)
Lemma C3_nearest_operational_at_most_k_witness :
  exists rows,
    SpatialAnalysis.findNearestInfrastructure Planar.twin_hospitals Planar.origin
      (Some "hospital") (Some (Fin 2)) = inr rows
    /\ map SpatialAnalysis.nr_id rows = [2%Z; 1%Z]
    /\ Forall (fun r => SpatialAnalysis.nr_operational_status r = Some true
                        /\ Some "hospital" = Some (SpatialAnalysis.nr_type r)) rows
    /\ (length rows <= 2)%nat.
Proof.
  eexists. split; [vm_compute; reflexivity|]. split; [reflexivity|].
  destruct (proj1 (C3_nearest_operational_at_most_k Planar.planar
                     Planar.twin_hospitals Planar.origin)
              (Some "hospital") (Some (Fin 2)) _ eq_refl) as (Hall & _ & Hlen).
  split; [exact Hall|].
  apply (Hlen 2%Z); [lia|reflexivity].
Defined.

(** ** Evacuation zones *)

Section ZoneFacts.

Context `{ZoneSpec.GeodesicBuffer}.

(** With a chord error of 1%, the buffer at radius [r1] lies inside the
    buffer of the same geometry at radius [r2] as soon as
    [r1 <= 0.99 r2]. *)
Lemma buffers_nested (g : Geometry) (r1 r2 : Q) :
  (0 <= r1)%Q -> (0 <= r2)%Q ->
  (r1 <= (1 - ZoneSpec.chordTolerance) * r2)%Q ->
  ZoneSpec.contained (ST_Buffer g r1) (ST_Buffer g r2).
Proof.
  intros H1 H2 H12 p Hp.
  apply ZoneSpec.buffer_reaches; [exact H2|].
  apply ZoneSpec.buffer_within_radius in Hp; [|exact H1].
  lra.
Qed.

Lemma zone_rows_buffers (db : Db) (disasterId : Z) (z : SpatialAnalysis.ZonesRow) :
  In z (SpatialAnalysis.zone_rows db disasterId) ->
  exists d, In d (disasters db) /\ d_id d = disasterId
            /\ forall r, ZoneSpec.zone z r = ST_Buffer (d_geometry d) (ZoneSpec.meters r).
Proof.
  unfold SpatialAnalysis.zone_rows. intros Hz.
  apply list_elem_of_In, list_elem_of_bind in Hz as (d & Hz & Hd).
  apply list_elem_of_In, List.filter_In in Hd as [Hd Hid].
  apply Z.eqb_eq in Hid.
  apply list_elem_of_In in Hz. destruct Hz as [<-|[]].
  exists d. repeat split; try assumption. intros []; reflexivity.
Qed.

Lemma createEvacuationZones_inv (db : Db) (disasterId : Z)
    (z : SpatialAnalysis.ZonesRow) :
  SpatialAnalysis.createEvacuationZones db disasterId = inr (Some z) ->
  In z (SpatialAnalysis.zone_rows db disasterId).
Proof.
  unfold SpatialAnalysis.createEvacuationZones, query.
  destruct (rejects db SelectEvacuationZones); [discriminate|].
  cbn [try_catch bind ret first_row].
  destruct (SpatialAnalysis.zone_rows db disasterId) as [|z0 rest]; cbn;
    [discriminate|].
  intros E. injection E as <-. now left.
Qed.

Lemma createEvacuationZones_found (db : Db) (d : Disaster) :
  rejects db SelectEvacuationZones = None ->
  In d (disasters db) ->
  exists z, SpatialAnalysis.createEvacuationZones db (d_id d) = inr (Some z).
Proof.
  intros Hq Hd.
  unfold SpatialAnalysis.createEvacuationZones, query, SpatialAnalysis.zone_rows.
  rewrite Hq. cbn [try_catch bind ret].
  assert (Hin : In d (List.filter (fun d' => Z.eqb (d_id d') (d_id d)) (disasters db))).
  { apply List.filter_In. split; [exact Hd|apply Z.eqb_refl]. }
  destruct (List.filter _ (disasters db)) as [|d0 rest]; [destruct Hin|].
  cbn. eauto.
Qed.

End ZoneFacts.

(** C6, with the buffer primitive modelled from the specification: the
    zones generated for a disaster are buffers of the one disaster
    geometry at 1000, 5000 and 10000 meters, so for every two of these
    radii [r1 < r2] the zone at [r1] is fully contained in the zone at
    [r2]; and zones are generated for every stored disaster whenever the
    database executes the statement. *)
Theorem C6_evacuation_zones_nested :
  forall (G : PostGIS) (B : ZoneSpec.GeodesicBuffer) (db : Db) (disasterId : Z),
    (forall (z : SpatialAnalysis.ZonesRow) (r1 r2 : ZoneSpec.Radius),
       SpatialAnalysis.createEvacuationZones db disasterId = inr (Some z) ->
       (ZoneSpec.meters r1 < ZoneSpec.meters r2)%Q ->
       ZoneSpec.contained (ZoneSpec.zone z r1) (ZoneSpec.zone z r2))
    /\ (forall d : Disaster,
          rejects db SelectEvacuationZones = None ->
          In d (disasters db) ->
          exists z, SpatialAnalysis.createEvacuationZones db (d_id d) = inr (Some z)).
Proof.
  intros G B db disasterId. split.
  - intros z r1 r2 Hz Hlt.
    apply createEvacuationZones_inv, zone_rows_buffers in Hz as (d & _ & _ & Hzone).
    rewrite !Hzone.
    apply buffers_nested; destruct r1, r2; unfold ZoneSpec.chordTolerance;
      cbn in *; lra.
  - intros d. apply createEvacuationZones_found.
Qed.

(** In the planar reference extension the 1 km zone of the disaster of
    [desert] lies inside its 10 km zone. *)
Lemma C6_evacuation_zones_nested_witness :
  exists z,
    SpatialAnalysis.createEvacuationZones Planar.desert 1 = inr (Some z)
    /\ ZoneSpec.contained (ZoneSpec.zone z ZoneSpec.R1km) (ZoneSpec.zone z ZoneSpec.R10km).
Proof.
  eexists. split; [vm_compute; reflexivity|].
  apply (proj1 (C6_evacuation_zones_nested Planar.planar Planar.planar_buffer
                  Planar.desert 1)).
  - vm_compute. reflexivity.
  - vm_compute. reflexivity.
Defined.

(** ** Hotspot clustering *)

Lemma same_place_iff (a b : Point) :
  co_located a b <-> (lng a == lng b /\ lat a == lat b)%Q.
Proof.
  unfold co_located, same_place. rewrite andb_true_iff, !Qeq_bool_iff. tauto.
Qed.

Lemma co_located_refl (a : Point) : co_located a a.
Proof. apply same_place_iff. split; reflexivity. Qed.

Lemma co_located_sym (a b : Point) : co_located a b -> co_located b a.
Proof. rewrite !same_place_iff. intros [-> ->]. split; reflexivity. Qed.

Lemma co_located_trans (a b c : Point) :
  co_located a b -> co_located b c -> co_located a c.
Proof. rewrite !same_place_iff. intros [-> ->] [-> ->]. split; reflexivity. Qed.

Lemma same_place_compat (a b c : Point) :
  co_located a b -> same_place c a = same_place c b.
Proof.
  intros Hab. destruct (same_place c b) eqn:E.
  - apply (co_located_trans c b a); [exact E|now apply co_located_sym].
  - destruct (same_place c a) eqn:E'; [|reflexivity].
    assert (co_located c b) by (eapply co_located_trans; eassumption).
    unfold co_located in *. congruence.
Qed.

Lemma square_nonneg (x : Q) : (0 <= x * x)%Q.
Proof. destruct (Qlt_le_dec x 0); nra. Qed.

Lemma square_pos (x : Q) : ~ (x == 0)%Q -> (0 < x * x)%Q.
Proof.
  intros Hx. destruct (Q_dec x 0) as [[Hlt|Hgt]|Heq]; [nra|nra|contradiction].
Qed.

Lemma knn_distance_sq_nonneg (p c : Point) : (0 <= knn_distance_sq p c)%Q.
Proof.
  unfold knn_distance_sq.
  pose proof (square_nonneg (lng p - lng c)).
  pose proof (square_nonneg (lat p - lat c)). lra.
Qed.

Lemma knn_distance_sq_zero (p c : Point) :
  co_located c p -> (knn_distance_sq p c == 0)%Q.
Proof.
  intros Hc. apply same_place_iff in Hc as [Hx Hy].
  unfold knn_distance_sq. rewrite Hx, Hy. ring.
Qed.

Lemma knn_distance_sq_pos (p c : Point) :
  same_place c p = false -> (0 < knn_distance_sq p c)%Q.
Proof.
  intros Hc. unfold knn_distance_sq.
  pose proof (square_nonneg (lng p - lng c)) as Hx0.
  pose proof (square_nonneg (lat p - lat c)) as Hy0.
  destruct (Qeq_dec (lng c) (lng p)) as [Hx|Hx].
  - destruct (Qeq_dec (lat c) (lat p)) as [Hy|Hy].
    + assert (co_located c p) by (apply same_place_iff; now split).
      unfold co_located in *. congruence.
    + assert (Hn : ~ (lat p - lat c == 0)%Q) by lra.
      apply square_pos in Hn. lra.
  - assert (Hn : ~ (lng p - lng c == 0)%Q) by lra.
    apply square_pos in Hn. lra.
Qed.

Section PlaceIndex.

Import ClusteringSpec.

Lemma place_index_spec (D : list Point) (p : Point) :
  Exists (fun d => co_located d p) D ->
  exists d, D !! place_index p D = Some d /\ co_located d p.
Proof.
  induction D as [|d D IH]; intros Hex; [inversion Hex|].
  simpl. destruct (same_place d p) eqn:E.
  - exists d. split; [reflexivity|exact E].
  - apply List.Exists_cons in Hex as [Hd|Hex]; [unfold co_located in Hd; congruence|].
    exact (IH Hex).
Qed.

Lemma place_index_compat (D : list Point) (p q : Point) :
  co_located p q -> place_index p D = place_index q D.
Proof.
  intros Hpq. induction D as [|d D IH]; simpl; [reflexivity|].
  rewrite (same_place_compat p q d Hpq), IH. reflexivity.
Qed.

Lemma place_index_same (D : list Point) (p q : Point) :
  Exists (fun d => co_located d p) D ->
  Exists (fun d => co_located d q) D ->
  place_index p D = place_index q D ->
  co_located p q.
Proof.
  intros Hp Hq E.
  destruct (place_index_spec D p Hp) as (d & Hd & Hdp).
  destruct (place_index_spec D q Hq) as (d' & Hd' & Hdq).
  rewrite E, Hd' in Hd. injection Hd as ->.
  eapply co_located_trans; [apply co_located_sym|]; eassumption.
Qed.

Lemma place_index_self (D : list Point) (j : nat) (d : Point) :
  pairwise_apart D -> D !! j = Some d -> place_index d D = j.
Proof.
  intros Hs. revert j. induction Hs as [|x D Hs IH Hall]; intros j Hj;
    [discriminate|].
  simpl. destruct j as [|j]; simpl in Hj.
  - injection Hj as ->. now rewrite (co_located_refl d).
  - assert (Hx : same_place x d = false).
    { rewrite List.Forall_forall in Hall. apply Hall.
      apply list_elem_of_In. eapply list_elem_of_lookup_2. exact Hj. }
    rewrite Hx. f_equal. now apply IH.
Qed.

Lemma distances_nonneg (p : Point) (C : list Point) (j : nat) :
  (0 <= nth j (map (knn_distance_sq p) C) 0)%Q.
Proof.
  revert j. induction C as [|c C IH]; intros [|j]; simpl; try lra.
  - apply knn_distance_sq_nonneg.
  - apply IH.
Qed.

(** Among centers lying on the places [D], the nearest center of a
    point that has a place in [D] is the one at that place. *)
Lemma nearest_center_place (C D : list Point) (p : Point) :
  Forall2 co_located C D ->
  Exists (fun d => co_located d p) D ->
  nearest_center C p = place_index p D
  /\ (nth (place_index p D) (map (knn_distance_sq p) C) 0 == 0)%Q.
Proof.
  induction 1 as [|c d C D Hcd HF IH]; intros Hex; [inversion Hex|].
  unfold nearest_center in *. simpl map. simpl place_index.
  destruct (same_place d p) eqn:E.
  - assert (Hz : (knn_distance_sq p c == 0)%Q).
    { apply knn_distance_sq_zero. eapply co_located_trans; eassumption. }
    split; [|exact Hz].
    simpl. destruct (map (knn_distance_sq p) C) as [|x rest] eqn:Em; [reflexivity|].
    rewrite <- Em.
    pose proof (distances_nonneg p C (argmin (map (knn_distance_sq p) C))) as Hn.
    assert (Hle : Qle_bool (knn_distance_sq p c)
                    (nth (argmin (map (knn_distance_sq p) C))
                         (map (knn_distance_sq p) C) 0%Q) = true)
      by (apply Qle_bool_iff; lra).
    now rewrite Hle.
  - apply List.Exists_cons in Hex as [Hd|Hex]; [unfold co_located in Hd; congruence|].
    destruct (IH Hex) as [Hidx Hzero].
    assert (Hpos : (0 < knn_distance_sq p c)%Q).
    { apply knn_distance_sq_pos.
      rewrite <- E. symmetry.
      destruct (same_place c p) eqn:Ec, (same_place d p) eqn:Ed; try reflexivity.
      - assert (co_located d p).
        { eapply co_located_trans; [apply co_located_sym; exact Hcd|exact Ec]. }
        unfold co_located in *. congruence.
      - assert (co_located c p) by (eapply co_located_trans; eassumption).
        unfold co_located in *. congruence. }
    simpl. destruct (map (knn_distance_sq p) C) as [|x rest] eqn:Em.
    { destruct C; [|discriminate Em]. inversion HF; subst. inversion Hex. }
    rewrite <- Em in Hidx, Hzero |- *. rewrite Hidx.
    assert (Hgt : Qle_bool (knn_distance_sq p c)
                    (nth (place_index p D) (map (knn_distance_sq p) C) 0%Q) = false).
    { destruct (Qle_bool _ _) eqn:Hb; [|reflexivity].
      apply Qle_bool_iff in Hb. lra. }
    rewrite Hgt. split; [reflexivity|exact Hzero].
Qed.

End PlaceIndex.

Section DistinctPlaces.

Import ClusteringSpec.

Lemma distinct_places_incl (P : list Point) (d : Point) :
  In d (distinct_places P) -> In d P.
Proof.
  induction P as [|p P IH]; simpl; [tauto|].
  intros [->|Hd]; [now left|].
  apply List.filter_In in Hd as [Hd _]. right. now apply IH.
Qed.

Lemma distinct_places_covers (P : list Point) (p : Point) :
  In p P -> Exists (fun d => co_located d p) (distinct_places P).
Proof.
  induction P as [|x P IH]; simpl; [tauto|].
  intros [->|Hp]; [apply List.Exists_cons_hd, co_located_refl|].
  destruct (same_place x p) eqn:Ex; [now apply List.Exists_cons_hd|].
  apply List.Exists_cons_tl.
  apply List.Exists_exists.
  apply IH, List.Exists_exists in Hp as (d & Hd & Hdp).
  exists d. split; [|exact Hdp].
  apply List.filter_In. split; [exact Hd|].
  rewrite (same_place_compat d p x Hdp), Ex. reflexivity.
Qed.

Lemma StronglySorted_filter {A} (R : A -> A -> Prop) (f : A -> bool) (l : list A) :
  StronglySorted R l -> StronglySorted R (List.filter f l).
Proof.
  induction 1 as [|x l Hs IH Hall]; simpl; [constructor|].
  destruct (f x); [|exact IH].
  constructor; [exact IH|].
  rewrite List.Forall_forall in *. intros y Hy.
  apply List.filter_In in Hy as [Hy _]. now apply Hall.
Qed.

Lemma distinct_places_apart (P : list Point) : pairwise_apart (distinct_places P).
Proof.
  unfold pairwise_apart.
  induction P as [|p P IH]; simpl; constructor.
  - now apply StronglySorted_filter.
  - apply List.Forall_forall. intros d Hd.
    apply List.filter_In in Hd as [_ Hd]. now apply negb_true_iff in Hd.
Qed.

Lemma distinct_places_map (project : Point -> Point) (P : list Point) :
  (forall a b, same_place (project a) (project b) = same_place a b) ->
  distinct_places (map project P) = map project (distinct_places P).
Proof.
  intros Hproj. induction P as [|p P IH]; simpl; [reflexivity|].
  f_equal. rewrite IH. clear IH.
  induction (distinct_places P) as [|d D IHD]; simpl; [reflexivity|].
  rewrite Hproj. destruct (same_place p d); simpl; now rewrite IHD.
Qed.

Lemma members_of_map (f : Point -> nat) (P : list Point) (j : nat) :
  members P (map f P) j = List.filter (fun p => Nat.eqb (f p) j) P.
Proof.
  unfold members. induction P as [|p P IH]; simpl; [reflexivity|].
  destruct (Nat.eqb (f p) j); simpl; now rewrite IH.
Qed.

Lemma sum_lng_co_located (d : Point) (ps : list Point) :
  Forall (co_located d) ps ->
  (sum_lng ps == inject_Z (Z.of_nat (length ps)) * lng d)%Q.
Proof.
  induction 1 as [|p ps Hp _ IH]; [simpl; ring|].
  apply same_place_iff in Hp as [Hx _].
  cbn [sum_lng fold_right length]. fold (sum_lng ps).
  rewrite Nat2Z.inj_succ, <- Z.add_1_r, inject_Z_plus, IH, Hx.
  change (inject_Z 1) with 1%Q. ring.
Qed.

Lemma sum_lat_co_located (d : Point) (ps : list Point) :
  Forall (co_located d) ps ->
  (sum_lat ps == inject_Z (Z.of_nat (length ps)) * lat d)%Q.
Proof.
  induction 1 as [|p ps Hp _ IH]; [simpl; ring|].
  apply same_place_iff in Hp as [_ Hy].
  cbn [sum_lat fold_right length]. fold (sum_lat ps).
  rewrite Nat2Z.inj_succ, <- Z.add_1_r, inject_Z_plus, IH, Hy.
  change (inject_Z 1) with 1%Q. ring.
Qed.

(** The mean of points that all lie at one place lies at that place. *)
Lemma mean_point_co_located (d : Point) (ps : list Point) :
  ps <> [] -> Forall (co_located d) ps ->
  exists m, mean_point ps = Some m /\ co_located m d.
Proof.
  intros Hne Hall. destruct ps as [|p ps]; [congruence|].
  eexists. split; [reflexivity|].
  apply same_place_iff. cbn [lng lat].
  rewrite (sum_lng_co_located d _ Hall), (sum_lat_co_located d _ Hall).
  assert (Hn : ~ (inject_Z (Z.of_nat (length (p :: ps))) == 0)%Q).
  { change 0%Q with (inject_Z 0). rewrite inject_Z_injective. simpl. lia. }
  split; field; exact Hn.
Qed.

End DistinctPlaces.

Section KMeansFacts.

Import ClusteringSpec.

Lemma Forall2_imap_l {A B} (R : A -> B -> Prop) (f : nat -> A -> A)
    (C : list A) (D : list B) :
  Forall2 R C D ->
  (forall j c d, D !! j = Some d -> R c d -> R (f j c) d) ->
  Forall2 R (imap f C) D.
Proof.
  intros HF. revert f. induction HF as [|c d C D Hcd HF IH]; intros f Hf; simpl.
  - constructor.
  - constructor; [now apply (Hf O)|].
    apply IH. intros j c' d' Hj. now apply (Hf (S j)).
Qed.

Variables (P D : list Point).
Hypothesis places_cover : forall p, In p P -> Exists (fun d => co_located d p) D.

Lemma assign_on_places (C : list Point) :
  Forall2 co_located C D ->
  assign C P = map (fun p => place_index p D) P.
Proof.
  intros HF. unfold assign. apply List.map_ext_in. intros p Hp.
  now apply nearest_center_place, places_cover.
Qed.

Lemma recenter_on_places (C : list Point) :
  Forall2 co_located C D ->
  Forall2 co_located (recenter P (map (fun p => place_index p D) P) C) D.
Proof.
  intros HF. unfold recenter. apply Forall2_imap_l; [exact HF|].
  intros j c d Hj Hcd. rewrite members_of_map.
  destruct (List.filter _ P) as [|m ms] eqn:Em; [exact Hcd|].
  destruct (mean_point_co_located d (m :: ms)) as (mean & -> & Hmean);
    [discriminate| |exact Hmean].
  rewrite <- Em. apply List.Forall_forall. intros p Hp.
  apply List.filter_In in Hp as [Hp Hidx]. apply Nat.eqb_eq in Hidx.
  destruct (place_index_spec D p (places_cover p Hp)) as (d' & Hd' & Hdp).
  rewrite Hidx, Hj in Hd'. now injection Hd' as <-.
Qed.

(** Once the centers lie on the places of the points, every round
    reproduces the same assignment. *)
Lemma iterate_on_places (fuel : nat) (C : list Point) :
  Forall2 co_located C D ->
  iterate fuel P C (assign C P) = map (fun p => place_index p D) P.
Proof.
  revert C. induction fuel as [|n IH]; intros C HF; simpl.
  - now apply assign_on_places.
  - rewrite (assign_on_places C HF).
    pose proof (recenter_on_places C HF) as HF'.
    destruct (decide _); [now apply assign_on_places|].
    now apply IH.
Qed.

End KMeansFacts.

Lemma Forall2_co_located_refl (D : list Point) : Forall2 co_located D D.
Proof. induction D; constructor; [apply co_located_refl|assumption]. Qed.

(** With at least as many clusters as distinct places, k-means assigns
    every point the index of its place. *)
Lemma kmeans_on_few_places (project : Point -> Point) (pts : list Point) (k : Z) :
  (0 < k)%Z ->
  (length (ClusteringSpec.distinct_places (map project pts)) <= Z.to_nat k)%nat ->
  ClusteringSpec.kmeans project pts k
  = ret (map (fun p => ClusteringSpec.place_index (project p)
                         (ClusteringSpec.distinct_places (map project pts))) pts).
Proof.
  intros Hk Hlen. unfold ClusteringSpec.kmeans.
  destruct (Z.leb_spec k 0); [lia|].
  rewrite take_ge by exact Hlen.
  rewrite (iterate_on_places (map project pts)
             (ClusteringSpec.distinct_places (map project pts))).
  - now rewrite List.map_map.
  - intros p Hp. now apply distinct_places_covers.
  - apply Forall2_co_located_refl.
Qed.

Section GroupFacts.

Variable project : Point -> Point.
Hypothesis project_places :
  forall a b, same_place (project a) (project b) = same_place a b.

Variable pts : list Point.

Let places : list Point := ClusteringSpec.distinct_places (map project pts).
Let index (p : Point) : nat := ClusteringSpec.place_index (project p) places.

Lemma projected_has_place (p : Point) :
  In p pts -> Exists (fun d => co_located d (project p)) places.
Proof. intros Hp. apply distinct_places_covers, List.in_map, Hp. Qed.

Lemma index_same_place (p q : Point) :
  In p pts -> In q pts -> Nat.eqb (index p) (index q) = same_place q p.
Proof.
  intros Hp Hq. destruct (same_place q p) eqn:E.
  - apply Nat.eqb_eq. unfold index. symmetry.
    apply place_index_compat. unfold co_located. now rewrite project_places.
  - apply Nat.eqb_neq. intros Heq.
    apply place_index_same in Heq; try now apply projected_has_place.
    apply co_located_sym in Heq. unfold co_located in Heq.
    rewrite project_places in Heq. congruence.
Qed.

Lemma index_bound (p : Point) : In p pts -> (index p < length places)%nat.
Proof.
  intros Hp.
  destruct (place_index_spec places (project p) (projected_has_place p Hp))
    as (d & Hd & _).
  eapply lookup_lt_Some. exact Hd.
Qed.

Lemma index_onto (j : nat) :
  (j < length places)%nat -> exists q, In q pts /\ index q = j.
Proof.
  intros Hj. apply lookup_lt_is_Some in Hj as [d Hd].
  assert (Hin : In d (map project pts)).
  { apply distinct_places_incl, list_elem_of_In.
    eapply list_elem_of_lookup_2. exact Hd. }
  apply List.in_map_iff in Hin as (q & <- & Hq).
  exists q. split; [exact Hq|].
  apply place_index_self; [apply distinct_places_apart|exact Hd].
Qed.

(** The cluster numbers that occur are exactly the indices of the
    places. *)
Lemma cluster_numbers_count :
  length (remove_dups (map index pts)) = length places.
Proof.
  transitivity (length (seq 0 (length places))); [|apply length_seq].
  apply Permutation_length, NoDup_Permutation.
  - apply NoDup_remove_dups.
  - apply NoDup_seq.
  - intros j. rewrite elem_of_remove_dups, elem_of_seq, list_elem_of_fmap.
    split.
    + intros (p & -> & Hp). apply list_elem_of_In in Hp.
      pose proof (index_bound p Hp). lia.
    + intros [_ Hj]. destruct (index_onto j) as (q & Hq & <-); [lia|].
      exists q. split; [reflexivity|now apply list_elem_of_In].
Qed.

Lemma cluster_members_index (c : nat) :
  SpatialAnalysis.cluster_members (zip pts (map index pts)) c
  = List.filter (fun p => Nat.eqb (index p) c) pts.
Proof. apply (members_of_map index pts c). Qed.

(** Grouping by cluster number gives one row per place; the members of a
    row are the points at one place. *)
Lemma group_clusters_singletons :
  let rows := SpatialAnalysis.group_clusters (zip pts (map index pts)) in
  length rows = length places
  /\ Forall (fun row =>
               exists q,
                 In q pts
                 /\ SpatialAnalysis.disaster_count row
                    = bigint_text (Z.of_nat (length (List.filter (same_place q) pts)))
                 /\ exists m, SpatialAnalysis.cluster_center row = Some m
                              /\ co_located m q)
            rows.
Proof.
  cbv zeta. unfold SpatialAnalysis.group_clusters.
  rewrite snd_zip by (rewrite length_map; lia).
  split.
  - rewrite length_map, order_by_length. apply cluster_numbers_count.
  - apply Forall_map. rewrite order_by_perm.
    apply List.Forall_forall. intros c Hc.
    apply list_elem_of_In, elem_of_remove_dups, list_elem_of_fmap in Hc
      as (q & -> & Hq).
    apply list_elem_of_In in Hq.
    cbn [SpatialAnalysis.disaster_count SpatialAnalysis.cluster_center].
    rewrite cluster_members_index.
    assert (Hfilter : List.filter (fun p => Nat.eqb (index p) (index q)) pts
                      = List.filter (same_place q) pts).
    { apply List.filter_ext_in. intros p Hp. now apply index_same_place. }
    rewrite Hfilter. exists q. split; [exact Hq|]. split; [reflexivity|].
    apply mean_point_co_located.
    + intros Hnil.
      assert (Hin : In q (List.filter (same_place q) pts)).
      { apply List.filter_In. split; [exact Hq|apply co_located_refl]. }
      rewrite Hnil in Hin. destruct Hin.
    + apply List.Forall_forall. intros p Hp.
      now apply List.filter_In in Hp as [_ Hp].
Qed.

End GroupFacts.

Lemma parse_disaster_type_of_label (t : disaster_type) :
  SpatialAnalysis.parse_disaster_type (disaster_type_label t) = Some t.
Proof. destruct t; reflexivity. Qed.



(** * Further properties of the services and controllers *)

(** ** Economic loss: sign and monotonicity *)

Lemma of_Z_le (a b : Z) : (a <= b)%Z -> le (of_Z a) (of_Z b).
Proof. intros Hab. unfold le, of_Z. now rewrite <- Zle_Qle. Qed.

(** The estimate for given per-person losses of two severities. *)
Lemma estimateLoss_le (type sev sev' : option string) (p p' : Q) (area : option Q)
    (b b' : Q) :
  inherited (property_key type) = false ->
  perPersonLoss sev = ANumber (Fin b) -> perPersonLoss sev' = ANumber (Fin b') ->
  (0 <= p <= p')%Q -> (0 < b <= b')%Q ->
  le (estimateLoss type sev (Fin p) (Fin <$> area))
     (estimateLoss type sev' (Fin p') (Fin <$> area)).
Proof.
  intros Htype Hb Hb' Hp Hbb.
  destruct (typeMultiplier_positive type Htype) as (m & Hm & Hmpos).
  destruct (estimateLoss_finite type sev p area b m Hb Hm) as (x & Hx & ->).
  destruct (estimateLoss_finite type sev' p' area b' m Hb' Hm) as (x' & Hx' & ->).
  apply of_Z_le, Qfloor_resp_le. rewrite Hx, Hx'.
  assert (H1 : (p * b <= p' * b')%Q) by nra.
  assert (H2 : (p * b * m <= p' * b' * m)%Q) by nra.
  lra.
Qed.

Lemma inherited_is_no_severity (sev : option string) :
  inherited (property_key sev) = true -> perPersonLoss sev = AnObject.
Proof.
  intros Hin. destruct (severity_cases sev) as [[s ->]|Hother].
  - destruct s; discriminate Hin.
  - now rewrite (perPersonLoss_unrecognized sev Hother), Hin.
Qed.

(** For a category whose name no object inherits: with a severity of
    that kind the estimated loss is never negative for a non-negative
    population and area, and it does not decrease when the affected
    population grows; the estimate of a severity outside the table, or
    of an absent one, lies between those of minor and moderate; the
    estimates rise along moderate, severe, extreme; and a severity
    whose name every object inherits, such as "constructor", makes the
    estimate NaN. *)
Theorem estimateLoss_sign_and_order :
  forall (type sev : option string) (p p' : Q) (area : option Q),
    inherited (property_key type) = false ->
    (0 <= p <= p')%Q -> (0 <= default 0 area)%Q ->
    (inherited (property_key sev) = false ->
       le (Fin 0) (estimateLoss type sev (Fin p) (Fin <$> area))
       /\ le (estimateLoss type sev (Fin p) (Fin <$> area))
             (estimateLoss type sev (Fin p') (Fin <$> area)))
    /\ (inherited (property_key sev) = false ->
        (forall s, sev <> Some (severity_label s)) ->
        le (estimateLoss type (Some "minor") (Fin p) (Fin <$> area))
           (estimateLoss type sev (Fin p) (Fin <$> area))
        /\ le (estimateLoss type sev (Fin p) (Fin <$> area))
              (estimateLoss type (Some "moderate") (Fin p) (Fin <$> area)))
    /\ le (estimateLoss type (Some "moderate") (Fin p) (Fin <$> area))
          (estimateLoss type (Some "severe") (Fin p) (Fin <$> area))
    /\ le (estimateLoss type (Some "severe") (Fin p) (Fin <$> area))
          (estimateLoss type (Some "extreme") (Fin p) (Fin <$> area))
    /\ (inherited (property_key sev) = true ->
        estimateLoss type sev (Fin p) (Fin <$> area) = NaN).
Proof.
  intros type sev p p' area Htype Hp Harea.
  split; [|split; [|split; [|split]]].
  - intros Hsev.
    destruct (perPersonLoss_positive sev Hsev) as (b & Hb & Hbpos).
    split.
    + destruct (typeMultiplier_positive type Htype) as (m & Hm & Hmpos).
      destruct (estimateLoss_finite type sev p area b m Hb Hm) as (x & Hx & ->).
      change (Fin 0) with (of_Z 0). apply of_Z_le.
      rewrite <- (Qfloor_Z 0). apply Qfloor_resp_le. rewrite Hx.
      assert (0 <= p * b)%Q by nra. assert (0 <= p * b * m)%Q by nra.
      change (inject_Z 0) with 0%Q. lra.
    + eapply estimateLoss_le; eauto. lra.
  - intros Hsev Hother.
    pose proof (perPersonLoss_unrecognized sev Hother) as Hdefault.
    rewrite Hsev in Hdefault.
    split;
      (eapply estimateLoss_le;
       [exact Htype|first [exact Hdefault|vm_compute; reflexivity]
       |first [exact Hdefault|vm_compute; reflexivity]|lra
       |split; reflexivity || discriminate]).
  - eapply estimateLoss_le;
      [exact Htype|vm_compute; reflexivity|vm_compute; reflexivity|lra
      |split; reflexivity || discriminate].
  - eapply estimateLoss_le;
      [exact Htype|vm_compute; reflexivity|vm_compute; reflexivity|lra
      |split; reflexivity || discriminate].
  - intros Hsev. apply estimateLoss_inherited. left.
    now apply inherited_is_no_severity.
Qed.

(** The order of estimates for 1000 and 2500 people in a flood over 3
    square kilometers. *)
Lemma estimateLoss_sign_and_order_witness :
  le (estimateLoss (Some "flood") (Some "severe") (Fin 1000) (Some (Fin 3)))
     (estimateLoss (Some "flood") (Some "severe") (Fin 2500) (Some (Fin 3))).
Proof.
  destruct (estimateLoss_sign_and_order (Some "flood") (Some "severe") 1000 2500
              (Some 3%Q)) as (Hsign & _).
  - reflexivity.
  - split; vm_compute; discriminate.
  - vm_compute; discriminate.
  - apply Hsign. reflexivity.
Defined.

(** ** Vulnerability score of a consistent census block *)

Lemma percentage_positive_population (x p : Q) :
  (0 < p)%Q -> percentage (Fin x) (Fin p) = Fin (x / p * 100).
Proof.
  intros Hp. unfold percentage, div.
  destruct (Qeq_bool p 0) eqn:E; [|reflexivity].
  apply Qeq_bool_iff in E. lra.
Qed.

Lemma share_bounds (x p : Q) :
  (0 < p)%Q -> (0 <= x <= p)%Q -> (0 <= x / p * 100 <= 100)%Q.
Proof.
  intros Hp [H0 H1].
  assert (Hlo : (0 <= x / p)%Q) by (apply Qle_shift_div_l; [exact Hp|lra]).
  assert (Hhi : (x / p <= 1)%Q) by (apply Qle_shift_div_r; [exact Hp|lra]).
  lra.
Qed.

(** For a block with a positive population and four group counts
    between 0 and that population, the score is a whole number between 0
    and 100 that lies within one half of the weighted sum of the four
    percentages, up to the rounding error of the arithmetic (taken here
    as at most 10^-9); the clamp to 100 is not needed. *)
Theorem vulnerabilityScore_of_consistent_block :
  forall e c d l p : Q,
    (0 < p)%Q ->
    (0 <= e <= p)%Q -> (0 <= c <= p)%Q -> (0 <= d <= p)%Q -> (0 <= l <= p)%Q ->
    exists z : Z,
      calculateVulnerabilityScore
        (mkDemographics (Some (Fin e)) (Some (Fin c)) (Some (Fin d)) (Some (Fin l))
           (Some (Fin p))) = of_Z z
      /\ (0 <= z <= 100)%Z
      /\ (Qabs (e / p * 100 * 0.3 + c / p * 100 * 0.2 + d / p * 100 * 0.3
                + l / p * 100 * 0.2 - inject_Z z)
          <= (1 # 2) + 1 / 10 ^ 9)%Q.
Proof.
  intros e c d l p Hp He Hc Hd Hl.
  unfold calculateVulnerabilityScore. cbn [with_default elderly_population
    children_population disabled_population low_income_population population].
  rewrite !percentage_positive_population by exact Hp.
  rewrite scoreOfPercentages_finite.
  pose proof (share_bounds e p Hp He). pose proof (share_bounds c p Hp Hc).
  pose proof (share_bounds d p Hp Hd). pose proof (share_bounds l p Hp Hl).
  set (x := (e / p * 100 * 0.3 + c / p * 100 * 0.2 + d / p * 100 * 0.3
             + l / p * 100 * 0.2)%Q) in *.
  set (w := (x + (1 # 2))%Q).
  assert (Hlo : (0 <= Qfloor w)%Z).
  { rewrite <- (Qfloor_Z 0). apply Qfloor_resp_le.
    change (inject_Z 0) with 0%Q. subst w x. lra. }
  assert (Hhi : (Qfloor w <= 100)%Z).
  { rewrite <- (Qfloor_Z 100).
    assert (Hw : (w < inject_Z 101)%Q)
      by (change (inject_Z 101) with 101%Q; subst w x; lra).
    pose proof (Qfloor_le w) as Hf.
    assert (Hz : (inject_Z (Qfloor w) < inject_Z 101)%Q) by lra.
    rewrite <- Zlt_Qlt in Hz. rewrite Qfloor_Z. lia. }
  exists (Qfloor w). split; [|split; [lia|]].
  - now rewrite Z.min_r by lia.
  - eapply Qle_trans; [apply round_within_half|].
    apply (slack_nonneg 1). discriminate.
Qed.

(** A block of 400 inhabitants with 100 elderly, 80 children, 40
    disabled and 120 low-income residents. *)
Lemma vulnerabilityScore_of_consistent_block_witness :
  exists z : Z,
    calculateVulnerabilityScore
      (mkDemographics (Some (Fin 100)) (Some (Fin 80)) (Some (Fin 40)) (Some (Fin 120))
         (Some (Fin 400))) = of_Z z
    /\ (0 <= z <= 100)%Z.
Proof.
  destruct (vulnerabilityScore_of_consistent_block 100 80 40 120 400)
    as (z & Hz & Hrange & _).
  - reflexivity.
  - split; vm_compute; discriminate.
  - split; vm_compute; discriminate.
  - split; vm_compute; discriminate.
  - split; vm_compute; discriminate.
  - exists z. split; assumption.
Defined.

(** ** Storing an assessment *)

Section StoreFacts.

Context `{PostGIS}.

Lemma Qred_whole (k : Z) : Qred (inject_Z k) = inject_Z k.
Proof.
  unfold Qred, inject_Z.
  pose proof (Z.ggcd_gcd k 1) as Hg. pose proof (Z.ggcd_correct_divisors k 1) as Hd.
  destruct (Z.ggcd k 1) as [g [r1 r2]]. cbn [fst snd] in *.
  rewrite Z.gcd_1_r in Hg. subst g. destruct Hd as [H1 H2].
  rewrite Z.mul_1_l in H1, H2. subst r1 r2. reflexivity.
Qed.

(** A whole number of less than p - s digits is stored in a
    [DECIMAL(p, s)] column as it is. *)
Lemma decimal_column_whole (p s z : Z) (v : num) :
  (0 <= s)%Z -> decimal_column p s (of_Z z) = inr v -> v = of_Z z.
Proof.
  intros Hs. unfold decimal_column, of_Z.
  assert (Hpos : (0 < 10 ^ s)%Z) by (apply Z.pow_pos_nonneg; lia).
  assert (Hscaled : (inject_Z z * inject_Z (10 ^ s) == inject_Z (z * 10 ^ s))%Q)
    by (now rewrite inject_Z_mult).
  assert (Hunits :
    (if Qle_bool 0 (inject_Z z * inject_Z (10 ^ s))
     then Qfloor (inject_Z z * inject_Z (10 ^ s) + (1 # 2))
     else Qceiling (inject_Z z * inject_Z (10 ^ s) - (1 # 2))) = (z * 10 ^ s)%Z).
  { destruct (Qle_bool 0 _).
    - rewrite Hscaled.
      pose proof (Qfloor_le (inject_Z (z * 10 ^ s) + (1 # 2))) as Hlo.
      pose proof (Qlt_floor (inject_Z (z * 10 ^ s) + (1 # 2))) as Hhi.
      set (f := Qfloor _) in *.
      assert (H1 : (inject_Z f < inject_Z (z * 10 ^ s + 1))%Q)
        by (rewrite inject_Z_plus; change (inject_Z 1) with 1%Q; lra).
      assert (H2 : (inject_Z (z * 10 ^ s) < inject_Z (f + 1))%Q) by lra.
      rewrite <- Zlt_Qlt in H1, H2. lia.
    - rewrite Hscaled.
      pose proof (Qle_ceiling (inject_Z (z * 10 ^ s) - (1 # 2))) as Hlo.
      pose proof (Qceiling_lt (inject_Z (z * 10 ^ s) - (1 # 2))) as Hhi.
      set (f := Qceiling _) in *.
      replace (f - 1)%Z with (f + -1)%Z in Hhi by lia.
      rewrite inject_Z_plus in Hhi. change (inject_Z (-1)) with (-1 # 1)%Q in Hhi.
      assert (H1 : (inject_Z (z * 10 ^ s + -1) < inject_Z f)%Q)
        by (rewrite inject_Z_plus; change (inject_Z (-1)) with (-1 # 1)%Q; lra).
      assert (H2 : (inject_Z f < inject_Z (z * 10 ^ s + 1))%Q)
        by (rewrite inject_Z_plus; change (inject_Z 1) with 1%Q; lra).
      rewrite <- Zlt_Qlt in H1, H2. lia. }
  rewrite Hunits.
  destruct (Z.abs (z * 10 ^ s) <? 10 ^ p)%Z; [|discriminate].
  intros [= <-]. f_equal. rewrite <- (Qred_whole z). apply Qred_complete.
  unfold Qeq, inject_Z. cbn [Qnum Qden]. rewrite Z2Pos.id by exact Hpos. lia.
Qed.

Lemma decimal_column_rounded (p s : Z) (x v : num) :
  (0 <= s)%Z -> decimal_column p s (Math_round x) = inr v -> v = Math_round x.
Proof.
  intros Hs. destruct x as [q| | |]; cbn [Math_round].
  - now apply decimal_column_whole.
  - discriminate.
  - discriminate.
  - now intros [= <-].
Qed.

(** The loss estimate is a rounded number, or the 0 of the fallback. *)
Lemma estimateEconomicLoss_rounded (db : Db) (disasterId : Z) (pop loss : num) :
  ImpactCalculation.estimateEconomicLoss db disasterId pop = inr loss ->
  exists x, loss = Math_round x.
Proof.
  unfold ImpactCalculation.estimateEconomicLoss, query.
  destruct (rejects db SelectDisasterDetails);
    cbn [try_catch bind ret throw]; [intros [= <-]; now exists (Fin 0)|].
  destruct (ImpactCalculation.disaster_details db disasterId);
    cbn [try_catch bind ret throw]; intros [= <-]; [now exists (Fin 0)|].
  unfold estimateLoss. eauto.
Qed.

Lemma integer_column_inv (n : num) (r : result num) :
  ImpactCalculation.integer_column n = r ->
  match r with
  | inl e => column_error e
  | inr v => v = n /\ exists z, int4_of_number n = inr z
  end.
Proof.
  unfold ImpactCalculation.integer_column, int4_of_number, column_error.
  destruct (integer_digits n) as [z|]; cbn [bind ret throw];
    [|intros <-; cbn [ret throw]; auto].
  destruct ((-2147483648 <=? z) && (z <=? 2147483647))%Z;
    cbn [bind ret throw]; intros <-; cbn [ret throw]; eauto.
Qed.

Lemma decimal_column_inv (p s : Z) (n : num) (e : Error) :
  decimal_column p s n = inl e -> column_error e.
Proof.
  unfold decimal_column, column_error. destruct n as [q| | |]; try discriminate.
  - destruct (Z.abs _ <? 10 ^ p)%Z; [discriminate|]. intros [= <-]. auto.
  - intros [= <-]. auto.
  - intros [= <-]. auto.
Qed.

Lemma polygon_column_inv (g : Geometry) (r : result Geometry) :
  polygon_column g = r ->
  match r with
  | inl e => column_error e
  | inr v => v = g /\ exists rings, g = GPolygon rings
  end.
Proof.
  unfold polygon_column, column_error.
  destruct g; intros <-; cbn [ret throw]; eauto 6.
Qed.

(** The row built for the statement: the figures as they were given,
    the loss and the area as the columns round them, the zones when
    they are polygons; otherwise one of the conversion errors. *)
Lemma assessment_row_inv (db : Db) (a : ImpactCalculation.Assessment)
    (zones : SpatialAnalysis.ZonesRow) (r : result ImpactAssessment) :
  ImpactCalculation.assessment_row db a zones = r ->
  match r with
  | inl e => column_error e
  | inr row =>
      ia_id row = next_assessment_id db
      /\ ia_disaster_id row = ImpactCalculation.disaster_id a
      /\ ia_affected_population row = ImpactCalculation.affected_population a
      /\ decimal_column 15 2 (ImpactCalculation.estimated_economic_loss a)
         = inr (ia_estimated_economic_loss row)
      /\ ia_evacuation_zone_10km row = SpatialAnalysis.zone_10km zones
  end.
Proof.
  unfold ImpactCalculation.assessment_row.
  repeat
    match goal with
    | |- context [ImpactCalculation.integer_column ?n] =>
        let Hc := fresh "Hc" in
        pose proof (integer_column_inv n _ eq_refl) as Hc;
        destruct (ImpactCalculation.integer_column n) as [?e|?v];
        cbn [bind ret throw]; [now intros <-|destruct Hc as [-> _]]
    end.
  destruct (decimal_column 15 2 _) as [e|loss] eqn:Hloss; cbn [bind ret throw];
    [intros <-; now apply decimal_column_inv in Hloss|].
  destruct (decimal_column 10 2 _) as [e|area] eqn:Harea; cbn [bind ret throw];
    [intros <-; now apply decimal_column_inv in Harea|].
  repeat
    match goal with
    | |- context [polygon_column ?g] =>
        let Hc := fresh "Hc" in
        pose proof (polygon_column_inv g _ eq_refl) as Hc;
        destruct (polygon_column g) as [?e|?v];
        cbn [bind ret throw]; [now intros <-|destruct Hc as [-> _]]
    end.
  intros <-. cbn. repeat split.
Qed.

Lemma insert_assessment_effect (db db' : Db) (a : ImpactCalculation.Assessment)
    (zones : SpatialAnalysis.ZonesRow) (id : Z) (time : Timestamp) :
  ImpactCalculation.insert_assessment db a zones = (inr (id, time), db') ->
  id = next_assessment_id db /\ time = now db
  /\ In (ImpactCalculation.disaster_id a) (map d_id (disasters db))
  /\ disasters db' = disasters db /\ infrastructure db' = infrastructure db
  /\ census_blocks db' = census_blocks db
  /\ next_assessment_id db' = (next_assessment_id db + 1)%Z
  /\ exists row,
       impact_assessments db' = impact_assessments db ++ [row]
       /\ ia_id row = id
       /\ ia_disaster_id row = ImpactCalculation.disaster_id a
       /\ ia_affected_population row = ImpactCalculation.affected_population a
       /\ decimal_column 15 2 (ImpactCalculation.estimated_economic_loss a)
          = inr (ia_estimated_economic_loss row)
       /\ ia_evacuation_zone_10km row = SpatialAnalysis.zone_10km zones.
Proof.
  unfold ImpactCalculation.insert_assessment.
  destruct (rejects db InsertImpactAssessment); [discriminate|].
  pose proof (assessment_row_inv db a zones _ eq_refl) as Hrow.
  destruct (ImpactCalculation.assessment_row db a zones) as [e|row]; [discriminate|].
  destruct (existsb _ (disasters db)) eqn:Hex; [|discriminate].
  intros [= <- <- <-]. cbn.
  apply existsb_exists in Hex as (d & Hd & Hid). apply Z.eqb_eq in Hid.
  destruct Hrow as (Hi & Hdi & Hp & Hl & Hz).
  repeat split; try reflexivity.
  - rewrite <- Hid. now apply List.in_map.
  - exists row. repeat split; assumption.
Qed.

(** When the statement is executed for a stored disaster, it stores the
    row or fails on a conversion. *)
Lemma insert_assessment_cases (db : Db) (a : ImpactCalculation.Assessment)
    (zones : SpatialAnalysis.ZonesRow) :
  rejects db InsertImpactAssessment = None ->
  In (ImpactCalculation.disaster_id a) (map d_id (disasters db)) ->
  (exists id time db',
     ImpactCalculation.insert_assessment db a zones = (inr (id, time), db'))
  \/ (exists e,
        ImpactCalculation.insert_assessment db a zones = (inl e, db)
        /\ column_error e).
Proof.
  intros Hq Hin. unfold ImpactCalculation.insert_assessment. rewrite Hq.
  pose proof (assessment_row_inv db a zones _ eq_refl) as Hrow.
  destruct (ImpactCalculation.assessment_row db a zones) as [e|row].
  - right. exists e. split; [reflexivity|exact Hrow].
  - left. apply in_map_iff in Hin as (d & Hid & Hd).
    assert (Hex : existsb (fun d' => Z.eqb (d_id d') (ImpactCalculation.disaster_id a))
                    (disasters db) = true).
    { apply existsb_exists. exists d. split; [exact Hd|now apply Z.eqb_eq]. }
    rewrite Hex. eauto.
Qed.

(** What a call of [calculateFullImpact] does to the database. *)
Lemma calculateFullImpact_effect (db db' : Db) (disasterId : Z)
    (r : result ImpactCalculation.FullImpact) :
  ImpactCalculation.calculateFullImpact db disasterId = (r, db') ->
  match r with
  | inl _ => db' = db
  | inr full =>
      ImpactCalculation.assessment_id full = next_assessment_id db
      /\ ImpactCalculation.disaster_id (ImpactCalculation.assessment full) = disasterId
      /\ In disasterId (map d_id (disasters db))
      /\ disasters db' = disasters db /\ infrastructure db' = infrastructure db
      /\ census_blocks db' = census_blocks db
      /\ next_assessment_id db' = (next_assessment_id db + 1)%Z
      /\ exists row,
           impact_assessments db' = impact_assessments db ++ [row]
           /\ ia_id row = ImpactCalculation.assessment_id full
           /\ ia_disaster_id row = disasterId
           /\ ia_affected_population row
              = ImpactCalculation.affected_population (ImpactCalculation.assessment full)
           /\ ia_estimated_economic_loss row
              = ImpactCalculation.estimated_economic_loss
                  (ImpactCalculation.assessment full)
  end.
Proof.
  destruct r as [e|full].
  - apply calculateFullImpact_failure_stores_nothing.
  - unfold ImpactCalculation.calculateFullImpact.
    destruct (SpatialAnalysis.getDisasterImpactSummary db disasterId)
      as [e1|summary]; [discriminate|].
    destruct (ImpactCalculation.estimateEconomicLoss db disasterId _)
      as [e2|loss] eqn:Hest; [discriminate|].
    apply estimateEconomicLoss_rounded in Hest as [x ->].
    destruct (SpatialAnalysis.evacuation_zones summary) as [zones|]; [|discriminate].
    destruct (ImpactCalculation.insert_assessment db _ zones) as [[e3|[id time]] db'']
      eqn:Hins; [discriminate|].
    intros [= <- <-].
    apply insert_assessment_effect in Hins
      as (-> & _ & Hin & Hd & Hi & Hc & Hn & row & Hrows & Hid & Hdid & Hpop & Hloss & _).
    cbn in *. apply decimal_column_rounded in Hloss; [|lia].
    repeat split; try assumption.
    exists row. repeat split; assumption.
Qed.

Lemma no_disaster_row (db : Db) (disasterId : Z) :
  ~ In disasterId (map d_id (disasters db)) ->
  List.filter (fun d => Z.eqb (d_id d) disasterId) (disasters db) = [].
Proof.
  intros Hno. induction (disasters db) as [|d ds IH]; [reflexivity|].
  simpl in *. destruct (Z.eqb_spec (d_id d) disasterId); [tauto|].
  apply IH. tauto.
Qed.

Lemma stored_disaster_row (db : Db) (d : Disaster) :
  In d (disasters db) ->
  exists d0 rest,
    List.filter (fun d' => Z.eqb (d_id d') (d_id d)) (disasters db) = d0 :: rest.
Proof.
  intros Hd.
  assert (Hin : In d (List.filter (fun d' => Z.eqb (d_id d') (d_id d)) (disasters db))).
  { apply List.filter_In. split; [exact Hd|apply Z.eqb_refl]. }
  destruct (List.filter _ (disasters db)) as [|d0 rest]; [destruct Hin|eauto].
Qed.

(** The summary of an id that is not stored: nothing is affected and
    there are no zones. *)
Lemma getDisasterImpactSummary_unknown (db : Db) (disasterId : Z) :
  ~ In disasterId (map d_id (disasters db)) ->
  rejects db SelectAffectedPopulation = None ->
  rejects db SelectAffectedInfrastructure = None ->
  rejects db SelectEvacuationZones = None ->
  SpatialAnalysis.getDisasterImpactSummary db disasterId
  = inr {| SpatialAnalysis.population :=
             SpatialAnalysis.mkPopulationSummary (Fin 0) (Fin 0) (Fin 0) (Fin 0)
               (Fin 0) (Fin 0);
           SpatialAnalysis.infrastructure_summary :=
             SpatialAnalysis.mkInfrastructureSummary (of_Z 0) ∅ [];
           SpatialAnalysis.evacuation_zones := None;
           SpatialAnalysis.generated_at := now db |}.
Proof.
  intros Hno Hp Hi Hz.
  pose proof (no_disaster_row db disasterId Hno) as Hrows.
  unfold SpatialAnalysis.getDisasterImpactSummary,
    SpatialAnalysis.calculateAffectedPopulation,
    SpatialAnalysis.findAffectedInfrastructure,
    SpatialAnalysis.createEvacuationZones, query,
    SpatialAnalysis.population_rows, SpatialAnalysis.affected_blocks,
    SpatialAnalysis.infrastructure_rows, SpatialAnalysis.zone_rows.
  rewrite Hp, Hi, Hz, Hrows. reflexivity.
Qed.

(** The buffer of 10 km is a whole number the statement accepts. *)
Lemma findAffectedInfrastructure_10 (db : Db) (disasterId : Z) :
  rejects db SelectAffectedInfrastructure = None ->
  SpatialAnalysis.findAffectedInfrastructure db disasterId (Some 10%Q)
  = inr (SpatialAnalysis.infrastructure_rows db disasterId 10%Q).
Proof.
  intros Hq. unfold SpatialAnalysis.findAffectedInfrastructure, query.
  rewrite Hq. reflexivity.
Qed.

(** The summary of a stored disaster has its zones. *)
Lemma getDisasterImpactSummary_of_stored (db : Db) (d : Disaster) :
  In d (disasters db) ->
  (forall st, rejects db st = None) ->
  exists summary zones,
    SpatialAnalysis.getDisasterImpactSummary db (d_id d) = inr summary
    /\ SpatialAnalysis.evacuation_zones summary = Some zones.
Proof.
  intros Hd Hq.
  destruct (stored_disaster_row db d Hd) as (d0 & rest & Hrows).
  unfold SpatialAnalysis.getDisasterImpactSummary.
  rewrite findAffectedInfrastructure_10 by apply Hq.
  unfold SpatialAnalysis.calculateAffectedPopulation,
    SpatialAnalysis.createEvacuationZones, query,
    SpatialAnalysis.population_rows, SpatialAnalysis.zone_rows.
  rewrite !Hq, Hrows. cbn [try_catch bind ret first_row head mbind].
  cbn. eauto.
Qed.

(** For a stored disaster and a database that rejects nothing, the
    assessment is stored unless a value does not fit its column. *)
Lemma calculateFullImpact_of_stored (db : Db) (d : Disaster) :
  In d (disasters db) ->
  (forall st, rejects db st = None) ->
  (exists full db',
     ImpactCalculation.calculateFullImpact db (d_id d) = (inr full, db'))
  \/ (exists e,
        ImpactCalculation.calculateFullImpact db (d_id d) = (inl e, db)
        /\ column_error e).
Proof.
  intros Hd Hq.
  destruct (getDisasterImpactSummary_of_stored db d Hd Hq)
    as (summary & zones & Hsum & Hzones).
  unfold ImpactCalculation.calculateFullImpact. rewrite Hsum.
  destruct (estimateEconomicLoss_never_throws db (d_id d)
              (SpatialAnalysis.ps_total (SpatialAnalysis.population summary)))
    as [loss Hloss].
  rewrite Hloss, Hzones.
  match goal with
  | |- context [ImpactCalculation.insert_assessment db ?a zones] =>
      destruct (insert_assessment_cases db a zones (Hq _))
        as [(id & time & db' & ->)|(e & -> & He)]
  end.
  - cbn. now apply List.in_map.
  - left. eauto.
  - right. eauto.
Qed.

End StoreFacts.

(** A call of [calculateFullImpact] that throws leaves the database as
    it was; a call that returns has appended exactly one assessment row,
    numbered with the next serial number and carrying the returned
    figures, has advanced the serial number by one and has left the
    other tables alone; it returns only for a stored disaster. *)
Theorem calculateFullImpact_appends_one_row :
  forall (G : PostGIS) (db db' : Db) (disasterId : Z)
         (r : result ImpactCalculation.FullImpact),
    ImpactCalculation.calculateFullImpact db disasterId = (r, db') ->
    match r with
    | inl _ => db' = db
    | inr full =>
        ImpactCalculation.assessment_id full = next_assessment_id db
        /\ ImpactCalculation.disaster_id (ImpactCalculation.assessment full) = disasterId
        /\ In disasterId (map d_id (disasters db))
        /\ disasters db' = disasters db /\ infrastructure db' = infrastructure db
        /\ census_blocks db' = census_blocks db
        /\ next_assessment_id db' = (next_assessment_id db + 1)%Z
        /\ exists row,
             impact_assessments db' = impact_assessments db ++ [row]
             /\ ia_id row = ImpactCalculation.assessment_id full
             /\ ia_disaster_id row = disasterId
             /\ ia_affected_population row
                = ImpactCalculation.affected_population
                    (ImpactCalculation.assessment full)
             /\ ia_estimated_economic_loss row
                = ImpactCalculation.estimated_economic_loss
                    (ImpactCalculation.assessment full)
    end.
Proof.
  intros G db db' disasterId r Hrun.
  pose proof (calculateFullImpact_effect db db' disasterId r Hrun) as Heffect.
  destruct r; exact Heffect.
Qed.

(** The assessment of disaster 1 in [city]: one row, numbered 1. *)
Lemma calculateFullImpact_appends_one_row_witness :
  next_assessment_id
    (snd (ImpactCalculation.calculateFullImpact (Planar.city Planar.never_rejects) 1))
  = 2%Z.
Proof.
  pose proof (calculateFullImpact_appends_one_row Planar.planar
                (Planar.city Planar.never_rejects)
                (snd (ImpactCalculation.calculateFullImpact
                        (Planar.city Planar.never_rejects) 1))
                1
                (fst (ImpactCalculation.calculateFullImpact
                        (Planar.city Planar.never_rejects) 1))) as Heffect.
  assert (Hrun : ImpactCalculation.calculateFullImpact (Planar.city Planar.never_rejects) 1
                 = (fst (ImpactCalculation.calculateFullImpact
                           (Planar.city Planar.never_rejects) 1),
                    snd (ImpactCalculation.calculateFullImpact
                           (Planar.city Planar.never_rejects) 1)))
    by (vm_compute; reflexivity).
  specialize (Heffect Hrun).
  destruct (fst (ImpactCalculation.calculateFullImpact
                   (Planar.city Planar.never_rejects) 1)) as [e|full] eqn:Hfst.
  - vm_compute in Hfst. discriminate Hfst.
  - destruct Heffect as (_ & _ & _ & _ & _ & _ & Hnext & _). exact Hnext.
Defined.

(** For an id that is not stored, and a database that rejects none of
    the three spatial statements, the impact summary still succeeds, with
    zero counts everywhere and no evacuation zones; the loss estimate is
    0; and [calculateFullImpact] throws a TypeError on the missing zones
    and stores nothing. *)
Theorem unknown_disaster_assessment :
  forall (G : PostGIS) (db : Db) (disasterId : Z),
    ~ In disasterId (map d_id (disasters db)) ->
    rejects db SelectAffectedPopulation = None ->
    rejects db SelectAffectedInfrastructure = None ->
    rejects db SelectEvacuationZones = None ->
    (exists summary,
       SpatialAnalysis.getDisasterImpactSummary db disasterId = inr summary
       /\ SpatialAnalysis.population summary
          = SpatialAnalysis.mkPopulationSummary (Fin 0) (Fin 0) (Fin 0) (Fin 0)
              (Fin 0) (Fin 0)
       /\ SpatialAnalysis.infrastructure_summary summary
          = SpatialAnalysis.mkInfrastructureSummary (of_Z 0) ∅ []
       /\ SpatialAnalysis.evacuation_zones summary = None)
    /\ (forall pop, ImpactCalculation.estimateEconomicLoss db disasterId pop = inr (Fin 0))
    /\ ImpactCalculation.calculateFullImpact db disasterId
       = (throw (TypeError "Cannot read properties of undefined"), db).
Proof.
  intros G db disasterId Hno Hp Hi Hz.
  pose proof (getDisasterImpactSummary_unknown db disasterId Hno Hp Hi Hz) as Hsum.
  assert (Hloss : forall pop,
             ImpactCalculation.estimateEconomicLoss db disasterId pop = inr (Fin 0)).
  { intros pop. unfold ImpactCalculation.estimateEconomicLoss, query,
      ImpactCalculation.disaster_details.
    rewrite (no_disaster_row db disasterId Hno).
    destruct (rejects db SelectDisasterDetails); reflexivity. }
  split; [|split].
  - eexists. split; [exact Hsum|]. repeat split.
  - exact Hloss.
  - unfold ImpactCalculation.calculateFullImpact. rewrite Hsum.
    cbn [SpatialAnalysis.population SpatialAnalysis.ps_total].
    rewrite Hloss. reflexivity.
Qed.

(** Disaster 7 is not stored in [city]. *)
Lemma unknown_disaster_assessment_witness :
  ImpactCalculation.calculateFullImpact (Planar.city Planar.never_rejects) 7
  = (throw (TypeError "Cannot read properties of undefined"),
     Planar.city Planar.never_rejects).
Proof.
  apply (unknown_disaster_assessment Planar.planar (Planar.city Planar.never_rejects) 7).
  - vm_compute. intros [H|[]]. discriminate H.
  - reflexivity.
  - reflexivity.
  - reflexivity.
Defined.

(** ** Reading back the integers the driver prints *)

Lemma digit_value_pretty_N_char (d : N) :
  (d < 10)%N -> digit_value (pretty_N_char d) = Some (Z.of_N d).
Proof.
  intros Hd.
  assert (Hcases : (d = 0 \/ d = 1 \/ d = 2 \/ d = 3 \/ d = 4 \/ d = 5 \/ d = 6
                    \/ d = 7 \/ d = 8 \/ d = 9)%N) by lia.
  repeat (destruct Hcases as [->|Hcases]; [reflexivity|]). now subst.
Qed.

(** The digits of a positive number, read from the left, give the number
    back. *)
Lemma leading_digits_pretty_N_go (x : N) (s : string) :
  (0 < x)%N ->
  leading_digits (pretty_N_go x s) None = leading_digits s (Some (Z.of_N x))
  /\ exists c rest, pretty_N_go x s = String c rest
                    /\ digit_value c <> None.
Proof.
  revert s. induction (N.lt_wf_0 x) as [x _ IH]. intros s Hx.
  rewrite pretty_N_go_step by exact Hx.
  pose proof (digit_value_pretty_N_char (x `mod` 10)%N) as Hdigit.
  assert (Hmod : (x `mod` 10 < 10)%N) by (apply N.mod_lt; discriminate).
  specialize (Hdigit Hmod).
  assert (Hdm : (x = 10 * (x `div` 10) + x `mod` 10)%N)
    by (apply N.div_mod; discriminate).
  assert (Hlt : (x `div` 10 < x)%N) by (apply N.div_lt; [exact Hx|reflexivity]).
  revert IH Hdigit Hmod Hdm Hlt.
  generalize (x `mod` 10)%N as r. generalize (x `div` 10)%N as q.
  intros q r IH Hdigit Hmod Hdm Hlt.
  destruct (N.eq_dec q 0%N) as [Hsmall|Hbig].
  - rewrite Hsmall, pretty_N_go_0. cbn [leading_digits]. rewrite Hdigit.
    split.
    + do 2 f_equal. cbn [default].
      rewrite Hdm, Hsmall, N.mul_0_r, N.add_0_l. reflexivity.
    + eexists _, _. split; [reflexivity|]. rewrite Hdigit. discriminate.
  - destruct (IH q Hlt (String (pretty_N_char r) s)) as [Hread Hhead];
      [now apply N.neq_0_lt_0|].
    split; [|exact Hhead].
    rewrite Hread. cbn [leading_digits]. rewrite Hdigit. cbn [default].
    do 2 f_equal. rewrite Hdm, N2Z.inj_add, N2Z.inj_mul. reflexivity.
Qed.

Lemma digit_is_no_sign (c : ascii) (rest : string) :
  digit_value c <> None ->
  skip_spaces (String c rest) = String c rest
  /\ c <> "-"%char /\ c <> "+"%char.
Proof.
  intros Hc.
  destruct c as [[] [] [] [] [] [] [] []];
    try (exfalso; apply Hc; reflexivity); repeat split; discriminate.
Qed.

(** A character of the ASCII range that is no white space ends the
    skipping. *)
Lemma skip_white_space_ascii (c : ascii) (rest : string) :
  (33 <= N_of_ascii c < 128)%N -> skip_white_space (String c rest) = String c rest.
Proof.
  intros Hc.
  destruct c as [[] [] [] [] [] [] [] []]; cbn in Hc; try lia;
    destruct rest as [|b [|c3 r]]; reflexivity.
Qed.

Lemma digit_is_ascii (c : ascii) :
  digit_value c <> None -> (33 <= N_of_ascii c < 128)%N.
Proof.
  intros Hc.
  destruct c as [[] [] [] [] [] [] [] []];
    try (exfalso; apply Hc; reflexivity); cbn; lia.
Qed.

Lemma strip_hex_prefix_digit (d : N) (s : string) :
  (d < 10)%N -> no_x s -> strip_hex_prefix (String (pretty_N_char d) s) = None.
Proof.
  intros Hd Hs.
  assert (Hcases : (d = 0 \/ d = 1 \/ d = 2 \/ d = 3 \/ d = 4 \/ d = 5 \/ d = 6
                    \/ d = 7 \/ d = 8 \/ d = 9)%N) by lia.
  destruct Hcases as [->|Hcases].
  - cbn. destruct s as [|c rest]; [reflexivity|].
    destruct Hs as [Hx HX].
    destruct c as [[] [] [] [] [] [] [] []]; try reflexivity;
      exfalso; [apply Hx|apply HX]; reflexivity.
  - repeat (destruct Hcases as [->|Hcases]; [reflexivity|]). now subst.
Qed.

Lemma no_x_digit (d : N) (s : string) :
  (d < 10)%N -> no_x (String (pretty_N_char d) s).
Proof.
  intros Hd.
  assert (Hcases : (d = 0 \/ d = 1 \/ d = 2 \/ d = 3 \/ d = 4 \/ d = 5 \/ d = 6
                    \/ d = 7 \/ d = 8 \/ d = 9)%N) by lia.
  repeat (destruct Hcases as [->|Hcases]; [split; discriminate|]).
  subst. split; discriminate.
Qed.

Lemma strip_hex_prefix_pretty_N_go (x : N) (s : string) :
  (0 < x)%N -> no_x s -> strip_hex_prefix (pretty_N_go x s) = None.
Proof.
  revert s. induction (N.lt_wf_0 x) as [x _ IH]. intros s Hx Hs.
  rewrite pretty_N_go_step by exact Hx.
  assert (Hmod : (x `mod` 10 < 10)%N) by (apply N.mod_lt; discriminate).
  assert (Hlt : (x `div` 10 < x)%N) by (apply N.div_lt; [exact Hx|reflexivity]).
  destruct (N.eq_dec (x `div` 10)%N 0%N) as [Hsmall|Hbig].
  - rewrite Hsmall, pretty_N_go_0. now apply strip_hex_prefix_digit.
  - apply IH; [exact Hlt|now apply N.neq_0_lt_0|now apply no_x_digit].
Qed.

Lemma parseInt_text_positive (p : positive) :
  parseInt_text (pretty (Z.pos p)) = of_Z (Z.pos p).
Proof.
  change (pretty (Z.pos p)) with (pretty_N_go (N.pos p) EmptyString).
  destruct (leading_digits_pretty_N_go (N.pos p) EmptyString)
    as (Hread & c & rest & Hshape & Hc); [lia|].
  pose proof (strip_hex_prefix_pretty_N_go (N.pos p) EmptyString ltac:(lia) I)
    as Hstrip.
  pose proof (skip_white_space_ascii c rest (digit_is_ascii c Hc)) as Hskip.
  destruct (digit_is_no_sign c rest Hc) as (_ & Hminus & Hplus).
  unfold parseInt_text. rewrite Hshape, Hskip.
  assert (Hbody : parseInt_digits 1 (String c rest) = of_Z (Z.pos p)).
  { unfold parseInt_digits. rewrite <- Hshape, Hstrip, Hread. reflexivity. }
  destruct c as [[] [] [] [] [] [] [] []]; try congruence.
Qed.

(** [parseInt] reads back every integer printed as decimal text. *)
Lemma parseInt_bigint_text (z : Z) : parseInt (bigint_text z) = of_Z z.
Proof.
  unfold bigint_text. cbn [parseInt].
  destruct z as [|p|p].
  - reflexivity.
  - apply parseInt_text_positive.
  - change (pretty (Z.neg p)) with (String "-"%char (pretty_N_go (N.pos p) EmptyString)).
    unfold parseInt_text.
    rewrite skip_white_space_ascii by (cbn; lia).
    destruct (leading_digits_pretty_N_go (N.pos p) EmptyString) as [Hread _]; [lia|].
    unfold parseInt_digits.
    rewrite strip_hex_prefix_pretty_N_go, Hread by (lia || exact I). reflexivity.
Qed.

Lemma parseInt_or_0_bigint (v : option Z) :
  SpatialAnalysis.parseInt_or_0 (bigint_value v) = of_Z (default 0%Z v).
Proof.
  unfold SpatialAnalysis.parseInt_or_0. destruct v as [z|]; [|reflexivity].
  cbn [bigint_value default]. rewrite parseInt_bigint_text.
  unfold or_default, truthy, of_Z.
  destruct (Qeq_bool (inject_Z z) 0) eqn:E; [|reflexivity].
  apply Qeq_bool_iff in E. unfold Qeq in E. cbn in E.
  assert (Hz : z = 0%Z) by lia. subst z. reflexivity.
Qed.

(** ** The impact summary *)

Section SummaryFacts.

Context `{PostGIS}.

(** The parts a summary is built from. *)
Lemma getDisasterImpactSummary_inv (db : Db) (disasterId : Z)
    (summary : SpatialAnalysis.ImpactSummary) :
  SpatialAnalysis.getDisasterImpactSummary db disasterId = inr summary ->
  exists infra zones,
    SpatialAnalysis.findAffectedInfrastructure db disasterId (Some 10%Q) = inr infra
    /\ SpatialAnalysis.createEvacuationZones db disasterId = inr zones
    /\ SpatialAnalysis.evacuation_zones summary = zones
    /\ SpatialAnalysis.infrastructure_summary summary
       = SpatialAnalysis.mkInfrastructureSummary (of_Z (Z.of_nat (length infra)))
           (SpatialAnalysis.infrastructureByType infra) (take 10 infra)
    /\ let blocks := SpatialAnalysis.affected_blocks db disasterId in
       SpatialAnalysis.population summary
       = SpatialAnalysis.mkPopulationSummary
           (SpatialAnalysis.parseInt_or_0
              (bigint_value (sql_sum (map (fun cb => Some (cb_population cb)) blocks))))
           (SpatialAnalysis.parseInt_or_0
              (bigint_value (sql_sum (map cb_households blocks))))
           (SpatialAnalysis.parseInt_or_0
              (bigint_value (sql_sum (map cb_elderly_population blocks))))
           (SpatialAnalysis.parseInt_or_0
              (bigint_value (sql_sum (map cb_children_population blocks))))
           (SpatialAnalysis.parseInt_or_0
              (bigint_value (sql_sum (map cb_disabled_population blocks))))
           (SpatialAnalysis.parseInt_or_0
              (bigint_text (sql_count (map (fun cb => Some (cb_id cb)) blocks)))).
Proof.
  unfold SpatialAnalysis.getDisasterImpactSummary,
    SpatialAnalysis.calculateAffectedPopulation, query.
  destruct (rejects db SelectAffectedPopulation); [discriminate|].
  cbn [try_catch bind ret first_row head SpatialAnalysis.population_rows].
  destruct (SpatialAnalysis.findAffectedInfrastructure db disasterId (Some 10%Q))
    as [e|infra]; [discriminate|].
  destruct (SpatialAnalysis.createEvacuationZones db disasterId) as [e|zones];
    [discriminate|].
  cbn. intros [= <-]. exists infra, zones. repeat split.
Qed.

Lemma sql_sum_not_null (zs : list Z) :
  default 0%Z (sql_sum (map Some zs)) = fold_right Z.add 0%Z zs.
Proof.
  unfold sql_sum.
  assert (Hid : omap id (map Some zs) = zs).
  { induction zs as [|z zs IH]; [reflexivity|]. cbn. now rewrite IH. }
  rewrite Hid. clear Hid. destruct zs as [|z zs]; [reflexivity|].
  cbn [default from_option id fold_right].
  revert z. induction zs as [|y zs IH]; intros z; cbn [fold_left fold_right]; [lia|].
  rewrite IH. cbn [fold_right]. lia.
Qed.

Lemma sql_count_not_null {A} (f : A -> Z) (l : list A) :
  sql_count (map (fun x => Some (f x)) l) = Z.of_nat (length l).
Proof.
  unfold sql_count. f_equal.
  induction l as [|x l IH]; [reflexivity|]. cbn. now rewrite IH.
Qed.

End SummaryFacts.

(** The population figures of an impact summary are whole numbers read
    back exactly from the database: the total is the sum of the
    populations of the census blocks intersecting the disaster, the
    household and group figures are the sums of the counts that are not
    NULL (0 when there is none), and the block figure is the number of
    intersecting blocks. *)
Theorem summary_population_is_sum_of_blocks :
  forall (G : PostGIS) (db : Db) (disasterId : Z)
         (summary : SpatialAnalysis.ImpactSummary),
    SpatialAnalysis.getDisasterImpactSummary db disasterId = inr summary ->
    let blocks := SpatialAnalysis.affected_blocks db disasterId in
    let figures := SpatialAnalysis.population summary in
    SpatialAnalysis.ps_total figures
    = of_Z (fold_right Z.add 0%Z (map cb_population blocks))
    /\ SpatialAnalysis.ps_households figures
       = of_Z (default 0%Z (sql_sum (map cb_households blocks)))
    /\ SpatialAnalysis.ps_elderly figures
       = of_Z (default 0%Z (sql_sum (map cb_elderly_population blocks)))
    /\ SpatialAnalysis.ps_children figures
       = of_Z (default 0%Z (sql_sum (map cb_children_population blocks)))
    /\ SpatialAnalysis.ps_disabled figures
       = of_Z (default 0%Z (sql_sum (map cb_disabled_population blocks)))
    /\ SpatialAnalysis.ps_affected_census_blocks figures
       = of_Z (Z.of_nat (length blocks)).
Proof.
  intros G db disasterId summary Hsum blocks figures.
  apply getDisasterImpactSummary_inv in Hsum as (infra & zones & _ & _ & _ & _ & Hpop).
  subst figures. cbv zeta in Hpop. rewrite Hpop. fold blocks.
  cbn [SpatialAnalysis.ps_total SpatialAnalysis.ps_households
       SpatialAnalysis.ps_elderly SpatialAnalysis.ps_children
       SpatialAnalysis.ps_disabled SpatialAnalysis.ps_affected_census_blocks].
  rewrite !parseInt_or_0_bigint.
  change (bigint_text (sql_count (map (fun cb => Some (cb_id cb)) blocks)))
    with (bigint_value (Some (sql_count (map (fun cb => Some (cb_id cb)) blocks)))).
  rewrite parseInt_or_0_bigint. cbn [default from_option id].
  rewrite (sql_count_not_null cb_id blocks).
  rewrite <- (sql_sum_not_null (map cb_population blocks)), List.map_map.
  repeat split.
Qed.

(** Disaster 1 of [city] affects the one block on it: 1000 people. *)
Lemma summary_population_is_sum_of_blocks_witness :
  exists summary,
    SpatialAnalysis.getDisasterImpactSummary (Planar.city Planar.never_rejects) 1
    = inr summary
    /\ SpatialAnalysis.ps_total (SpatialAnalysis.population summary) = of_Z 1000.
Proof.
  eexists. split; [vm_compute; reflexivity|].
  apply (summary_population_is_sum_of_blocks Planar.planar
           (Planar.city Planar.never_rejects) 1).
  vm_compute. reflexivity.
Defined.

(** *** Infrastructure counted by type *)

Lemma add_one (n : Z) : add (of_Z n) (Fin 1) = of_Z (n + 1).
Proof.
  unfold of_Z, add, inject_Z, Qplus. cbn [Qnum Qden].
  rewrite Z.mul_1_r. reflexivity.
Qed.

Lemma tally_step (n : nat) :
  add (or_default (tally n) (Fin 0)) (Fin 1) = of_Z (Z.of_nat (S n)).
Proof.
  destruct n as [|n].
  - reflexivity.
  - cbn [tally or_default].
    assert (Ht : truthy (of_Z (Z.of_nat (S n))) = true).
    { unfold truthy, of_Z. destruct (Qeq_bool _ 0) eqn:E; [|reflexivity].
      apply Qeq_bool_iff in E. unfold Qeq in E. cbn in E. lia. }
    rewrite Ht, add_one. f_equal. lia.
Qed.

Lemma infrastructureByType_fold (t : string)
    (rows : list SpatialAnalysis.InfrastructureRow) (acc : gmap string num) (n : nat) :
  acc !! t = tally n ->
  fold_left
    (fun acc item =>
       <[ SpatialAnalysis.ir_type item :=
            add (or_default (acc !! SpatialAnalysis.ir_type item) (Fin 0)) (Fin 1) ]> acc)
    rows acc !! t
  = tally (n + length (rows_of_type t rows)).
Proof.
  revert acc n. induction rows as [|r rows IH]; intros acc n Hacc.
  - cbn. now rewrite Nat.add_0_r.
  - cbn [fold_left rows_of_type List.filter].
    fold (rows_of_type t rows).
    destruct (String.eqb (SpatialAnalysis.ir_type r) t) eqn:E.
    + apply String.eqb_eq in E. rewrite E.
      rewrite (IH _ (S n)).
      * cbn [length]. f_equal. lia.
      * rewrite lookup_insert_eq, Hacc, tally_step. reflexivity.
    + apply String.eqb_neq in E.
      apply IH. rewrite lookup_insert_ne by exact E. exact Hacc.
Qed.

Lemma infrastructureByType_tally (t : string)
    (rows : list SpatialAnalysis.InfrastructureRow) :
  SpatialAnalysis.infrastructureByType rows !! t = tally (length (rows_of_type t rows)).
Proof.
  unfold SpatialAnalysis.infrastructureByType.
  apply (infrastructureByType_fold t rows ∅ 0). apply lookup_empty.
Qed.

Lemma tally_or_0 (n : nat) : or_default (tally n) (Fin 0) = of_Z (Z.of_nat n).
Proof.
  destruct n as [|n]; [reflexivity|].
  cbn [tally or_default].
  assert (Ht : truthy (of_Z (Z.of_nat (S n))) = true).
  { unfold truthy, of_Z. destruct (Qeq_bool _ 0) eqn:E; [|reflexivity].
    apply Qeq_bool_iff in E. unfold Qeq in E. cbn in E. lia. }
  now rewrite Ht.
Qed.

Lemma findAffectedInfrastructure_inv `{PostGIS} (db : Db) (disasterId : Z)
    (bufferKm : option Q) (rows : list SpatialAnalysis.InfrastructureRow) :
  SpatialAnalysis.findAffectedInfrastructure db disasterId bufferKm = inr rows ->
  exists km : Z,
    (default 0 bufferKm == inject_Z km)%Q
    /\ (-2147483648 <= km * 1000 <= 2147483647)%Z
    /\ rows = SpatialAnalysis.infrastructure_rows db disasterId (inject_Z km).
Proof.
  unfold SpatialAnalysis.findAffectedInfrastructure, query.
  destruct (rejects db SelectAffectedInfrastructure); [discriminate|].
  set (q := match bufferKm with Some km => km | None => 0%Q end).
  assert (Hq : q = default 0%Q bufferKm) by now destruct bufferKm.
  rewrite <- Hq. clearbody q.
  destruct (int4_of_number (Fin q)) as [e|km] eqn:Hkm; [discriminate|].
  apply int4_of_number_inv in Hkm as [Hkm _].
  cbn [bind ret try_catch mbind].
  destruct (Z.leb_spec (-2147483648) (km * 1000)); [|discriminate].
  destruct (Z.leb_spec (km * 1000) 2147483647); [|discriminate].
  cbn. intros [= <-]. exists km. repeat split; assumption.
Qed.

Lemma findAffectedInfrastructure_10_inv `{PostGIS} (db : Db) (disasterId : Z)
    (rows : list SpatialAnalysis.InfrastructureRow) :
  SpatialAnalysis.findAffectedInfrastructure db disasterId (Some 10%Q) = inr rows ->
  rows = SpatialAnalysis.infrastructure_rows db disasterId 10%Q.
Proof.
  destruct (rejects db SelectAffectedInfrastructure) as [e|] eqn:Hq.
  - unfold SpatialAnalysis.findAffectedInfrastructure, query. rewrite Hq.
    discriminate.
  - rewrite findAffectedInfrastructure_10 by exact Hq. now intros [= <-].
Qed.

(** The infrastructure part of an impact summary is taken from the
    sites within 10 km of the disaster geometry: [total] is their
    number, [details] the first ten of them in the order of the
    statement, and [by_type] holds, for exactly the types that occur,
    the number of sites of the type; a type that does not occur has no
    key, so that [by_type.t || 0] is the count in every case. *)
Theorem summary_infrastructure_counts :
  forall (G : PostGIS) (db : Db) (disasterId : Z)
         (summary : SpatialAnalysis.ImpactSummary),
    SpatialAnalysis.getDisasterImpactSummary db disasterId = inr summary ->
    let rows := SpatialAnalysis.infrastructure_rows db disasterId 10%Q in
    let part := SpatialAnalysis.infrastructure_summary summary in
    SpatialAnalysis.is_total part = of_Z (Z.of_nat (length rows))
    /\ SpatialAnalysis.is_details part = take 10 rows
    /\ forall t : string,
         let n := length (rows_of_type t rows) in
         or_default (SpatialAnalysis.is_by_type part !! t) (Fin 0) = of_Z (Z.of_nat n)
         /\ (SpatialAnalysis.is_by_type part !! t = None <-> n = O)
         /\ (forall c, SpatialAnalysis.is_by_type part !! t = Some c ->
                       c = of_Z (Z.of_nat n)).
Proof.
  intros G db disasterId summary Hsum rows part.
  apply getDisasterImpactSummary_inv in Hsum
    as (infra & zones & Hinfra & _ & _ & Hpart & _).
  apply findAffectedInfrastructure_10_inv in Hinfra.
  subst part rows. rewrite Hpart, <- Hinfra.
  cbn [SpatialAnalysis.is_total SpatialAnalysis.is_details SpatialAnalysis.is_by_type].
  split; [reflexivity|]. split; [reflexivity|].
  intros t. cbv zeta. rewrite infrastructureByType_tally.
  set (n := length (rows_of_type t infra)).
  split; [apply tally_or_0|]. split.
  - destruct n; cbn [tally]; split; congruence.
  - destruct n; cbn [tally]; [discriminate|]. now intros c [= <-].
Qed.

(** In [city] one hospital lies within 10 km of disaster 1. *)
Lemma summary_infrastructure_counts_witness :
  exists summary,
    SpatialAnalysis.getDisasterImpactSummary (Planar.city Planar.never_rejects) 1
    = inr summary
    /\ SpatialAnalysis.is_total (SpatialAnalysis.infrastructure_summary summary)
       = of_Z 1.
Proof.
  eexists. split; [vm_compute; reflexivity|].
  apply (summary_infrastructure_counts Planar.planar
           (Planar.city Planar.never_rejects) 1).
  vm_compute. reflexivity.
Defined.

(** *** Affected infrastructure *)

Section AffectedInfrastructureFacts.

Context `{PostGIS}.

Lemma infrastructure_rows_In (db : Db) (disasterId : Z) (km : Q)
    (r : SpatialAnalysis.InfrastructureRow) :
  In r (SpatialAnalysis.infrastructure_rows db disasterId km) <->
  exists d i,
    In d (disasters db) /\ d_id d = disasterId /\ In i (infrastructure db)
    /\ ST_DWithin (i_location i) (d_geometry d) (km * 1000) = true
    /\ r = {| SpatialAnalysis.ir_id := i_id i;
              SpatialAnalysis.ir_name := i_name i;
              SpatialAnalysis.ir_type := infrastructure_type_label (i_type i);
              SpatialAnalysis.ir_capacity := i_capacity i;
              SpatialAnalysis.ir_operational_status := i_operational_status i;
              SpatialAnalysis.ir_location := i_location i;
              SpatialAnalysis.ir_distance_km :=
                ST_Distance (i_location i) (d_centroid d) / 1000 |}.
Proof.
  unfold SpatialAnalysis.infrastructure_rows.
  split.
  - intros Hr.
    apply (Permutation_in _ (order_by_perm _ _)) in Hr.
    apply list_elem_of_In, list_elem_of_bind in Hr as (d & Hr & Hd).
    apply list_elem_of_In, List.filter_In in Hd as [Hd Hid].
    apply Z.eqb_eq in Hid.
    apply list_elem_of_bind in Hr as (i & Hr & Hi).
    apply list_elem_of_In, List.filter_In in Hi as [Hi Hwithin].
    apply list_elem_of_In in Hr. destruct Hr as [<-|[]].
    exists d, i. repeat split; assumption.
  - intros (d & i & Hd & Hid & Hi & Hwithin & ->).
    apply (Permutation_in _ (Permutation_sym (order_by_perm _ _))).
    apply list_elem_of_In, list_elem_of_bind. exists d. split.
    + apply list_elem_of_bind. exists i. split.
      * apply list_elem_of_In. now left.
      * apply list_elem_of_In, List.filter_In. split; assumption.
    + apply list_elem_of_In, List.filter_In. split; [assumption|].
      now apply Z.eqb_eq.
Qed.

End AffectedInfrastructureFacts.

(** The buffer of the affected-infrastructure statement is an
    [integer] number of kilometers (0 when none is given), and so is
    its product with 1000.  For a buffer that is not negative, the list
    returned holds exactly the sites lying within the buffer of the
    geometry of the disaster with the given id, whether operational or
    not; each row reports the distance of the site to the disaster's
    centroid, in kilometers, and the rows come in ascending order of that
    distance.  A buffer that is not a whole number, such as 0.5, is
    refused with SQLSTATE 22P02 when the statement is executed. *)
Theorem findAffectedInfrastructure_within_buffer_ascending :
  forall (G : PostGIS) (db : Db) (disasterId : Z) (bufferKm : option Q),
    (forall rows : list SpatialAnalysis.InfrastructureRow,
       (0 <= default 0 bufferKm)%Q ->
       SpatialAnalysis.findAffectedInfrastructure db disasterId bufferKm = inr rows ->
       exists km : Z,
         (default 0 bufferKm == inject_Z km)%Q
         /\ (0 <= km * 1000 <= 2147483647)%Z
         /\ let meters := inject_Z (km * 1000) in
            StronglySorted (key_le SpatialAnalysis.ir_distance_km) rows
            /\ (forall r, In r rows ->
                  exists d i,
                    In d (disasters db) /\ d_id d = disasterId
                    /\ In i (infrastructure db)
                    /\ ST_DWithin (i_location i) (d_geometry d) meters = true
                    /\ describes r d i)
            /\ (forall d i,
                  In d (disasters db) -> d_id d = disasterId ->
                  In i (infrastructure db) ->
                  ST_DWithin (i_location i) (d_geometry d) meters = true ->
                  exists r, In r rows /\ describes r d i))
    /\ (forall q : Q,
          bufferKm = Some q -> ~ (q == inject_Z (Qfloor q))%Q ->
          rejects db SelectAffectedInfrastructure = None ->
          SpatialAnalysis.findAffectedInfrastructure db disasterId bufferKm
          = inl invalid_text_representation).
Proof.
  intros G db disasterId bufferKm. split.
  - intros rows Hpos Hrows.
    apply findAffectedInfrastructure_inv in Hrows as (km & Hkm & Hrange & ->).
    exists km. split; [exact Hkm|].
    assert (Hkm0 : (0 <= km)%Z).
    { rewrite Hkm in Hpos. change 0%Q with (inject_Z 0) in Hpos.
      now rewrite <- Zle_Qle in Hpos. }
    split; [lia|]. cbv zeta.
    assert (Hmeters : forall i d,
      ST_DWithin (i_location i) (d_geometry d) (inject_Z (km * 1000))
      = ST_DWithin (i_location i) (d_geometry d) (inject_Z km * 1000)).
    { intros i d. reflexivity. }
    split; [apply order_by_sorted|]. split.
    + intros r Hr. apply infrastructure_rows_In in Hr
        as (d & i & Hd & Hid & Hi & Hwithin & ->).
      exists d, i. rewrite Hmeters. repeat split; assumption.
    + intros d i Hd Hid Hi Hwithin. rewrite Hmeters in Hwithin.
      eexists. split.
      * apply infrastructure_rows_In. exists d, i. repeat split; eassumption.
      * repeat split.
  - intros q -> Hq Hrun.
    unfold SpatialAnalysis.findAffectedInfrastructure, query.
    rewrite Hrun, (int4_of_number_fraction q Hq). reflexivity.
Qed.

(** The hospital of [city] is the one site within 10 km of disaster 1. *)
Lemma findAffectedInfrastructure_within_buffer_ascending_witness :
  exists rows,
    SpatialAnalysis.findAffectedInfrastructure (Planar.city Planar.never_rejects) 1
      (Some 10%Q) = inr rows
    /\ StronglySorted (key_le SpatialAnalysis.ir_distance_km) rows.
Proof.
  eexists. split; [vm_compute; reflexivity|].
  destruct (proj1 (findAffectedInfrastructure_within_buffer_ascending Planar.planar
                     (Planar.city Planar.never_rejects) 1 (Some 10%Q)) _
              ltac:(vm_compute; discriminate) ltac:(vm_compute; reflexivity))
    as (km & _ & _ & Hsorted & _).
  exact Hsorted.
Defined.

(** ** Ordering by a comparison *)

Section SortWith.

Context {A : Type} (le : A -> A -> bool).

Lemma insert_with_perm (x : A) (rows : list A) :
  Permutation (insert_with le x rows) (x :: rows).
Proof.
  induction rows as [|y rest IH]; cbn; [reflexivity|].
  destruct (le x y); [reflexivity|].
  rewrite IH. apply perm_swap.
Qed.

Lemma sort_with_perm (rows : list A) : Permutation (sort_with le rows) rows.
Proof.
  induction rows as [|x rest IH]; cbn; [reflexivity|].
  rewrite insert_with_perm. now constructor.
Qed.

Lemma sort_with_length (rows : list A) : length (sort_with le rows) = length rows.
Proof. apply Permutation_length, sort_with_perm. Qed.

Hypothesis le_total : forall a b, le a b = true \/ le b a = true.
Hypothesis le_trans : forall a b c, le a b = true -> le b c = true -> le a c = true.

Lemma insert_with_sorted (x : A) (rows : list A) :
  StronglySorted (fun a b => le a b = true) rows ->
  StronglySorted (fun a b => le a b = true) (insert_with le x rows).
Proof.
  induction rows as [|y rest IH]; intros Hs; cbn.
  - repeat constructor.
  - inversion Hs as [|? ? Hrest Hall]; subst.
    destruct (le x y) eqn:E.
    + constructor; [exact Hs|]. constructor; [exact E|].
      eapply List.Forall_impl; [|exact Hall]. intros z Hz. now apply (le_trans x y z).
    + constructor; [now apply IH|].
      assert (Hyx : le y x = true) by (destruct (le_total x y); congruence).
      apply List.Forall_forall. intros z Hz.
      apply (Permutation_in _ (insert_with_perm x rest)) in Hz.
      destruct Hz as [<-|Hz]; [exact Hyx|].
      now apply (proj1 (List.Forall_forall _ _) Hall).
Qed.

Lemma sort_with_sorted (rows : list A) :
  StronglySorted (fun a b => le a b = true) (sort_with le rows).
Proof.
  induction rows as [|x rest IH]; cbn; [constructor|].
  now apply insert_with_sorted.
Qed.

End SortWith.

Lemma not_earlier_total (a b : Timestamp) :
  not_earlier a b = true \/ not_earlier b a = true.
Proof.
  unfold not_earlier, later_than.
  destruct (ts_year a <? ts_year b)%Z eqn:E1, (ts_year b <? ts_year a)%Z eqn:E2,
    (ts_year a =? ts_year b)%Z eqn:E3, (ts_year b =? ts_year a)%Z eqn:E4,
    (ts_seconds a <? ts_seconds b)%Z eqn:E5, (ts_seconds b <? ts_seconds a)%Z eqn:E6;
    cbn; auto; lia.
Qed.

Lemma not_earlier_trans (a b c : Timestamp) :
  not_earlier a b = true -> not_earlier b c = true -> not_earlier a c = true.
Proof.
  unfold not_earlier, later_than.
  destruct (ts_year a <? ts_year b)%Z eqn:E1, (ts_year b =? ts_year a)%Z eqn:E2,
    (ts_seconds a <? ts_seconds b)%Z eqn:E3,
    (ts_year b <? ts_year c)%Z eqn:E4, (ts_year c =? ts_year b)%Z eqn:E5,
    (ts_seconds b <? ts_seconds c)%Z eqn:E6,
    (ts_year a <? ts_year c)%Z eqn:E7, (ts_year c =? ts_year a)%Z eqn:E8,
    (ts_seconds a <? ts_seconds c)%Z eqn:E9;
    cbn; auto; lia.
Qed.

(** ** Disasters within a bounding box *)

Lemma parse_disaster_type_label (label : string) (t : disaster_type) :
  SpatialAnalysis.parse_disaster_type label = Some t -> disaster_type_label t = label.
Proof.
  unfold SpatialAnalysis.parse_disaster_type. intros E.
  apply List.find_some in E as [_ E]. now apply String.eqb_eq in E.
Qed.

Lemma disaster_type_array_labels (labels : list string) (ts : list disaster_type) :
  SpatialAnalysisBounds.disaster_type_array labels = inr ts ->
  map disaster_type_label ts = labels.
Proof.
  revert ts. induction labels as [|label rest IH]; intros ts;
    cbn [SpatialAnalysisBounds.disaster_type_array].
  - now intros [= <-].
  - destruct (SpatialAnalysis.parse_disaster_type label) as [t|] eqn:E; [|discriminate].
    destruct (SpatialAnalysisBounds.disaster_type_array rest) as [e|ts']; cbn [bind ret];
      [discriminate|].
    intros [= <-]. cbn [map]. rewrite (IH ts' eq_refl).
    now rewrite (parse_disaster_type_label _ _ E).
Qed.

Lemma disaster_type_array_unknown (labels : list string) :
  (exists label, In label labels /\ SpatialAnalysis.parse_disaster_type label = None) ->
  SpatialAnalysisBounds.disaster_type_array labels = inl invalid_text_representation.
Proof.
  induction labels as [|label rest IH]; intros (bad & Hin & Hbad); [destruct Hin|].
  cbn [SpatialAnalysisBounds.disaster_type_array].
  destruct (SpatialAnalysis.parse_disaster_type label) as [t|] eqn:E; [|reflexivity].
  destruct Hin as [->|Hin]; [congruence|].
  rewrite IH by eauto. reflexivity.
Qed.

Lemma has_type_labels (ts : list disaster_type) (d : Disaster) :
  SpatialAnalysisBounds.has_type ts d = true <->
  In (disaster_type_label (d_type d)) (map disaster_type_label ts).
Proof.
  unfold SpatialAnalysisBounds.has_type. rewrite existsb_exists, in_map_iff.
  split.
  - intros (t & Ht & E). apply String.eqb_eq in E. eauto.
  - intros (t & E & Ht). exists t. split; [exact Ht|]. now apply String.eqb_eq.
Qed.

Section BoundsFacts.

Context `{PostGIS}.

Lemma bounds_rows_inv (db : Db) (bounds : SpatialAnalysisBounds.Bounds)
    (types : option (list string)) (rows : list Disaster) :
  SpatialAnalysisBounds.bounds_rows db bounds types = inr rows ->
  exists keep : Disaster -> bool,
    (forall d, keep d = true <->
               SpatialAnalysisBounds.in_bounds bounds d = true /\ type_wanted types d)
    /\ rows = take 1000
                (sort_with (fun a b => not_earlier (d_start_time a) (d_start_time b))
                   (List.filter keep (disasters db))).
Proof.
  unfold SpatialAnalysisBounds.bounds_rows.
  destruct types as [[|label rest]|].
  - cbn. intros [= <-]. eexists. split; [|reflexivity].
    intros d. cbn. rewrite andb_true_r. tauto.
  - destruct (SpatialAnalysisBounds.disaster_type_array (label :: rest)) as [e|ts] eqn:E.
    + cbn [bind ret]. discriminate.
    + cbn [bind ret]. intros [= <-]. eexists. split; [|reflexivity].
      intros d. cbn beta. rewrite andb_true_iff, has_type_labels.
      rewrite (disaster_type_array_labels _ _ E). reflexivity.
  - cbn. intros [= <-]. eexists. split; [|reflexivity].
    intros d. cbn. rewrite andb_true_r. tauto.
Qed.

Lemma findDisastersInBounds_inv (s : Server) (bounds : SpatialAnalysisBounds.Bounds)
    (types : option (list string)) (rows : list Disaster) :
  SpatialAnalysisBounds.findDisastersInBounds s bounds types = inr rows ->
  SpatialAnalysisBounds.bounds_rows (store s) bounds types = inr rows.
Proof.
  unfold SpatialAnalysisBounds.findDisastersInBounds, other_query.
  destruct (also_rejects s SelectDisastersInBounds); [discriminate|].
  destruct (SpatialAnalysisBounds.bounds_rows (store s) bounds types);
    cbn [try_catch throw]; [discriminate|trivial].
Qed.

End BoundsFacts.

(** The disasters found within a bounding box: at most 1000 rows,
    newest start time first, each a stored disaster whose geometry
    intersects the envelope and, when a non-empty list of types is
    given, whose type is in the list (an empty list filters nothing,
    like no list); when fewer than 1000 rows come back, no such
    disaster is left out. *)
Theorem findDisastersInBounds_rows :
  forall (G : PostGIS) (s : Server) (bounds : SpatialAnalysisBounds.Bounds)
         (types : option (list string)) (rows : list Disaster),
    SpatialAnalysisBounds.findDisastersInBounds s bounds types = inr rows ->
    (length rows <= 1000)%nat
    /\ StronglySorted newest_first rows
    /\ (forall d, In d rows ->
          In d (disasters (store s))
          /\ SpatialAnalysisBounds.in_bounds bounds d = true
          /\ type_wanted types d)
    /\ ((length rows < 1000)%nat ->
        forall d, In d (disasters (store s)) ->
                  SpatialAnalysisBounds.in_bounds bounds d = true ->
                  type_wanted types d -> In d rows).
Proof.
  intros G s bounds types rows Hrows.
  apply findDisastersInBounds_inv, bounds_rows_inv in Hrows as (keep & Hkeep & ->).
  set (sorted := sort_with _ (List.filter keep (disasters (store s)))).
  assert (Hperm : Permutation sorted (List.filter keep (disasters (store s))))
    by apply sort_with_perm.
  split; [rewrite length_take; lia|]. split.
  - apply StronglySorted_take.
    apply (sort_with_sorted (fun a b => not_earlier (d_start_time a) (d_start_time b))).
    + intros a b. apply not_earlier_total.
    + intros a b c. apply not_earlier_trans.
  - split.
    + intros d Hd.
      assert (Hin : In d sorted).
      { apply list_elem_of_In. apply list_elem_of_In in Hd.
        exact (subseteq_take _ _ _ Hd). }
      apply (Permutation_in _ Hperm), List.filter_In in Hin as [Hin Hk].
      apply Hkeep in Hk. tauto.
    + intros Hlen d Hd Hb Ht.
      rewrite length_take in Hlen.
      rewrite take_ge by lia.
      apply (Permutation_in _ (Permutation_sym Hperm)), List.filter_In.
      split; [exact Hd|]. apply Hkeep. tauto.
Qed.

(** The earthquake of [city] is found in a box from the origin. *)
Lemma findDisastersInBounds_rows_witness :
  exists rows,
    SpatialAnalysisBounds.findDisastersInBounds
      (serving (Planar.city Planar.never_rejects)) from_origin (Some ["earthquake"])
    = inr rows
    /\ (length rows <= 1000)%nat.
Proof.
  eexists. split; [vm_compute; reflexivity|].
  apply (findDisastersInBounds_rows Planar.planar
           (serving (Planar.city Planar.never_rejects)) from_origin (Some ["earthquake"])).
  vm_compute. reflexivity.
Defined.

(** A type list naming a label outside the disaster types makes the
    statement fail with SQLSTATE 22P02 whatever the bounds and the
    stored disasters are, also when the other labels are valid; the
    service rethrows the error. *)
Theorem findDisastersInBounds_unknown_label :
  forall (G : PostGIS) (s : Server) (bounds : SpatialAnalysisBounds.Bounds)
         (types : list string) (label : string),
    also_rejects s SelectDisastersInBounds = None ->
    In label types ->
    SpatialAnalysis.parse_disaster_type label = None ->
    SpatialAnalysisBounds.findDisastersInBounds s bounds (Some types)
    = inl invalid_text_representation.
Proof.
  intros G s bounds types label Hq Hin Hbad.
  unfold SpatialAnalysisBounds.findDisastersInBounds, other_query,
    SpatialAnalysisBounds.bounds_rows.
  rewrite Hq.
  destruct types as [|first rest]; [destruct Hin|].
  rewrite (disaster_type_array_unknown (first :: rest)) by eauto.
  reflexivity.
Qed.

Lemma findDisastersInBounds_unknown_label_witness :
  SpatialAnalysisBounds.findDisastersInBounds
    (serving (Planar.city Planar.never_rejects)) from_origin
    (Some ["earthquake"; "volcano"])
  = inl invalid_text_representation.
Proof.
  apply (findDisastersInBounds_unknown_label Planar.planar
           (serving (Planar.city Planar.never_rejects)) from_origin
           ["earthquake"; "volcano"] "volcano").
  - reflexivity.
  - cbn. right. left. reflexivity.
  - vm_compute. reflexivity.
Defined.

(** ** The infrastructure list *)

(** The statement built for a list request numbers its placeholders
    1, 2, ... in the order of the parameter array, whichever filters are
    present: the parameters supplied are exactly those the statement
    names, the last two being LIMIT and OFFSET. *)
Theorem build_list_statement_numbering :
  forall req : Controllers.ListRequest,
    let st := Controllers.build_list_statement req in
    Controllers.placeholders st = seq 1 (length (Controllers.params st))
    /\ Controllers.param st (Controllers.limit_placeholder st) = Some (limit_param req)
    /\ Controllers.param st (Controllers.offset_placeholder st) = Some (offset_param req)
    /\ length (Controllers.params st)
       = (2 + (if Controllers.nonempty_text (Controllers.q_type req) then 1 else 0)
            + (match Controllers.q_operational req with Some _ => 1 | None => 0 end))%nat.
Proof.
  intros [type operational limit offset].
  unfold Controllers.build_list_statement, limit_param, offset_param.
  cbn [Controllers.q_type Controllers.q_operational Controllers.q_limit
       Controllers.q_offset].
  destruct type as [type|]; [destruct (Controllers.nonempty_text (Some type))|];
    destruct operational as [operational|]; cbn; repeat split.
Qed.

Section ListFacts.

#[local] Opaque parse_infrastructure_type int8_of_number sort_with.

Lemma operational_matches (status : option bool) (b : bool) :
  match status with Some v => Bool.eqb v b | None => false end = true <-> status = Some b.
Proof.
  destruct status as [v|]; [|split; discriminate].
  rewrite Bool.eqb_true_iff. split; [now intros ->|now intros [= ->]].
Qed.

Lemma run_built_statement_inv (s : Server) (req : Controllers.ListRequest)
    (rows : list Infrastructure) :
  Controllers.run_list_statement s (Controllers.build_list_statement req) = inr rows ->
  exists (keep : Infrastructure -> bool) (limit offset : Z),
    (forall i, keep i = true <-> type_requested req i /\ operational_requested req i)
    /\ Controllers.bigint_of_param s (limit_param req) = inr limit
    /\ Controllers.bigint_of_param s (offset_param req) = inr offset
    /\ (0 <= limit)%Z /\ (0 <= offset)%Z
    /\ rows = take (Z.to_nat limit)
                (drop (Z.to_nat offset)
                   (sort_with (fun a b => collation_le s (i_name a) (i_name b))
                      (List.filter keep (infrastructure (store s))))).
Proof.
  destruct req as [type operational limit offset].
  unfold Controllers.run_list_statement, Controllers.build_list_statement,
    type_requested, operational_requested, limit_param, offset_param,
    Controllers.nonempty_text.
  cbn [Controllers.q_type Controllers.q_operational Controllers.q_limit
       Controllers.q_offset].
  set (lp := match limit with Some t => Controllers.PText t
                         | None => Controllers.PNumber (Fin 100) end).
  set (op := match offset with Some t => Controllers.PText t
                          | None => Controllers.PNumber (Fin 0) end).
  assert (Hfinish : forall (keep : Infrastructure -> bool) (P : Infrastructure -> Prop),
    (forall i, keep i = true <-> P i) ->
    (let* limit := Controllers.bigint_of_param s lp in
     let* offset := Controllers.bigint_of_param s op in
     if (limit <? 0)%Z then throw invalid_row_count_in_limit
     else if (offset <? 0)%Z then throw invalid_row_count_in_offset
     else ret (take (Z.to_nat limit)
                 (drop (Z.to_nat offset)
                    (sort_with (fun a b => collation_le s (i_name a) (i_name b))
                       (List.filter keep (infrastructure (store s))))))) = inr rows ->
    exists (keep : Infrastructure -> bool) (limit offset : Z),
      (forall i, keep i = true <-> P i)
      /\ Controllers.bigint_of_param s lp = inr limit
      /\ Controllers.bigint_of_param s op = inr offset
      /\ (0 <= limit)%Z /\ (0 <= offset)%Z
      /\ rows = take (Z.to_nat limit)
                  (drop (Z.to_nat offset)
                     (sort_with (fun a b => collation_le s (i_name a) (i_name b))
                        (List.filter keep (infrastructure (store s)))))).
  { intros keep P Hkeep.
    destruct (Controllers.bigint_of_param s lp) as [e|l]; [discriminate|].
    destruct (Controllers.bigint_of_param s op) as [e|o]; [discriminate|].
    cbn [bind ret].
    destruct (l <? 0)%Z eqn:El; [discriminate|].
    destruct (o <? 0)%Z eqn:Eo; [discriminate|].
    intros [= <-]. exists keep, l, o.
    repeat split; try apply Hkeep; try lia; apply Hkeep. }
  destruct type as [type|]; [destruct (String.eqb type EmptyString) eqn:Etype|];
    destruct operational as [operational|];
    cbn [negb app length Controllers.placeholders Controllers.conditions
         Controllers.limit_placeholder Controllers.offset_placeholder
         Controllers.params map list_max foldr Nat.max Nat.eqb
         Controllers.condition_filters Controllers.condition_filter Controllers.param
         lookup list_lookup bind ret];
    try (destruct (parse_infrastructure_type type) as [t|] eqn:Et; [|discriminate]);
    cbn [bind ret]; apply Hfinish; intros i.
  all: try apply parse_infrastructure_type_label in Et; try subst type;
    rewrite ?andb_true_r, ?andb_true_iff, ?String.eqb_eq, ?operational_matches; tauto.
Qed.

End ListFacts.

#[local] Transparent parse_infrastructure_type int8_of_number sort_with.

Lemma StronglySorted_drop {A} (R : A -> A -> Prop) (n : nat) (l : list A) :
  StronglySorted R l -> StronglySorted R (drop n l).
Proof.
  revert l. induction n as [|n IH]; intros l Hs; [now rewrite drop_0|].
  destruct l as [|x l]; [constructor|].
  cbn. apply IH. now inversion Hs.
Qed.

Lemma In_drop {A} (n : nat) (l : list A) (x : A) : In x (drop n l) -> In x l.
Proof.
  intros Hx. apply list_elem_of_In. apply list_elem_of_In in Hx.
  exact (subseteq_drop _ _ _ Hx).
Qed.

Lemma In_take {A} (n : nat) (l : list A) (x : A) : In x (take n l) -> In x l.
Proof.
  intros Hx. apply list_elem_of_In. apply list_elem_of_In in Hx.
  exact (subseteq_take _ _ _ Hx).
Qed.

Lemma getInfrastructure_inv (s : Server) (req : Controllers.ListRequest)
    (r : Http.Response (list Infrastructure)) :
  Controllers.getInfrastructure s req = Http.Responded r ->
  exists rows,
    r = Controllers.ok rows
    /\ Controllers.run_list_statement s (Controllers.build_list_statement req) = inr rows.
Proof.
  unfold Controllers.getInfrastructure, other_query.
  destruct (also_rejects s SelectInfrastructureList); [discriminate|].
  destruct (Controllers.run_list_statement s (Controllers.build_list_statement req))
    as [e|rows]; [discriminate|].
  cbn. intros [= <-]. now exists rows.
Qed.

(** Whenever [getInfrastructure] answers, it answers 200 with sites of
    the table that meet the filters of the request (a non-empty [type]
    is the site's type; [operational], when present, selects the
    operational sites only for the text "true" and the non-operational
    ones for any other text), in ascending order of name, at most as
    many as the limit (100 by default); without an offset, and when
    fewer rows than the limit come back, these are all such sites. *)
Theorem getInfrastructure_rows :
  forall (s : Server) (req : Controllers.ListRequest)
         (r : Http.Response (list Infrastructure)),
    collates s ->
    Controllers.getInfrastructure s req = Http.Responded r ->
    Http.status r = 200%Z /\ Http.success r = true
    /\ exists (rows : list Infrastructure) (limit offset : Z),
         Http.data r = Some rows
         /\ Controllers.bigint_of_param s (limit_param req) = inr limit
         /\ Controllers.bigint_of_param s (offset_param req) = inr offset
         /\ (Controllers.q_limit req = None -> limit = 100%Z)
         /\ (Controllers.q_offset req = None -> offset = 0%Z)
         /\ (0 <= limit)%Z /\ (0 <= offset)%Z
         /\ (Z.of_nat (length rows) <= limit)%Z
         /\ StronglySorted (by_name s) rows
         /\ (forall i, In i rows ->
               In i (infrastructure (store s))
               /\ type_requested req i /\ operational_requested req i)
         /\ (offset = 0%Z -> (Z.of_nat (length rows) < limit)%Z ->
             forall i, In i (infrastructure (store s)) ->
                       type_requested req i -> operational_requested req i ->
                       In i rows).
Proof.
  intros s req r [Htotal Htrans] Hr.
  apply getInfrastructure_inv in Hr as (rows & -> & Hrun).
  apply run_built_statement_inv in Hrun
    as (keep & limit & offset & Hkeep & Hlimit & Hoffset & Hl & Ho & ->).
  split; [reflexivity|]. split; [reflexivity|].
  set (sorted := sort_with _ (List.filter keep (infrastructure (store s)))).
  assert (Hperm : Permutation sorted (List.filter keep (infrastructure (store s))))
    by apply sort_with_perm.
  exists (take (Z.to_nat limit) (drop (Z.to_nat offset) sorted)), limit, offset.
  split; [reflexivity|]. split; [exact Hlimit|]. split; [exact Hoffset|].
  split.
  { intros E. unfold limit_param in Hlimit. rewrite E in Hlimit.
    vm_compute in Hlimit. now injection Hlimit as <-. }
  split.
  { intros E. unfold offset_param in Hoffset. rewrite E in Hoffset.
    vm_compute in Hoffset. now injection Hoffset as <-. }
  split; [exact Hl|]. split; [exact Ho|].
  split; [rewrite length_take; lia|]. split.
  - apply StronglySorted_take, StronglySorted_drop.
    apply (sort_with_sorted (fun a b => collation_le s (i_name a) (i_name b))).
    + intros a b. apply Htotal.
    + intros a b c. apply Htrans.
  - split.
    + intros i Hi. apply In_take, In_drop in Hi.
      apply (Permutation_in _ Hperm), List.filter_In in Hi as [Hi Hk].
      apply Hkeep in Hk. tauto.
    + intros -> Hlen i Hi Ht Hop.
      rewrite length_take in Hlen. cbn [Z.to_nat drop] in *. rewrite drop_0 in *.
      rewrite take_ge by lia.
      apply (Permutation_in _ (Permutation_sym Hperm)), List.filter_In.
      split; [exact Hi|]. apply Hkeep. tauto.
Qed.

Lemma string_compare_trans (a b c : string) :
  String.compare a b <> Gt -> String.compare b c <> Gt -> String.compare a c <> Gt.
Proof.
  revert b c. induction a as [|x a IH]; intros [|y b] [|z c]; cbn; try congruence.
  unfold Ascii.compare.
  destruct (N.compare_spec (Ascii.N_of_ascii x) (Ascii.N_of_ascii y)) as [E1|E1|E1],
    (N.compare_spec (Ascii.N_of_ascii y) (Ascii.N_of_ascii z)) as [E2|E2|E2],
    (N.compare_spec (Ascii.N_of_ascii x) (Ascii.N_of_ascii z)) as [E3|E3|E3];
    try congruence; try lia.
  apply IH.
Qed.

Lemma string_leb_trans (a b c : string) :
  String.leb a b = true -> String.leb b c = true -> String.leb a c = true.
Proof.
  unfold String.leb. intros Hab Hbc.
  pose proof (string_compare_trans a b c) as H.
  destruct (String.compare a b), (String.compare b c), (String.compare a c);
    try discriminate; try reflexivity; exfalso; apply H; congruence.
Qed.

Lemma serving_collates (db : Db) : collates (serving db).
Proof.
  split; cbn.
  - apply String.leb_total.
  - apply string_leb_trans.
Qed.

(** The list of [city] without filters holds its one hospital. *)
Lemma getInfrastructure_rows_witness :
  exists r,
    Controllers.getInfrastructure (serving (Planar.city Planar.never_rejects))
      (Controllers.mkListRequest None None None None) = Http.Responded r
    /\ Http.status r = 200%Z.
Proof.
  eexists. split; [vm_compute; reflexivity|].
  apply (getInfrastructure_rows (serving (Planar.city Planar.never_rejects))
           (Controllers.mkListRequest None None None None)).
  - apply serving_collates.
  - vm_compute. reflexivity.
Defined.

(** ** Route parameters used as integers *)

Lemma drop_digits_pretty_N_go (x : N) (s : string) :
  (0 < x)%N -> drop_digits (pretty_N_go x s) = drop_digits s.
Proof.
  revert s. induction (N.lt_wf_0 x) as [x _ IH]. intros s Hx.
  rewrite pretty_N_go_step by exact Hx.
  pose proof (digit_value_pretty_N_char (x `mod` 10)%N) as Hdigit.
  assert (Hmod : (x `mod` 10 < 10)%N) by (apply N.mod_lt; discriminate).
  specialize (Hdigit Hmod).
  assert (Hlt : (x `div` 10 < x)%N) by (apply N.div_lt; [exact Hx|reflexivity]).
  destruct (N.eq_dec (x `div` 10)%N 0%N) as [Hsmall|Hbig].
  - rewrite Hsmall, pretty_N_go_0. cbn [drop_digits]. now rewrite Hdigit.
  - rewrite IH; [|exact Hlt|now apply N.neq_0_lt_0].
    cbn [drop_digits]. now rewrite Hdigit.
Qed.

(** The database reads back every integer printed as decimal text. *)
Lemma integer_text_pretty (z : Z) : integer_text (pretty z) = Some z.
Proof.
  destruct z as [|p|p].
  - reflexivity.
  - change (pretty (Z.pos p)) with (pretty_N_go (N.pos p) EmptyString).
    destruct (leading_digits_pretty_N_go (N.pos p) EmptyString)
      as (Hread & c & rest & Hshape & Hc); [lia|].
    pose proof (drop_digits_pretty_N_go (N.pos p) EmptyString ltac:(lia)) as Hdrop.
    destruct (digit_is_no_sign c rest Hc) as (Hskip & Hminus & Hplus).
    unfold integer_text. rewrite Hshape, Hskip.
    assert (Hbody : leading_digits (String c rest) None = Some (Z.pos p)).
    { rewrite <- Hshape, Hread. reflexivity. }
    rewrite Hshape in Hdrop.
    destruct c as [[] [] [] [] [] [] [] []]; try congruence;
      rewrite Hbody, Hdrop; reflexivity.
  - change (pretty (Z.neg p)) with (String "-"%char (pretty_N_go (N.pos p) EmptyString)).
    unfold integer_text. cbn [skip_spaces].
    destruct (leading_digits_pretty_N_go (N.pos p) EmptyString) as [Hread _]; [lia|].
    rewrite Hread, drop_digits_pretty_N_go by lia. reflexivity.
Qed.

Lemma int4_parameter_read (s : Server) (text : string) (z : Z) :
  integer_input s text = Some z ->
  (-2147483648 <= z <= 2147483647)%Z -> int4_parameter s text = ret z.
Proof.
  intros Hread Hz. unfold int4_parameter. rewrite Hread.
  destruct (Z.leb_spec (-2147483648) z); [|lia].
  destruct (Z.leb_spec z 2147483647); [|lia].
  reflexivity.
Qed.

Lemma int4_parameter_inv (s : Server) (text : string) (n : Z) :
  int4_parameter s text = inr n ->
  integer_input s text = Some n /\ (-2147483648 <= n <= 2147483647)%Z.
Proof.
  unfold int4_parameter. destruct (integer_input s text) as [z|]; [|discriminate].
  destruct (Z.leb_spec (-2147483648) z); [|discriminate].
  destruct (Z.leb_spec z 2147483647); [|discriminate].
  cbn. intros [= <-]. split; [reflexivity|lia].
Qed.

(** ** The impact controllers *)

Lemma with_store_same (s : Server) : with_store s (store s) = s.
Proof. now destruct s. Qed.

Lemma stored_id_row (db : Db) (n : Z) :
  In n (map d_id (disasters db)) ->
  exists d rest, In d (disasters db) /\ d_id d = n
    /\ List.filter (fun d' => Z.eqb (d_id d') n) (disasters db) = d :: rest.
Proof.
  intros Hn. apply in_map_iff in Hn as (d & <- & Hd).
  assert (Hin : In d (List.filter (fun d' => Z.eqb (d_id d') (d_id d)) (disasters db))).
  { apply List.filter_In. split; [exact Hd|apply Z.eqb_refl]. }
  destruct (List.filter _ (disasters db)) as [|d0 rest] eqn:E; [destruct Hin|].
  assert (Hd0 : In d0 (List.filter (fun d' => Z.eqb (d_id d') (d_id d)) (disasters db)))
    by (rewrite E; now left).
  apply List.filter_In in Hd0 as [Hd0 Hid]. apply Z.eqb_eq in Hid.
  exists d0, rest. auto.
Qed.

Lemma disaster_check_rows (s : Server) (id : string) (ids : list Z) :
  Controllers.disaster_check s id = inr ids ->
  exists n, int4_parameter s id = inr n
    /\ (ids = [] <-> ~ In n (map d_id (disasters (store s)))).
Proof.
  unfold Controllers.disaster_check, Controllers.with_id.
  destruct (also_rejects s SelectDisasterId); [discriminate|].
  destruct (int4_parameter s id) as [e|n]; [discriminate|].
  cbn [bind ret]. intros [= <-]. exists n. split; [reflexivity|].
  split.
  - intros Hnil Hin. apply stored_id_row in Hin as (d & rest & _ & _ & Hrows).
    rewrite Hrows in Hnil. discriminate.
  - intros Hno. now rewrite no_disaster_row.
Qed.

Section ControllerFacts.

Context `{PostGIS}.

Lemma calculateImpact_cases (s s' : Server) (id : string)
    (h : Http.Handled Controllers.ImpactBody) :
  Controllers.calculateImpact s id = (h, s') ->
  (exists e, h = Http.Next e /\ s' = s)
  \/ (exists n, int4_parameter s id = inr n
        /\ ~ In n (map d_id (disasters (store s)))
        /\ h = Http.Responded (Http.failure 404 "Disaster not found") /\ s' = s)
  \/ (exists n full db',
        int4_parameter s id = inr n
        /\ In n (map d_id (disasters (store s)))
        /\ ImpactCalculation.calculateFullImpact (store s) n = (inr full, db')
        /\ h = Http.Responded (Controllers.ok (Controllers.mkImpactBody id full))
        /\ s' = with_store s db').
Proof.
  unfold Controllers.calculateImpact.
  destruct (Controllers.disaster_check s id) as [e|ids] eqn:Hcheck.
  - intros [= <- <-]. left. eauto.
  - apply disaster_check_rows in Hcheck as (n & Hn & Hids).
    rewrite Hn. destruct ids as [|first rest].
    + intros [= <- <-]. right. left. exists n. repeat split; try assumption.
      now apply Hids.
    + destruct (ImpactCalculation.calculateFullImpact (store s) n) as [[e|full] db']
        eqn:Hrun; intros [= <- <-].
      * left. exists e. split; [reflexivity|].
        apply calculateFullImpact_failure_stores_nothing in Hrun. subst db'.
        apply with_store_same.
      * right. right. exists n, full, db'. repeat split; try assumption.
        destruct (in_dec Z.eq_dec n (map d_id (disasters (store s)))) as [Hin|Hno];
          [exact Hin|].
        apply Hids in Hno. discriminate.
Qed.

End ControllerFacts.

(** [calculateImpact] changes the database only when it answers 200:
    when it passes an error on, or answers 404 "Disaster not found",
    the server is as before; when it answers 200 the body echoes the
    route parameter as [disaster_id], and exactly one assessment row
    has been appended, for the disaster the parameter converts to and
    numbered like the assessment sent.  No other answer is given. *)
Theorem calculateImpact_stores_only_on_200 :
  forall (G : PostGIS) (s s' : Server) (id : string)
         (h : Http.Handled Controllers.ImpactBody),
    Controllers.calculateImpact s id = (h, s') ->
    match h with
    | Http.Next _ => s' = s
    | Http.Responded r =>
        (Http.status r = 404%Z /\ Http.success r = false
         /\ Http.message r = Some "Disaster not found" /\ Http.data r = None
         /\ s' = s)
        \/ (Http.status r = 200%Z /\ Http.success r = true
            /\ exists body n row,
                 Http.data r = Some body
                 /\ Controllers.sent_disaster_id body = id
                 /\ int4_parameter s id = inr n
                 /\ ImpactCalculation.disaster_id
                      (ImpactCalculation.assessment (Controllers.sent_impact body)) = n
                 /\ In n (map d_id (disasters (store s)))
                 /\ impact_assessments (store s')
                    = impact_assessments (store s) ++ [row]
                 /\ ia_disaster_id row = n
                 /\ ia_id row
                    = ImpactCalculation.assessment_id (Controllers.sent_impact body)
                 /\ disasters (store s') = disasters (store s)
                 /\ also_rejects s' = also_rejects s)
    end.
Proof.
  intros G s s' id h Hrun.
  apply calculateImpact_cases in Hrun
    as [(e & -> & ->)|[(n & Hn & Hno & -> & ->)|(n & full & db' & Hn & Hin & Hfull & -> & ->)]].
  - reflexivity.
  - left. repeat split.
  - right. split; [reflexivity|]. split; [reflexivity|].
    apply calculateFullImpact_effect in Hfull
      as (Hid & Hdid & _ & Hd & _ & _ & _ & row & Hrows & Hrow & Hrowd & _).
    exists (Controllers.mkImpactBody id full), n, row.
    cbn. repeat split; assumption.
Qed.

(** An unknown text id in [city] is answered 404 and stores nothing. *)
Lemma calculateImpact_stores_only_on_200_witness :
  snd (Controllers.calculateImpact (serving (Planar.city Planar.never_rejects)) "7")
  = serving (Planar.city Planar.never_rejects).
Proof.
  pose proof (calculateImpact_stores_only_on_200 Planar.planar
                (serving (Planar.city Planar.never_rejects))
                (serving (Planar.city Planar.never_rejects)) "7"
                (Http.Responded (Http.failure 404 "Disaster not found"))) as Hcase.
  cbv beta iota in Hcase.
  assert (Hrun : Controllers.calculateImpact
                   (serving (Planar.city Planar.never_rejects)) "7"
                 = (Http.Responded (Http.failure 404 "Disaster not found"),
                    serving (Planar.city Planar.never_rejects)))
    by (vm_compute; reflexivity).
  specialize (Hcase Hrun). rewrite Hrun. cbn [snd].
  destruct Hcase as [(_ & _ & _ & _ & Hsame)|(Hstatus & _)];
    [exact Hsame|discriminate Hstatus].
Defined.



Section SummaryControllerFacts.

Context `{PostGIS}.

Lemma getDisasterImpact_cases (s : Server) (id : string)
    (h : Http.Handled SpatialAnalysis.ImpactSummary) :
  Controllers.getDisasterImpact s id = h ->
  (exists e, h = Http.Next e)
  \/ (exists n, int4_parameter s id = inr n
        /\ ~ In n (map d_id (disasters (store s)))
        /\ h = Http.Responded (Http.failure 404 "Disaster not found"))
  \/ (exists n summary,
        int4_parameter s id = inr n
        /\ In n (map d_id (disasters (store s)))
        /\ SpatialAnalysis.getDisasterImpactSummary (store s) n = inr summary
        /\ h = Http.Responded (Controllers.ok summary)).
Proof.
  unfold Controllers.getDisasterImpact.
  destruct (Controllers.disaster_check s id) as [e|ids] eqn:Hcheck.
  - intros <-. left. cbn. eauto.
  - apply disaster_check_rows in Hcheck as (n & Hn & Hids).
    cbn [bind]. destruct ids as [|first rest].
    + intros <-. right. left. exists n. repeat split; try assumption.
      now apply Hids.
    + rewrite Hn. cbn [bind].
      destruct (SpatialAnalysis.getDisasterImpactSummary (store s) n)
        as [e|summary] eqn:Hsum; intros <-.
      * left. cbn. eauto.
      * right. right. exists n, summary. repeat split; try assumption.
        destruct (in_dec Z.eq_dec n (map d_id (disasters (store s)))) as [Hin|Hno];
          [exact Hin|].
        apply Hids in Hno. discriminate.
Qed.

End SummaryControllerFacts.

(** [getDisasterImpact] answers 404 "Disaster not found" exactly for an
    id that converts to an integer no stored disaster carries; its only
    other answer is 200 with the impact summary of a stored disaster,
    whose evacuation zones are then always present. *)
Theorem getDisasterImpact_answers :
  forall (G : PostGIS) (s : Server) (id : string)
         (r : Http.Response SpatialAnalysis.ImpactSummary),
    Controllers.getDisasterImpact s id = Http.Responded r ->
    exists n,
      int4_parameter s id = inr n
      /\ ((~ In n (map d_id (disasters (store s)))
           /\ r = Http.failure 404 "Disaster not found")
          \/ (In n (map d_id (disasters (store s)))
              /\ Http.status r = 200%Z
              /\ exists summary zones,
                   Http.data r = Some summary
                   /\ SpatialAnalysis.getDisasterImpactSummary (store s) n = inr summary
                   /\ SpatialAnalysis.evacuation_zones summary = Some zones)).
Proof.
  intros G s id r Hr.
  apply getDisasterImpact_cases in Hr
    as [(e & He)|[(n & Hn & Hno & Hr)|(n & summary & Hn & Hin & Hsum & Hr)]].
  - discriminate He.
  - injection Hr as ->. exists n. split; [exact Hn|]. left. split; [exact Hno|reflexivity].
  - injection Hr as ->. exists n. split; [exact Hn|]. right.
    split; [exact Hin|]. split; [reflexivity|].
    pose proof Hsum as Hparts.
    apply getDisasterImpactSummary_inv in Hparts
      as (infra & zones & _ & Hzones & Hz & _).
    destruct (stored_id_row (store s) n Hin) as (d & rest & _ & _ & Hrows).
    unfold SpatialAnalysis.createEvacuationZones, query, SpatialAnalysis.zone_rows
      in Hzones.
    destruct (rejects (store s) SelectEvacuationZones); [discriminate|].
    rewrite Hrows in Hzones. cbn in Hzones. injection Hzones as <-.
    eexists summary, _. split; [reflexivity|]. split; [exact Hsum|]. exact Hz.
Qed.

Lemma getDisasterImpact_answers_witness :
  Controllers.getDisasterImpact (serving (Planar.city Planar.never_rejects)) "7"
  = Http.Responded (Http.failure 404 "Disaster not found")
  /\ exists n, int4_parameter (serving (Planar.city Planar.never_rejects)) "7" = inr n.
Proof.
  split; [vm_compute; reflexivity|].
  destruct (getDisasterImpact_answers Planar.planar
              (serving (Planar.city Planar.never_rejects)) "7"
              (Http.failure 404 "Disaster not found")) as (n & Hn & _).
  - vm_compute. reflexivity.
  - exists n. exact Hn.
Defined.

(** A route id that is not the text of an integer is answered 400
    "Invalid data format" by every handler that uses it in a statement,
    once the statement is executed: the conversion error of the database
    (SQLSTATE 22P02) is passed on and mapped by the error handler; the
    assessment handler leaves the server untouched. *)
Theorem text_id_not_integer_is_400 :
  forall (G : PostGIS) (s : Server) (id : string),
    integer_input s id = None ->
    (also_rejects s SelectDisasterId = None ->
       Http.respond (fst (Controllers.calculateImpact s id))
       = Http.failure 400 "Invalid data format"
       /\ snd (Controllers.calculateImpact s id) = s
       /\ Http.respond (Controllers.getDisasterImpact s id)
          = Http.failure 400 "Invalid data format")
    /\ (also_rejects s SelectInfrastructureById = None ->
          Http.respond (Controllers.getInfrastructureById s id)
          = Http.failure 400 "Invalid data format")
    /\ (rejects (store s) SelectEvacuationZones = None ->
          Http.respond (Controllers.getEvacuationZones s id)
          = Http.failure 400 "Invalid data format").
Proof.
  intros G s id Hbad.
  assert (Hconv : int4_parameter s id = inl invalid_text_representation).
  { unfold int4_parameter. now rewrite Hbad. }
  split; [|split].
  - intros Hq.
    unfold Controllers.calculateImpact, Controllers.getDisasterImpact,
      Controllers.disaster_check, Controllers.with_id.
    rewrite Hq, Hconv. repeat split.
  - intros Hq. unfold Controllers.getInfrastructureById, Controllers.with_id.
    rewrite Hq, Hconv. reflexivity.
  - intros Hq. unfold Controllers.getEvacuationZones.
    rewrite Hq, Hconv. reflexivity.
Qed.

Lemma text_id_not_integer_is_400_witness :
  Http.respond
    (Controllers.getInfrastructureById (serving (Planar.city Planar.never_rejects)) "abc")
  = Http.failure 400 "Invalid data format".
Proof.
  apply (text_id_not_integer_is_400 Planar.planar
           (serving (Planar.city Planar.never_rejects)) "abc").
  - vm_compute. reflexivity.
  - reflexivity.
Defined.

(** [getEvacuationZones] makes no existence check: for an id that
    converts to an integer no stored disaster carries it answers 200
    with [success: true] and no data, where the two assessment handlers
    answer 404; for a stored disaster it answers 200 with the zones of
    that disaster. *)
Theorem getEvacuationZones_without_check :
  forall (G : PostGIS) (s : Server) (id : string) (n : Z),
    int4_parameter s id = inr n ->
    rejects (store s) SelectEvacuationZones = None ->
    exists r,
      Controllers.getEvacuationZones s id = Http.Responded r
      /\ Http.status r = 200%Z /\ Http.success r = true
      /\ exists zones,
           Http.data r = Some zones
           /\ (zones = None <-> ~ In n (map d_id (disasters (store s))))
           /\ (forall z, zones = Some z ->
                 exists d, In d (disasters (store s)) /\ d_id d = n
                   /\ SpatialAnalysis.zone_1km z = ST_Buffer (d_geometry d) 1000
                   /\ SpatialAnalysis.zone_5km z = ST_Buffer (d_geometry d) 5000
                   /\ SpatialAnalysis.zone_10km z = ST_Buffer (d_geometry d) 10000).
Proof.
  intros G s id n Hn Hq.
  unfold Controllers.getEvacuationZones. rewrite Hq, Hn. cbn [bind].
  unfold SpatialAnalysis.createEvacuationZones, query. rewrite Hq.
  cbn [try_catch bind ret Controllers.send_or_next].
  eexists. split; [reflexivity|]. split; [reflexivity|]. split; [reflexivity|].
  eexists. split; [reflexivity|].
  unfold SpatialAnalysis.zone_rows.
  destruct (in_dec Z.eq_dec n (map d_id (disasters (store s)))) as [Hin|Hno].
  - destruct (stored_id_row (store s) n Hin) as (d & rest & Hd & Hid & Hrows).
    rewrite Hrows. cbn. split.
    + split; [discriminate|tauto].
    + intros z [= <-]. exists d. repeat split; assumption.
  - rewrite (no_disaster_row _ _ Hno). cbn. split; [tauto|discriminate].
Qed.

Lemma getEvacuationZones_without_check_witness :
  exists r,
    Controllers.getEvacuationZones (serving (Planar.city Planar.never_rejects)) "7"
    = Http.Responded r
    /\ Http.status r = 200%Z.
Proof.
  destruct (getEvacuationZones_without_check Planar.planar
              (serving (Planar.city Planar.never_rejects)) "7" 7)
    as (r & Hr & Hstatus & _).
  - vm_compute. reflexivity.
  - reflexivity.
  - exists r. split; [exact Hr|exact Hstatus].
Defined.

(** ** Infrastructure by id and by type *)

(** [getInfrastructureById] answers 404 "Infrastructure not found" for
    an id that converts to an integer no site carries, and otherwise 200
    with a site of that id; it gives no other answer of its own. *)
Theorem getInfrastructureById_answers :
  forall (s : Server) (id : string) (r : Http.Response Infrastructure),
    Controllers.getInfrastructureById s id = Http.Responded r ->
    exists n,
      int4_parameter s id = inr n
      /\ (((forall i, In i (infrastructure (store s)) -> i_id i <> n)
           /\ r = Http.failure 404 "Infrastructure not found")
          \/ (exists i, In i (infrastructure (store s)) /\ i_id i = n
                        /\ r = Controllers.ok i)).
Proof.
  intros s id r. unfold Controllers.getInfrastructureById, Controllers.with_id.
  destruct (also_rejects s SelectInfrastructureById); [discriminate|].
  destruct (int4_parameter s id) as [e|n]; [discriminate|].
  cbn [bind ret]. intros H. exists n. split; [reflexivity|].
  destruct (List.filter (fun i => Z.eqb (i_id i) n) (infrastructure (store s)))
    as [|row rest] eqn:Hrows; cbn in H; injection H as <-.
  - left. split; [|reflexivity]. intros i Hi Hid.
    assert (Hin : In i (List.filter (fun i => Z.eqb (i_id i) n)
                          (infrastructure (store s)))).
    { apply List.filter_In. split; [exact Hi|]. now apply Z.eqb_eq. }
    rewrite Hrows in Hin. destruct Hin.
  - right. exists row.
    assert (Hin : In row (List.filter (fun i => Z.eqb (i_id i) n)
                            (infrastructure (store s))))
      by (rewrite Hrows; now left).
    apply List.filter_In in Hin as [Hin Hid]. apply Z.eqb_eq in Hid.
    repeat split; assumption.
Qed.

Lemma getInfrastructureById_answers_witness :
  Controllers.getInfrastructureById (serving (Planar.city Planar.never_rejects)) "5"
  = Http.Responded (Controllers.ok (Planar.hospital_at 5 (mkPoint 3 4) (Some true)))
  /\ exists n, int4_parameter (serving (Planar.city Planar.never_rejects)) "5" = inr n.
Proof.
  split; [vm_compute; reflexivity|].
  destruct (getInfrastructureById_answers
              (serving (Planar.city Planar.never_rejects)) "5"
              (Controllers.ok (Planar.hospital_at 5 (mkPoint 3 4) (Some true))))
    as (n & Hn & _).
  - vm_compute. reflexivity.
  - exists n. exact Hn.
Defined.

Lemma is_of_type_iff (t : infrastructure_type) (i : Infrastructure) :
  is_of_type t i = true <-> i_type i = t.
Proof.
  unfold is_of_type. rewrite String.eqb_eq.
  split; [|now intros ->].
  destruct (i_type i), t; intros E; try reflexivity; discriminate E.
Qed.

(** [getByType] answers 200 with all sites of the type named in the
    route, operational or not, in ascending order of name and without a
    limit; for a label that is not an infrastructure type the statement
    fails and the answer is 400 "Invalid data format". *)
Theorem getByType_answers :
  forall (s : Server) (type : string),
    collates s ->
    also_rejects s SelectInfrastructureByType = None ->
    match parse_infrastructure_type type with
    | Some t =>
        exists rows,
          Controllers.getByType s type = Http.Responded (Controllers.ok rows)
          /\ StronglySorted (by_name s) rows
          /\ Permutation rows (List.filter (is_of_type t) (infrastructure (store s)))
          /\ (forall i, In i rows <-> In i (infrastructure (store s)) /\ i_type i = t)
    | None =>
        Http.respond (Controllers.getByType s type)
        = Http.failure 400 "Invalid data format"
    end.
Proof.
  intros s type [Htotal Htrans] Hq.
  unfold Controllers.getByType, other_query. rewrite Hq.
  destruct (parse_infrastructure_type type) as [t|]; [|reflexivity].
  cbn [bind ret Controllers.send_or_next].
  eexists. split; [reflexivity|].
  fold (is_of_type t).
  pose proof (sort_with_perm (fun a b => collation_le s (i_name a) (i_name b))
                (List.filter (is_of_type t) (infrastructure (store s)))) as Hperm.
  split; [|split; [exact Hperm|]].
  - apply (sort_with_sorted (fun a b => collation_le s (i_name a) (i_name b))).
    + intros a b. apply Htotal.
    + intros a b c. apply Htrans.
  - intros i. rewrite <- is_of_type_iff, <- List.filter_In.
    split; intros Hi.
    + exact (Permutation_in _ Hperm Hi).
    + exact (Permutation_in _ (Permutation_sym Hperm) Hi).
Qed.

Lemma getByType_answers_witness :
  Http.respond
    (Controllers.getByType (serving (Planar.city Planar.never_rejects)) "castle")
  = Http.failure 400 "Invalid data format".
Proof.
  apply (getByType_answers (serving (Planar.city Planar.never_rejects)) "castle").
  - apply serving_collates.
  - reflexivity.
Defined.

(** ** The transaction helper *)

(** The statements of a transaction: nothing happens on a failed
    checkout; otherwise BEGIN comes first and the client is released
    exactly once, last, whatever fails.  The callback's value is
    returned exactly when BEGIN, the callback and COMMIT all succeed, and
    then no ROLLBACK is issued; in every other case ROLLBACK is issued
    once, after the failing step (also after a failed COMMIT), and a
    failing ROLLBACK replaces the error that caused it. *)
Theorem transaction_protocol :
  forall (A : Type) (connect : result Pool.Client)
         (callback : Pool.Client -> result A),
    let outcome := fst (Pool.transaction connect callback) in
    let log := snd (Pool.transaction connect callback) in
    match connect with
    | inl error => outcome = inl error /\ log = []
    | inr client =>
        head log = Some Pool.Begin
        /\ last log = Some Pool.Release
        /\ count_occ Pool.Event_eq_dec log Pool.Release = 1%nat
        /\ count_occ Pool.Event_eq_dec log Pool.Begin = 1%nat
        /\ (In Pool.Commit log <->
            Pool.begin_rejected client = None
            /\ exists value, callback client = inr value)
        /\ (forall value,
              outcome = inr value <->
              Pool.begin_rejected client = None
              /\ callback client = inr value
              /\ Pool.commit_rejected client = None)
        /\ match outcome with
           | inr _ => log = [Pool.Begin; Pool.Commit; Pool.Release]
           | inl error =>
               count_occ Pool.Event_eq_dec log Pool.Rollback = 1%nat
               /\ (exists before, log = before ++ [Pool.Rollback; Pool.Release])
               /\ (forall error', Pool.rollback_rejected client = Some error' ->
                                  error = error')
           end
    end.
Proof.
  intros A [error|[b c r]] callback; cbn; [split; reflexivity|].
  destruct b as [eb|], (callback _) as [ec|value] eqn:Hcb, c as [ecm|], r as [er|];
    cbn; rewrite ?Hcb;
    repeat match goal with
    | |- _ /\ _ => split
    | |- _ <-> _ => split
    | |- forall _, _ => intro
    end;
    try reflexivity; try congruence; try discriminate;
    repeat match goal with
    | H : _ /\ _ |- _ => destruct H
    | H : exists _, _ |- _ => destruct H
    | H : _ \/ _ |- _ => destruct H
    | H : False |- _ => destruct H
    end;
    try congruence; try discriminate; eauto;
    try (now exists [Pool.Begin]); try (now exists [Pool.Begin; Pool.Commit]);
    try (cbn in *; intuition congruence).
Qed.

(** ** Grouping clustered disasters *)

Lemma cluster_sizes_sum (clustered : list (Point * nat)) (cs : list nat) :
  NoDup cs ->
  (forall pc, In pc clustered -> In (snd pc) cs) ->
  list_sum (map (fun c => length (SpatialAnalysis.cluster_members clustered c)) cs)
  = length clustered.
Proof.
  intros Hnd. induction clustered as [|pc rest IH]; intros Hcover.
  - clear Hnd Hcover. induction cs as [|c cs IHcs]; [reflexivity|].
    cbn in *. exact IHcs.
  - specialize (IH (fun pc' H => Hcover pc' (or_intror H))).
    assert (Hc : In (snd pc) cs) by (apply Hcover; now left).
    unfold SpatialAnalysis.cluster_members in *.
    cbn [List.filter length].
    rewrite <- IH. clear IH Hcover.
    induction cs as [|c cs IHcs]; [destruct Hc|].
    apply NoDup_cons in Hnd as [Hnotin Hnd].
    cbn [map list_sum].
    destruct (Nat.eqb_spec (snd pc) c) as [E|E].
    + cbn [map length]. subst c.
      assert (Hrest : map (fun c => length (map fst
                         (List.filter (fun pc0 => Nat.eqb (snd pc0) c) (pc :: rest)))) cs
                      = map (fun c => length (map fst
                         (List.filter (fun pc0 => Nat.eqb (snd pc0) c) rest))) cs).
      { apply map_ext_in. intros c Hin. cbn [List.filter].
        destruct (Nat.eqb_spec (snd pc) c) as [E|E]; [|reflexivity].
        subst c. exfalso. apply Hnotin. now apply list_elem_of_In. }
      cbn [List.filter] in Hrest. rewrite Hrest.
      unfold list_sum. cbn [fold_right]. lia.
    + destruct Hc as [Hc|Hc]; [congruence|].
      specialize (IHcs Hnd Hc). cbn [List.filter] in IHcs.
      unfold list_sum in *. cbn [fold_right]. lia.
Qed.

Lemma StronglySorted_weaken {A} (R R' : A -> A -> Prop) (l : list A) :
  (forall a b, R a b -> R' a b) -> StronglySorted R l -> StronglySorted R' l.
Proof.
  intros Himpl. induction 1 as [|x l Hs IH Hall]; constructor; [exact IH|].
  eapply List.Forall_impl; [|exact Hall]. intros b. apply Himpl.
Qed.

Lemma list_sum_perm (l l' : list nat) : Permutation l l' -> list_sum l = list_sum l'.
Proof. unfold list_sum. induction 1; cbn [fold_right]; lia. Qed.

(** The hotspot rows partition the clustered disasters: there is one
    row for every cluster number that occurs and none else, no two rows
    share a number, every row counts at least one disaster and is
    centered on the mean position of its members, the counts add up to
    the number of disasters clustered, and the rows come in descending
    order of count. *)
Theorem group_clusters_partition :
  forall clustered : list (Point * nat),
    let rows := SpatialAnalysis.group_clusters clustered in
    NoDup (map SpatialAnalysis.cluster_id rows)
    /\ (forall c, In c (map SpatialAnalysis.cluster_id rows) <-> In c (map snd clustered))
    /\ Forall (fun row =>
                 (0 < members_of clustered row)%nat
                 /\ SpatialAnalysis.disaster_count row
                    = bigint_text (Z.of_nat (members_of clustered row))
                 /\ parseInt (SpatialAnalysis.disaster_count row)
                    = of_Z (Z.of_nat (members_of clustered row))
                 /\ SpatialAnalysis.cluster_center row
                    = mean_point (SpatialAnalysis.cluster_members clustered
                                    (SpatialAnalysis.cluster_id row))
                 /\ SpatialAnalysis.cluster_center row <> None)
              rows
    /\ list_sum (map (members_of clustered) rows) = length clustered
    /\ StronglySorted
         (fun a b => (members_of clustered b <= members_of clustered a)%nat) rows.
Proof.
  intros clustered rows. subst rows. unfold SpatialAnalysis.group_clusters.
  set (key := fun c => - inject_Z (Z.of_nat (length (SpatialAnalysis.cluster_members
                                                        clustered c)))).
  set (cs := remove_dups (map snd clustered)).
  pose proof (order_by_perm key cs) as Hperm.
  assert (Hnd : NoDup cs) by apply NoDup_remove_dups.
  assert (Hcs : forall c, In c cs <-> In c (map snd clustered)).
  { intros c. unfold cs. rewrite <- !list_elem_of_In. apply elem_of_remove_dups. }
  assert (Hids : map SpatialAnalysis.cluster_id
                   (map (fun c =>
                      {| SpatialAnalysis.cluster_id := c;
                         SpatialAnalysis.disaster_count :=
                           bigint_text (Z.of_nat (length
                             (SpatialAnalysis.cluster_members clustered c)));
                         SpatialAnalysis.cluster_center :=
                           mean_point (SpatialAnalysis.cluster_members clustered c) |})
                      (order_by key cs))
                 = order_by key cs).
  { rewrite List.map_map. cbn. apply List.map_id. }
  split; [|split; [|split; [|split]]].
  - rewrite Hids. now rewrite Hperm.
  - intros c. rewrite Hids, <- Hcs.
    split; intros Hc.
    + exact (Permutation_in _ Hperm Hc).
    + exact (Permutation_in _ (Permutation_sym Hperm) Hc).
  - apply Forall_map, List.Forall_forall. intros c Hc.
    apply (Permutation_in _ Hperm), Hcs, in_map_iff in Hc as (pc & <- & Hpc).
    unfold members_of.
    cbn [SpatialAnalysis.cluster_id SpatialAnalysis.disaster_count
         SpatialAnalysis.cluster_center].
    assert (Hin : In (fst pc) (SpatialAnalysis.cluster_members clustered (snd pc))).
    { unfold SpatialAnalysis.cluster_members. apply List.in_map, List.filter_In.
      split; [exact Hpc|apply Nat.eqb_refl]. }
    destruct (SpatialAnalysis.cluster_members clustered (snd pc)) as [|m ms];
      [destruct Hin|].
    repeat split.
    + cbn. lia.
    + apply parseInt_bigint_text.
    + discriminate.
  - unfold members_of. rewrite List.map_map. cbn [SpatialAnalysis.cluster_id].
    rewrite (list_sum_perm _ _ (Permutation_map _ Hperm)).
    apply cluster_sizes_sum; [exact Hnd|].
    intros pc Hpc. apply Hcs. now apply List.in_map.
  - apply StronglySorted_map.
    eapply StronglySorted_weaken; [|apply (order_by_sorted key cs)].
    intros a b Hab. unfold key_le, key, members_of in *.
    cbn [SpatialAnalysis.cluster_id].
    apply Qopp_le_compat in Hab. rewrite !Qopp_involutive in Hab.
    rewrite <- Zle_Qle in Hab. lia.
Qed.

(** ** The error handler *)

(** The error handler never reports success and never sends data, a
    status 0 or an empty message.  The three SQLSTATEs it knows take
    precedence over the error's name and status code; any other error
    with one of the three names it knows is answered by name, whatever
    its status code; every remaining error is answered with its own
    status code and message, 500 and "Internal server error" standing in
    for a missing or zero code and an empty message. *)
Theorem errorHandler_mapping :
  forall (A : Type) (e : Error),
    let r := @Http.errorHandler A e in
    Http.success r = false /\ Http.data r = None
    /\ Http.status r <> 0%Z
    /\ Http.message r <> None /\ Http.message r <> Some EmptyString
    /\ (err_code e = Some "23505" -> r = Http.failure 409 "Resource already exists")
    /\ (err_code e = Some "23503" ->
        r = Http.failure 400 "Invalid reference to related resource")
    /\ (err_code e = Some "22P02" -> r = Http.failure 400 "Invalid data format")
    /\ (err_code e <> Some "23505" -> err_code e <> Some "23503" ->
        err_code e <> Some "22P02" ->
        (err_name e = "ValidationError" -> r = Http.failure 400 "Validation error")
        /\ (err_name e = "JsonWebTokenError" -> r = Http.failure 401 "Invalid token")
        /\ (err_name e = "TokenExpiredError" -> r = Http.failure 401 "Token expired")
        /\ (err_name e <> "ValidationError" -> err_name e <> "JsonWebTokenError" ->
            err_name e <> "TokenExpiredError" ->
            Http.status r = match err_statusCode e with
                            | Some c => if (c =? 0)%Z then 500%Z else c
                            | None => 500%Z
                            end
            /\ Http.message r
               = Some (if String.eqb (err_message e) EmptyString
                       then "Internal server error" else err_message e))).
Proof.
  intros A [name code msg sc]. cbv zeta. unfold Http.errorHandler.
  cbn [err_name err_code err_message err_statusCode].
  assert (Hby_name :
    forall r : Http.Response A,
      r = (if String.eqb name "ValidationError" then Http.failure 400 "Validation error"
           else if String.eqb name "JsonWebTokenError"
                then Http.failure 401 "Invalid token"
           else if String.eqb name "TokenExpiredError"
                then Http.failure 401 "Token expired"
           else Http.failure
                  match sc with
                  | Some c => if (c =? 0)%Z then 500%Z else c
                  | None => 500%Z
                  end
                  (if String.eqb msg EmptyString then "Internal server error" else msg)) ->
      Http.success r = false /\ Http.data r = None /\ Http.status r <> 0%Z
      /\ Http.message r <> None /\ Http.message r <> Some EmptyString
      /\ (name = "ValidationError" -> r = Http.failure 400 "Validation error")
      /\ (name = "JsonWebTokenError" -> r = Http.failure 401 "Invalid token")
      /\ (name = "TokenExpiredError" -> r = Http.failure 401 "Token expired")
      /\ (name <> "ValidationError" -> name <> "JsonWebTokenError" ->
          name <> "TokenExpiredError" ->
          Http.status r = match sc with
                          | Some c => if (c =? 0)%Z then 500%Z else c
                          | None => 500%Z
                          end
          /\ Http.message r
             = Some (if String.eqb msg EmptyString
                     then "Internal server error" else msg))).
  { intros r ->.
    destruct (String.eqb_spec name "ValidationError") as [->|Hv];
      [cbn; repeat split; try discriminate; congruence|].
    destruct (String.eqb_spec name "JsonWebTokenError") as [->|Hj];
      [cbn; repeat split; try discriminate; congruence|].
    destruct (String.eqb_spec name "TokenExpiredError") as [->|Ht];
      [cbn; repeat split; try discriminate; congruence|].
    cbn. repeat split; try discriminate; try congruence.
    - destruct sc as [c|]; [|discriminate].
      destruct (Z.eqb_spec c 0); [discriminate|assumption].
    - destruct (String.eqb_spec msg EmptyString); [discriminate|congruence]. }
  destruct code as [code|].
  - destruct (String.eqb_spec code EmptyString) as [->|Hempty].
    + specialize (Hby_name _ eq_refl).
      intuition (try discriminate; try congruence).
    + destruct (String.eqb_spec code "23505") as [->|H05];
        [cbn; repeat split; try discriminate; congruence|].
      destruct (String.eqb_spec code "23503") as [->|H03];
        [cbn; repeat split; try discriminate; congruence|].
      destruct (String.eqb_spec code "22P02") as [->|H02];
        [cbn; repeat split; try discriminate; congruence|].
      specialize (Hby_name _ eq_refl).
      intuition (try discriminate; try congruence).
  - specialize (Hby_name _ eq_refl).
    intuition (try discriminate; try congruence).
Qed.

(** ** Limits and cluster counts from the query string *)

Lemma parseInt_digits_cases (sign : Z) (rest : string) :
  parseInt_digits sign rest = NaN \/ exists z, parseInt_digits sign rest = of_Z z.
Proof.
  unfold parseInt_digits. destruct (strip_hex_prefix rest) as [hex|].
  - destruct (leading_hex_digits hex None); [right; eauto|now left].
  - destruct (leading_digits rest None); [right; eauto|now left].
Qed.

Lemma parseInt_text_cases (text : string) :
  parseInt_text text = NaN \/ exists z, parseInt_text text = of_Z z.
Proof.
  unfold parseInt_text.
  destruct (skip_white_space text) as [|c rest].
  - apply parseInt_digits_cases.
  - destruct c as [[] [] [] [] [] [] [] []]; apply parseInt_digits_cases.
Qed.

Lemma parsed_or_5_cases (limit : option string) :
  parsed_or_5 limit = NaN \/ exists z, parsed_or_5 limit = of_Z z.
Proof.
  destruct limit as [text|]; [apply parseInt_text_cases|].
  right. exists 5%Z. reflexivity.
Qed.

Lemma label_not_empty (label : string) (t : infrastructure_type) :
  parse_infrastructure_type label = Some t -> String.eqb label EmptyString = false.
Proof.
  intros Hp. apply parse_infrastructure_type_label in Hp. subst label.
  now destruct t.
Qed.

(** What [findNearest] does with the [limit] of the query string, for a
    known type and an executed statement.  A limit that [parseInt]
    cannot read is answered 400 "Invalid data format".  A limit read as
    the whole number n is sent to the database in the digits printed for
    the double nearest to n, those of n itself below 2^53: when no plain
    digits are printed (from 10^21 on) the answer is 400 as well; digits
    outside the range of a [bigint] are answered 500; negative ones 500
    "LIMIT must not be negative"; and for digits [0 <= m < 2^63] (5 when
    no limit is given) the answer is 200 with the m first operational
    sites of the type, or all of them when there are fewer.  [parseInt]
    reads "0x10" as 16 and skips a leading tab; 2^63 is sent as
    9223372036854776000, and 10^21 not in plain digits. *)
Theorem findNearest_limit :
  forall (G : PostGIS) (db : Db) (point : Point) (label : string)
         (t : infrastructure_type) (limit : option string),
    parse_infrastructure_type label = Some t ->
    rejects db SelectNearestInfrastructure = None ->
    let answer :=
      Http.findNearest db (Http.mkNearestRequest point (Some label) limit) in
    (limit = None -> parsed_or_5 limit = of_Z 5)
    /\ (parsed_or_5 limit = NaN ->
        Http.respond answer = Http.failure 400 "Invalid data format")
    /\ (forall n, parsed_or_5 limit = of_Z n ->
          ((Z.abs n < 2 ^ 53)%Z -> integer_digits (of_Z n) = Some n)
          /\ (integer_digits (of_Z n) = None ->
              Http.respond answer = Http.failure 400 "Invalid data format")
          /\ (forall sent, integer_digits (of_Z n) = Some sent ->
                ((sent < - 2 ^ 63 \/ 2 ^ 63 <= sent)%Z ->
                 Http.status (Http.respond answer) = 500%Z
                 /\ Http.success (Http.respond answer) = false
                 /\ Http.data (Http.respond answer) = None)
                /\ ((- 2 ^ 63 <= sent < 0)%Z ->
                    Http.respond answer
                    = Http.failure 500 "LIMIT must not be negative")
                /\ ((0 <= sent < 2 ^ 63)%Z ->
                    exists rows,
                      answer
                      = Http.Responded (Http.mkResponse 200 true None (Some rows))
                      /\ length rows
                         = Nat.min (Z.to_nat sent)
                             (length (SpatialAnalysis.nearest_candidates db
                                        (Some t))))))
    /\ parsed_or_5 (Some "0x10") = of_Z 16
    /\ parsed_or_5 (Some (String "009"%char "2")) = of_Z 2
    /\ integer_digits (of_Z (2 ^ 63)) = Some 9223372036854776000%Z
    /\ integer_digits (of_Z (10 ^ 21)) = None.
Proof.
  intros G db point label t limit Hp Hq answer. subst answer.
  split; [now intros ->|].
  unfold Http.findNearest.
  cbn [Http.req_type Http.req_limit Http.req_point].
  rewrite (label_not_empty _ _ Hp).
  fold (parsed_or_5 limit).
  unfold SpatialAnalysis.findNearestInfrastructure, query,
    SpatialAnalysis.nearest_rows.
  rewrite Hq, Hp. cbn [bind ret].
  split; [|split; [|repeat split; vm_compute; reflexivity]].
  - intros ->. reflexivity.
  - intros n ->. unfold int8_of_number.
    split; [apply integer_digits_small|].
    split; [intros ->; reflexivity|].
    intros sent ->.
    change 9223372036854775807%Z with (2 ^ 63 - 1)%Z.
    change (-9223372036854775808)%Z with (- 2 ^ 63)%Z.
    destruct (Z.leb_spec (- 2 ^ 63) sent) as [Hlow|Hlow];
      [destruct (Z.leb_spec sent (2 ^ 63 - 1)) as [Hhigh|Hhigh]|];
      cbn [andb bind ret throw try_catch].
    + split; [intros; lia|].
      destruct (Z.ltb_spec sent 0) as [Hneg|Hpos]; cbn [try_catch throw ret].
      * split; [reflexivity|intros; lia].
      * split; [intros; lia|]. intros _.
        eexists. split; [reflexivity|].
        rewrite length_map, length_take, order_by_length. reflexivity.
    + split; [intros; repeat split|]. split; intros; lia.
    + split; [intros; repeat split|]. split; intros; lia.
Qed.

(** One of the three open hospitals of [twin_hospitals] for limit 1. *)
Lemma findNearest_limit_witness :
  exists rows,
    Http.findNearest Planar.twin_hospitals
      (Http.mkNearestRequest Planar.origin (Some "hospital") (Some "1"))
    = Http.Responded (Http.mkResponse 200 true None (Some rows))
    /\ length rows = 1%nat.
Proof.
  destruct (findNearest_limit Planar.planar Planar.twin_hospitals Planar.origin
              "hospital" hospital (Some "1")) as (_ & _ & Hrows & _).
  - reflexivity.
  - reflexivity.
  - destruct (Hrows 1%Z eq_refl) as (_ & _ & Hsent).
    destruct (Hsent 1%Z eq_refl) as (_ & _ & Hfound).
    destruct Hfound as (rows & Hrun & Hlen); [vm_compute; split; congruence|].
    exists rows. split; [exact Hrun|]. rewrite Hlen. reflexivity.
Defined.

(** [getDisasterHotspots] on an executed statement: a type that is not
    a disaster type, or a cluster count [parseInt] cannot read, is
    answered 400 "Invalid data format"; a known type without any
    disaster of the last five years is answered 200 with an empty list,
    whatever number of clusters in the range of an [integer] is asked
    for, without the clustering being run.  The five years are calendar
    years: five years before 1 March 2024 is 1 March 2019, one day less
    in seconds since the beginning of the year. *)
Theorem getDisasterHotspots_edges :
  forall (G : PostGIS) (s : Server) (type : string) (clusters : option string),
    rejects (store s) SelectDisasterHotspots = None ->
    (SpatialAnalysis.parse_disaster_type type = None ->
     Http.respond (Controllers.getDisasterHotspots s type clusters)
     = Http.failure 400 "Invalid data format")
    /\ (parsed_or_5 clusters = NaN ->
        Http.respond (Controllers.getDisasterHotspots s type clusters)
        = Http.failure 400 "Invalid data format")
    /\ (forall t k,
          SpatialAnalysis.parse_disaster_type type = Some t ->
          parsed_or_5 clusters = of_Z k ->
          (-2147483648 <= k <= 2147483647)%Z ->
          SpatialAnalysis.hotspot_centroids (store s) t = [] ->
          Controllers.getDisasterHotspots s type clusters
          = Http.Responded (Controllers.ok []))
    /\ minus_years (mkTimestamp 2024 (60 * 86400)) 5 = mkTimestamp 2019 (59 * 86400)
    /\ minus_years (mkTimestamp 2025 (59 * 86400)) 5 = mkTimestamp 2020 (60 * 86400).
Proof.
  intros G s type clusters Hq.
  unfold Controllers.getDisasterHotspots. fold (parsed_or_5 clusters).
  unfold SpatialAnalysis.calculateDisasterHotspots, query,
    SpatialAnalysis.hotspot_rows.
  rewrite Hq.
  split; [|split; [|split; [|split; reflexivity]]].
  - intros ->. reflexivity.
  - intros ->. destruct (SpatialAnalysis.parse_disaster_type type); reflexivity.
  - intros t k -> -> _ Hnone. cbn [bind ret]. rewrite bigint_parameter_whole.
    cbn [bind ret]. rewrite Hnone. reflexivity.
Qed.

(** No earthquake of the last five years is stored with [three_fires]. *)
Lemma getDisasterHotspots_edges_witness :
  Controllers.getDisasterHotspots (serving Planar.three_fires) "earthquake" None
  = Http.Responded (Controllers.ok []).
Proof.
  destruct (getDisasterHotspots_edges Planar.planar (serving Planar.three_fires)
              "earthquake" None) as (_ & _ & Hempty & _).
  - reflexivity.
  - apply (Hempty earthquake 5%Z); [reflexivity|reflexivity|lia|reflexivity].
Defined.

(** ** The figures of a stored assessment *)

Lemma add_of_Z (a b : Z) : add (of_Z a) (of_Z b) = of_Z (a + b).
Proof.
  unfold of_Z, add, inject_Z, Qplus. cbn [Qnum Qden].
  rewrite !Z.mul_1_r. reflexivity.
Qed.

Section FigureFacts.

Context `{PostGIS}.

Lemma calculateFullImpact_inv (db db' : Db) (disasterId : Z)
    (full : ImpactCalculation.FullImpact) :
  ImpactCalculation.calculateFullImpact db disasterId = (inr full, db') ->
  exists summary loss zones,
    SpatialAnalysis.getDisasterImpactSummary db disasterId = inr summary
    /\ ImpactCalculation.estimateEconomicLoss db disasterId
         (SpatialAnalysis.ps_total (SpatialAnalysis.population summary)) = inr loss
    /\ SpatialAnalysis.evacuation_zones summary = Some zones
    /\ ImpactCalculation.infrastructure_details full
       = SpatialAnalysis.is_details (SpatialAnalysis.infrastructure_summary summary)
    /\ ImpactCalculation.assessment full
       = {| ImpactCalculation.disaster_id := disasterId;
            ImpactCalculation.affected_population :=
              SpatialAnalysis.ps_total (SpatialAnalysis.population summary);
            ImpactCalculation.affected_households :=
              SpatialAnalysis.ps_households (SpatialAnalysis.population summary);
            ImpactCalculation.vulnerable_population :=
              add (add (SpatialAnalysis.ps_elderly (SpatialAnalysis.population summary))
                       (SpatialAnalysis.ps_children (SpatialAnalysis.population summary)))
                  (SpatialAnalysis.ps_disabled (SpatialAnalysis.population summary));
            ImpactCalculation.affected_hospitals :=
              or_default
                (SpatialAnalysis.is_by_type
                   (SpatialAnalysis.infrastructure_summary summary) !! "hospital")
                (Fin 0);
            ImpactCalculation.affected_shelters :=
              or_default
                (SpatialAnalysis.is_by_type
                   (SpatialAnalysis.infrastructure_summary summary)
                 !! "emergency_shelter")
                (Fin 0);
            ImpactCalculation.affected_critical_infrastructure :=
              SpatialAnalysis.is_total (SpatialAnalysis.infrastructure_summary summary);
            ImpactCalculation.estimated_economic_loss := loss;
            ImpactCalculation.affected_area_sq_km :=
              SpatialAnalysis.area_10km_sq_km zones |}.
Proof.
  unfold ImpactCalculation.calculateFullImpact.
  destruct (SpatialAnalysis.getDisasterImpactSummary db disasterId)
    as [e1|summary]; [discriminate|].
  destruct (ImpactCalculation.estimateEconomicLoss db disasterId _)
    as [e2|loss] eqn:Hloss; [discriminate|].
  destruct (SpatialAnalysis.evacuation_zones summary) as [zones|] eqn:Hz;
    [|discriminate].
  destruct (ImpactCalculation.insert_assessment db _ zones) as [[e3|[id time]] db''];
    [discriminate|].
  intros [= <- <-]. exists summary, loss, zones. repeat split; assumption.
Qed.

End FigureFacts.

(** The figures of a returned assessment in terms of the tables: the
    population and household figures are the sums over the census blocks
    intersecting the disaster, the vulnerable population is the sum of
    the elderly, children and disabled sums, the hospital and shelter
    figures count the sites of these types within 10 km, the critical
    infrastructure figure counts all sites within 10 km, and the details
    are the first ten of them; when the disaster row is read, the loss is
    the loss arithmetic applied to that population and to the type,
    severity and area of a stored disaster with the id. *)
Theorem calculateFullImpact_figures :
  forall (G : PostGIS) (db db' : Db) (disasterId : Z)
         (full : ImpactCalculation.FullImpact),
    ImpactCalculation.calculateFullImpact db disasterId = (inr full, db') ->
    let a := ImpactCalculation.assessment full in
    let blocks := SpatialAnalysis.affected_blocks db disasterId in
    let sites := SpatialAnalysis.infrastructure_rows db disasterId 10%Q in
    let sum column := default 0%Z (sql_sum (map column blocks)) in
    ImpactCalculation.affected_population a
    = of_Z (fold_right Z.add 0%Z (map cb_population blocks))
    /\ ImpactCalculation.affected_households a = of_Z (sum cb_households)
    /\ ImpactCalculation.vulnerable_population a
       = of_Z (sum cb_elderly_population + sum cb_children_population
               + sum cb_disabled_population)
    /\ ImpactCalculation.affected_hospitals a
       = of_Z (Z.of_nat (length (rows_of_type "hospital" sites)))
    /\ ImpactCalculation.affected_shelters a
       = of_Z (Z.of_nat (length (rows_of_type "emergency_shelter" sites)))
    /\ ImpactCalculation.affected_critical_infrastructure a
       = of_Z (Z.of_nat (length sites))
    /\ ImpactCalculation.infrastructure_details full = take 10 sites
    /\ (rejects db SelectDisasterDetails = None ->
        exists d, In d (disasters db) /\ d_id d = disasterId
          /\ ImpactCalculation.estimated_economic_loss a
             = estimateLoss (Some (disaster_type_label (d_type d)))
                 (severity_label <$> d_severity d)
                 (ImpactCalculation.affected_population a)
                 (Fin <$> d_area_sq_km d)).
Proof.
  intros G db db' disasterId full Hrun a blocks sites sum.
  pose proof (calculateFullImpact_effect _ _ _ _ Hrun) as (_ & _ & Hstored & _).
  apply calculateFullImpact_inv in Hrun
    as (summary & loss & zones & Hsum & Hloss & Hz & Hdetails & Ha).
  apply getDisasterImpactSummary_inv in Hsum
    as (infra & zones' & Hinfra & _ & _ & Hpart & Hpop).
  apply findAffectedInfrastructure_10_inv in Hinfra.
  cbv zeta in Hpop. fold blocks in Hpop. fold sites in Hinfra. subst infra.
  subst a. rewrite Ha.
  cbn [ImpactCalculation.affected_population ImpactCalculation.affected_households
       ImpactCalculation.vulnerable_population ImpactCalculation.affected_hospitals
       ImpactCalculation.affected_shelters
       ImpactCalculation.affected_critical_infrastructure
       ImpactCalculation.estimated_economic_loss].
  rewrite Hdetails, Hpart.
  cbn [SpatialAnalysis.is_total SpatialAnalysis.is_by_type SpatialAnalysis.is_details].
  rewrite !infrastructureByType_tally, !tally_or_0.
  assert (Htotal : SpatialAnalysis.ps_total (SpatialAnalysis.population summary)
                   = of_Z (fold_right Z.add 0%Z (map cb_population blocks))).
  { rewrite Hpop. cbn [SpatialAnalysis.ps_total]. rewrite parseInt_or_0_bigint.
    rewrite <- (sql_sum_not_null (map cb_population blocks)), List.map_map.
    reflexivity. }
  split; [exact Htotal|].
  split; [rewrite Hpop; cbn [SpatialAnalysis.ps_households];
          apply parseInt_or_0_bigint|].
  split.
  { rewrite Hpop.
    cbn [SpatialAnalysis.ps_elderly SpatialAnalysis.ps_children
         SpatialAnalysis.ps_disabled].
    rewrite !parseInt_or_0_bigint, !add_of_Z. reflexivity. }
  do 4 (split; [reflexivity|]).
  intros Hq.
  destruct (stored_id_row db disasterId Hstored) as (d & rest & Hd & Hid & Hrows).
  exists d. split; [exact Hd|]. split; [exact Hid|].
  assert (Hfound : ImpactCalculation.estimateEconomicLoss db disasterId
                     (SpatialAnalysis.ps_total (SpatialAnalysis.population summary))
                   = inr (estimateLoss (Some (disaster_type_label (d_type d)))
                            (severity_label <$> d_severity d)
                            (SpatialAnalysis.ps_total (SpatialAnalysis.population summary))
                            (Fin <$> d_area_sq_km d))).
  { unfold ImpactCalculation.estimateEconomicLoss, query,
      ImpactCalculation.disaster_details.
    rewrite Hq, Hrows. reflexivity. }
  rewrite Hloss in Hfound. now injection Hfound as ->.
Qed.

(** The assessment of disaster 1 in [city] counts its one hospital. *)
Lemma calculateFullImpact_figures_witness :
  exists full db',
    ImpactCalculation.calculateFullImpact (Planar.city Planar.never_rejects) 1
    = (inr full, db')
    /\ ImpactCalculation.affected_hospitals (ImpactCalculation.assessment full)
       = of_Z 1.
Proof.
  eexists _, _. split; [vm_compute; reflexivity|].
  apply (calculateFullImpact_figures Planar.planar (Planar.city Planar.never_rejects)
           _ 1 _ eq_refl).
Defined.

(** ** When the impact summary fails *)

(** The impact summary is returned, for every id, exactly when none of
    its three statements is rejected: the population row is never
    missing, so the summary itself never throws; when it fails, the
    error is the one a rejected statement was rejected with. *)
Theorem getDisasterImpactSummary_fails_only_on_rejection :
  forall (G : PostGIS) (db : Db) (disasterId : Z),
    ((exists summary,
        SpatialAnalysis.getDisasterImpactSummary db disasterId = inr summary)
     <-> rejects db SelectAffectedPopulation = None
         /\ rejects db SelectAffectedInfrastructure = None
         /\ rejects db SelectEvacuationZones = None)
    /\ (forall e,
          SpatialAnalysis.getDisasterImpactSummary db disasterId = inl e ->
          rejects db SelectAffectedPopulation = Some e
          \/ rejects db SelectAffectedInfrastructure = Some e
          \/ rejects db SelectEvacuationZones = Some e).
Proof.
  intros G db disasterId.
  unfold SpatialAnalysis.getDisasterImpactSummary,
    SpatialAnalysis.calculateAffectedPopulation,
    SpatialAnalysis.findAffectedInfrastructure,
    SpatialAnalysis.createEvacuationZones, query,
    SpatialAnalysis.population_rows.
  destruct (rejects db SelectAffectedPopulation) as [e1|];
    destruct (rejects db SelectAffectedInfrastructure) as [e2|];
    destruct (rejects db SelectEvacuationZones) as [e3|];
    cbn; (split; [split|]);
    try (intros [summary Hs]; discriminate Hs);
    try (intros (H1 & H2 & H3); discriminate);
    try (intros e [= <-]; auto);
    try (intros e He; discriminate He);
    eauto.
Qed.

(** ** Disasters by id and by type *)

Lemma getDisasterById_rows (s : Server) (id : string) (n : Z) (d : Disaster)
    (rest : list Disaster) :
  also_rejects s SelectDisasterById = None ->
  int4_parameter s id = inr n ->
  List.filter (fun d' => Z.eqb (d_id d') n) (disasters (store s)) = d :: rest ->
  Controllers.getDisasterById s id
  = Http.Responded
      (Controllers.ok
         {| Controllers.counted_disaster := d;
            Controllers.impact_assessment_count :=
              bigint_text
                (Z.of_nat (length (Controllers.assessments_of (store s) d))) |}).
Proof.
  intros Hq Hn Hrows. unfold Controllers.getDisasterById, Controllers.with_id.
  rewrite Hq, Hn. cbn [bind ret]. rewrite Hrows. reflexivity.
Qed.

(** [getDisasterById] answers 404 "Disaster not found" for an id that
    converts to an integer no stored disaster carries, and otherwise 200
    with a disaster of that id and, as decimal text that [parseInt] reads
    back, the number of assessments stored for it. *)
Theorem getDisasterById_counts_assessments :
  forall (s : Server) (id : string) (r : Http.Response Controllers.DisasterWithCount),
    Controllers.getDisasterById s id = Http.Responded r ->
    exists n,
      int4_parameter s id = inr n
      /\ ((~ In n (map d_id (disasters (store s)))
           /\ r = Http.failure 404 "Disaster not found")
          \/ (exists row,
                r = Controllers.ok row
                /\ In (Controllers.counted_disaster row) (disasters (store s))
                /\ d_id (Controllers.counted_disaster row) = n
                /\ parseInt (Controllers.impact_assessment_count row)
                   = of_Z (Z.of_nat
                             (length (Controllers.assessments_of (store s)
                                        (Controllers.counted_disaster row)))))).
Proof.
  intros s id r. unfold Controllers.getDisasterById, Controllers.with_id.
  destruct (also_rejects s SelectDisasterById); [discriminate|].
  destruct (int4_parameter s id) as [e|n]; [discriminate|].
  cbn [bind ret]. intros Hr. exists n. split; [reflexivity|].
  destruct (in_dec Z.eq_dec n (map d_id (disasters (store s)))) as [Hin|Hno].
  - right. destruct (stored_id_row (store s) n Hin) as (d & rest & Hd & Hid & Hrows).
    rewrite Hrows in Hr. cbn in Hr. injection Hr as <-.
    eexists. split; [reflexivity|]. cbn. repeat split; try assumption.
    apply parseInt_bigint_text.
  - left. rewrite (no_disaster_row _ _ Hno) in Hr. cbn in Hr. injection Hr as <-.
    split; [exact Hno|reflexivity].
Qed.

Lemma getDisasterById_counts_assessments_witness :
  Controllers.getDisasterById (serving (Planar.city Planar.never_rejects)) "7"
  = Http.Responded (Http.failure 404 "Disaster not found")
  /\ exists n, int4_parameter (serving (Planar.city Planar.never_rejects)) "7" = inr n.
Proof.
  split; [vm_compute; reflexivity|].
  destruct (getDisasterById_counts_assessments
              (serving (Planar.city Planar.never_rejects)) "7"
              (Http.failure 404 "Disaster not found")) as (n & Hn & _).
  - vm_compute. reflexivity.
  - exists n. exact Hn.
Defined.

(** After [calculateImpact] has answered 200 for a route id,
    [getDisasterById] for the same id shows the same disaster with an
    assessment count one higher than before. *)
Theorem assessment_count_follows_calculateImpact :
  forall (G : PostGIS) (s s' : Server) (id : string) (body : Controllers.ImpactBody),
    Controllers.calculateImpact s id = (Http.Responded (Controllers.ok body), s') ->
    also_rejects s SelectDisasterById = None ->
    exists (d : Disaster) (k : nat),
      Controllers.getDisasterById s id
      = Http.Responded
          (Controllers.ok (Controllers.mkDisasterWithCount d (bigint_text (Z.of_nat k))))
      /\ Controllers.getDisasterById s' id
         = Http.Responded
             (Controllers.ok
                (Controllers.mkDisasterWithCount d (bigint_text (Z.of_nat (S k))))).
Proof.
  intros G s s' id body Hrun Hq.
  apply calculateImpact_cases in Hrun
    as [(e & He & _)|[(n & _ & _ & Hr & _)|(n & full & db' & Hn & Hin & Hfull & _ & ->)]];
    [discriminate He|discriminate Hr|].
  apply calculateFullImpact_effect in Hfull
    as (_ & _ & _ & Hd & _ & _ & _ & row & Hrows & _ & Hrow & _).
  destruct (stored_id_row (store s) n Hin) as (d & rest & _ & Hid & Hfilter).
  exists d, (length (Controllers.assessments_of (store s) d)).
  split; [now apply (getDisasterById_rows s id n d rest)|].
  assert (Hcount : length (Controllers.assessments_of db' d)
                   = S (length (Controllers.assessments_of (store s) d))).
  { unfold Controllers.assessments_of. rewrite Hrows, List.filter_app, length_app.
    cbn [List.filter]. rewrite Hrow, Hid, Z.eqb_refl. cbn. lia. }
  rewrite <- Hcount.
  apply (getDisasterById_rows (with_store s db') id n d rest).
  - exact Hq.
  - exact Hn.
  - cbn [with_store store]. rewrite Hd. exact Hfilter.
Qed.

Lemma assessment_count_follows_calculateImpact_witness :
  exists (d : Disaster) (k : nat),
    Controllers.getDisasterById (serving (Planar.city Planar.never_rejects)) "1"
    = Http.Responded
        (Controllers.ok (Controllers.mkDisasterWithCount d (bigint_text (Z.of_nat k)))).
Proof.
  assert (Hrun : exists body s',
             Controllers.calculateImpact (serving (Planar.city Planar.never_rejects)) "1"
             = (Http.Responded (Controllers.ok body), s')).
  { eexists _, _. vm_compute. reflexivity. }
  destruct Hrun as (body & s' & Hrun).
  destruct (assessment_count_follows_calculateImpact Planar.planar
              (serving (Planar.city Planar.never_rejects)) s' "1" body Hrun eq_refl)
    as (d & k & Hbefore & _).
  exists d, k. exact Hbefore.
Defined.

Lemma disaster_type_label_inj (a b : disaster_type) :
  disaster_type_label a = disaster_type_label b -> a = b.
Proof. destruct a, b; intros E; try reflexivity; discriminate E. Qed.

(** Whenever [getDisastersByType] answers, it answers 200 with stored
    disasters of the type named in the route, newest start time first,
    at most as many as the limit (50 by default); when fewer rows than
    the limit come back, these are all disasters of the type. *)
Theorem getDisastersByType_rows :
  forall (s : Server) (type : string) (limit : option string)
         (r : Http.Response (list Disaster)),
    Controllers.getDisastersByType s type limit = Http.Responded r ->
    Http.status r = 200%Z /\ Http.success r = true
    /\ exists (rows : list Disaster) (t : disaster_type) (n : Z),
         Http.data r = Some rows
         /\ SpatialAnalysis.parse_disaster_type type = Some t
         /\ (limit = None -> n = 50%Z)
         /\ (forall text, limit = Some text ->
               integer_input s text = Some n)
         /\ (0 <= n)%Z
         /\ (Z.of_nat (length rows) <= n)%Z
         /\ StronglySorted newest_first rows
         /\ (forall d, In d rows -> In d (disasters (store s)) /\ d_type d = t)
         /\ ((Z.of_nat (length rows) < n)%Z ->
             forall d, In d (disasters (store s)) -> d_type d = t -> In d rows).
Proof.
  intros s type limit r.
  unfold Controllers.getDisastersByType, other_query.
  destruct (also_rejects s SelectDisastersByType); [discriminate|].
  destruct (SpatialAnalysis.parse_disaster_type type) as [t|] eqn:Ht; [|discriminate].
  cbn [bind ret].
  destruct (Controllers.bigint_of_param s _) as [e|n] eqn:Hn; [discriminate|].
  cbn [bind ret].
  destruct (n <? 0)%Z eqn:Hneg; [discriminate|].
  cbn [bind ret Controllers.send_or_next]. intros [= <-].
  split; [reflexivity|]. split; [reflexivity|].
  set (matching := List.filter _ (disasters (store s))).
  set (sorted := sort_with _ matching).
  assert (Hperm : Permutation sorted matching) by apply sort_with_perm.
  assert (Hmatch : forall d, In d matching <-> In d (disasters (store s)) /\ d_type d = t).
  { intros d. unfold matching. rewrite List.filter_In, String.eqb_eq.
    split; intros [Hd E]; (split; [exact Hd|]).
    - now apply disaster_type_label_inj.
    - now rewrite E. }
  exists (take (Z.to_nat n) sorted), t, n.
  split; [reflexivity|]. split; [reflexivity|].
  split.
  { intros ->. vm_compute in Hn. now injection Hn as <-. }
  split.
  { intros text ->. cbn in Hn.
    destruct (integer_input s text) as [z|]; [|discriminate].
    destruct ((-9223372036854775808 <=? z) && (z <=? 9223372036854775807))%Z;
      [|discriminate].
    now injection Hn as ->. }
  split; [lia|]. split; [rewrite length_take; lia|].
  split.
  { apply StronglySorted_take.
    apply (sort_with_sorted (fun a b => not_earlier (d_start_time a) (d_start_time b))).
    - intros a b. apply not_earlier_total.
    - intros a b c. apply not_earlier_trans. }
  split.
  - intros d Hd. apply In_take in Hd. apply Hmatch.
    exact (Permutation_in _ Hperm Hd).
  - intros Hlen d Hd Htype. rewrite length_take in Hlen.
    rewrite take_ge by lia.
    apply (Permutation_in _ (Permutation_sym Hperm)), Hmatch. auto.
Qed.

(** The one earthquake of [city]. *)
Lemma getDisastersByType_rows_witness :
  Controllers.getDisastersByType (serving (Planar.city Planar.never_rejects))
    "earthquake" None
  = Http.Responded (Controllers.ok [Planar.quake])
  /\ Http.status (Controllers.ok [Planar.quake]) = 200%Z.
Proof.
  split; [vm_compute; reflexivity|].
  apply (getDisastersByType_rows (serving (Planar.city Planar.never_rejects))
           "earthquake" None).
  vm_compute. reflexivity.
Defined.
